(** * ModESP manifest tooling: validator and processor

    A shallow embedding of [tools/manifest_validator.py], of the
    pipeline of [tools/process_manifests.py] and of the component
    collection of [tools/adaptive_ui_generator.py], followed by the
    properties of the specification that concern them and by further
    properties of the code.

    Python values are modelled as follows.
    - [str] is [string] (a sequence of bytes, UTF-8); comparison is
      lexicographic on bytes, which on UTF-8 is the code point order.
      [upper] acts on the ASCII letters.
    - [dict] with string keys is an association list kept in insertion
      order, as Python dicts iterate in that order.
    - a dataclass is a record; a [List] is a [list].
    - a manifest is a record of the keys the code reads, each key that
      may be absent an [option]; values the code only passes on are
      [json]. A manifest whose values have other types than the ones the
      code expects is outside the model, but for the values kept as
      [json]: what the code does with a ['ui']['static'] that is not a
      dict, up to the TypeError it raises, is modelled.
    - in-place mutation of [self], the logger, the files written and the
      clock are explicit state; an exception leaves what was mutated
      before it. *)

From Stdlib Require Import String Ascii List Bool Arith ZArith Lia.
From Stdlib Require Import Permutation Sorting.Sorted DecimalString.
Import ListNotations.
Local Open Scope string_scope.
Local Open Scope list_scope.

(** ** Python containers and strings *)

(** Values produced by [json.load]. *)
#[local] Unset Elimination Schemes.
Inductive json : Type :=
| JNull
| JBool (b : bool)
| JNum (z : Z)
| JStr (s : string)
| JArr (l : list json)
| JObj (d : list (string * json)).
#[local] Set Elimination Schemes.

(** A Python dict with [str] keys, in insertion order. *)
Definition dict (V : Type) : Type := list (string * V).

Module PyDict.
Section Ops.
Context {V : Type}.

(** [d.get(k)] *)
Fixpoint get (k : string) (d : dict V) : option V :=
match d with
| [] => None
| (k', v) :: d' => if k' =? k then Some v else get k d'
end.

(** [k in d] *)
Definition contains (k : string) (d : dict V) : bool :=
match get k d with Some _ => true | None => false end.

(** [d[k] = v]: an existing key keeps its position, a new one goes last. *)
Fixpoint set (k : string) (v : V) (d : dict V) : dict V :=
match d with
| [] => [(k, v)]
| (k', v') :: d' =>
    if k' =? k then (k, v) :: d' else (k', v') :: set k v d'
end.

(** [d.get(k, default)] *)
Definition get_default (k : string) (default : V) (d : dict V) : V :=
match get k d with Some v => v | None => default end.

(** [d.keys()] / iteration over [d] *)
Definition keys (d : dict V) : list string := map fst d.

(** [d.items()] *)
Definition items (d : dict V) : list (string * V) := d.
End Ops.

(** [if key not in table: table[key] = []] followed by
    [table[key].append(x)] *)
Definition append_to {X : Type} (x : X) (table : dict (list X))
    (key : string) : dict (list X) :=
  let table :=
    if negb (contains key table) then set key [] table else table in
  set key (get_default key [] table ++ [x]) table.
End PyDict.

(** Python's sort is stable: elements that compare equal keep their
    order. Insertion from the right, before the first element that is not
    smaller, is the model of it. *)
Section StableSort.
Context {A : Type} (le : A -> A -> bool).

Fixpoint insert_sorted (x : A) (l : list A) : list A :=
  match l with
  | [] => [x]
  | y :: l' => if le x y then x :: l else y :: insert_sorted x l'
  end.

Definition stable_sort (l : list A) : list A :=
  fold_right insert_sorted [] l.
End StableSort.

Module PyStr.
(** [sep.join(l)] *)
Definition join (sep : string) (l : list string) : string :=
  String.concat sep l.

Definition upper_char (c : ascii) : ascii :=
  let n := nat_of_ascii c in
  if andb (97 <=? n)%nat (n <=? 122)%nat then ascii_of_nat (n - 32) else c.

Fixpoint map_chars (f : ascii -> ascii) (s : string) : string :=
  match s with
  | EmptyString => EmptyString
  | String c s' => String (f c) (map_chars f s')
  end.

(** [s.upper()], on ASCII letters; other bytes are kept. *)
Definition upper (s : string) : string := map_chars upper_char s.

(** [s.replace(a, b)] for one-character [a] and [b]. *)
Definition replace (a b : ascii) (s : string) : string :=
  map_chars (fun c => if Ascii.eqb c a then b else c) s.

(** [c in s] for a one-character [c]. *)
Fixpoint contains_char (c : ascii) (s : string) : bool :=
  match s with
  | EmptyString => false
  | String c' s' => orb (Ascii.eqb c' c) (contains_char c s')
  end.

(** [x in l] for a list of strings. *)
Definition mem (x : string) (l : list string) : bool :=
  existsb (String.eqb x) l.

(** [a in s] for two strings: [a] occurs in [s]. *)
Fixpoint is_substring (a s : string) : bool :=
  if String.prefix a s then true
  else match s with
       | EmptyString => false
       | String _ s' => is_substring a s'
       end.

(** [str(n)] for a non-negative integer. *)
Definition of_nat (n : nat) : string :=
  NilZero.string_of_uint (Nat.to_uint n).

(** [sorted(l)] on strings. *)
Definition sorted (l : list string) : list string :=
  stable_sort String.leb l.
End PyStr.

(** [list.sort(key=...)]: stable, ascending in the key. *)
Definition sort_by_key {A : Type} (key : A -> Z) (l : list A) : list A :=
  stable_sort (fun a b => (key a <=? key b)%Z) l.

(** ** manifest_validator.py *)

Module ValidationIssue.
Record t : Type := mk
  { severity : string;       (* ERROR, WARNING, INFO *)
    category : string;       (* EVENT, STATE, API *)
    message : string;
    source_module : string;
    target : string }.
End ValidationIssue.

(** The manifests handed to the validator are dicts; the records below are
    the keys the validator and the processor read. A key that may be
    absent is an [option]. *)

(** One API entry, a [Dict[str, str]] such as
    [{"method": ..., "handler": ..., "access_level": ...}]. *)
Definition Api : Type := dict string.

(** The value under ['static'] or ['dynamic']: a list of entries, or
    something that fails [isinstance(apis, list)]. *)
Inductive ApiEntries : Type :=
| ApiList (l : list Api)
| ApiNotList.

(** The value under ['apis']: the manifest's own object, or the plain list
    that [_module_to_dict] stores there. *)
Inductive ApisValue : Type :=
| ApisDict (d : dict ApiEntries)
| ApisList (l : list Api).

Module PubSub.
Record t : Type := mk
  { publishes : option (dict json);
    subscribes : option (dict json) }.
End PubSub.

Module ModuleSection.
Record t : Type := mk
  { name : string;
    type : string;
    version : string;
    description : string;
    priority : string;
    driver_interface : option string;
    dependencies : option (list string) }.
End ModuleSection.

Module Manifest.
Record t : Type := mk
  { module : ModuleSection.t;
    ui : option json;
    apis : option ApisValue;
    event_bus : option PubSub.t;
    shared_state : option PubSub.t }.
End Manifest.

Module ManifestValidator.
Import ValidationIssue.

Record t : Type := mk
  { issues : list ValidationIssue.t;
    event_publishers : dict (list string);   (* event -> [modules] *)
    event_subscribers : dict (list string);  (* event -> [modules] *)
    state_publishers : dict (list string);   (* state -> [modules] *)
    state_subscribers : dict (list string);  (* state -> [modules] *)
    api_providers : dict string;             (* api_method -> module *)
    api_consumers : list string }.

(** [ManifestValidator()] *)
Definition init : t := mk [] [] [] [] [] [] [].

Definition with_issues (l : list ValidationIssue.t) (v : t) : t :=
  mk l (event_publishers v) (event_subscribers v) (state_publishers v)
     (state_subscribers v) (api_providers v) (api_consumers v).

(** [if key not in table: table[key] = []] then
    [table[key].append(module_name)] *)
Definition append_module (module_name : string)
    (table : dict (list string)) (key : string) : dict (list string) :=
  PyDict.append_to module_name table key.

(** [for key in section[which]: ...], when [which] is present. *)
Definition collect_keys (module_name : string)
    (entries : option (dict json)) (table : dict (list string))
    : dict (list string) :=
  match entries with
  | Some d => fold_left (append_module module_name) (PyDict.keys d) table
  | None => table
  end.

Definition api_methods_of (entries : option ApiEntries) : list string :=
  match entries with
  | Some (ApiList apis) =>
      flat_map
        (fun api =>
           let method := PyDict.get_default "method" "" api in
           if method =? "" then [] else [method])
        apis
  | Some ApiNotList => []
  | None => []
  end.

(** The methods that [collect_manifest_data] registers, in order. *)
Definition api_methods (a : option ApisValue) : list string :=
  match a with
  | Some (ApisDict d) =>
      flat_map (fun api_type => api_methods_of (PyDict.get api_type d))
               ["static"; "dynamic"]
  | Some (ApisList _) => []   (* a string is never [in] a list of dicts *)
  | None => []
  end.

Definition collect_manifest_data (module_name : string)
    (manifest : Manifest.t) (v : t) : t :=
  let '(ep, es) :=
    match Manifest.event_bus manifest with
    | Some eb =>
        (collect_keys module_name (PubSub.publishes eb) (event_publishers v),
         collect_keys module_name (PubSub.subscribes eb) (event_subscribers v))
    | None => (event_publishers v, event_subscribers v)
    end in
  let '(sp, ss) :=
    match Manifest.shared_state manifest with
    | Some st =>
        (collect_keys module_name (PubSub.publishes st) (state_publishers v),
         collect_keys module_name (PubSub.subscribes st) (state_subscribers v))
    | None => (state_publishers v, state_subscribers v)
    end in
  let ap :=
    fold_left (fun table method => PyDict.set method module_name table)
              (api_methods (Manifest.apis manifest)) (api_providers v) in
  mk (issues v) ep es sp ss ap (api_consumers v).

(** [key not in other or not other[key]] *)
Definition no_entry (key : string) (other : dict (list string)) : bool :=
  match PyDict.get key other with
  | None => true
  | Some l => match l with [] => true | _ => false end
  end.

(** One loop of the shape
    [for key, modules in table.items(): if key not in other ...: append]. *)
Definition unmatched (severity category : string)
    (msg : string -> string)
    (table other : dict (list string)) : list ValidationIssue.t :=
  flat_map
    (fun '(key, modules) =>
       if no_entry key other
       then [ValidationIssue.mk severity category (msg key)
               (PyStr.join ", " modules) key]
       else [])
    (PyDict.items table).

(** [for key, publishers in table.items(): if len(publishers) > 1: append] *)
Definition multiple (severity category : string)
    (msg : string -> string)
    (table : dict (list string)) : list ValidationIssue.t :=
  flat_map
    (fun '(key, publishers) =>
       if (1 <? List.length publishers)%nat
       then [ValidationIssue.mk severity category (msg key)
               (PyStr.join ", " publishers) key]
       else [])
    (PyDict.items table).

Definition event_issues (v : t) : list ValidationIssue.t :=
  unmatched "WARNING" "EVENT"
    (fun event =>
       ("Event '" ++ event ++ "' is published but has no subscribers")%string)
    (event_publishers v) (event_subscribers v)
  ++ unmatched "ERROR" "EVENT"
    (fun event =>
       ("Event '" ++ event ++ "' has subscribers but no publisher")%string)
    (event_subscribers v) (event_publishers v)
  ++ multiple "INFO" "EVENT"
    (fun event =>
       ("Event '" ++ event ++ "' is published by multiple modules")%string)
    (event_publishers v).

Definition validate_events (v : t) : t :=
  with_issues (issues v ++ event_issues v) v.

Definition shared_state_issues (v : t) : list ValidationIssue.t :=
  unmatched "WARNING" "STATE"
    (fun state =>
       ("State '" ++ state ++ "' is written but never read")%string)
    (state_publishers v) (state_subscribers v)
  ++ unmatched "ERROR" "STATE"
    (fun state =>
       ("State '" ++ state ++ "' is read but never written")%string)
    (state_subscribers v) (state_publishers v)
  ++ multiple "WARNING" "STATE"
    (fun state =>
       ("State '" ++ state
        ++ "' is written by multiple modules - potential conflict")%string)
    (state_publishers v).

Definition validate_shared_state (v : t) : t :=
  with_issues (issues v ++ shared_state_issues v) v.

(** The names skipped as system dependencies. *)
Definition system_dependencies : list string :=
  ["ESPhal"; "SharedState"; "EventBus"; "ConfigManager"].

Definition declared_dependencies (m : Manifest.t) : list string :=
  match ModuleSection.dependencies (Manifest.module m) with
  | Some deps => deps
  | None => []
  end.

Definition dependency_issues (modules : list Manifest.t)
    : list ValidationIssue.t :=
  let module_names :=
    map (fun m => ModuleSection.name (Manifest.module m)) modules in
  flat_map
    (fun module =>
       let module_name := ModuleSection.name (Manifest.module module) in
       flat_map
         (fun dep =>
            if PyStr.mem dep system_dependencies then []
            else if negb (PyStr.mem dep module_names)
            then [ValidationIssue.mk "ERROR" "DEPENDENCY"
                    ("Module depends on non-existent module '" ++ dep ++ "'")%string
                    module_name dep]
            else [])
         (declared_dependencies module))
    modules.

Definition validate_dependencies (modules : list Manifest.t) (v : t) : t :=
  with_issues (issues v ++ dependency_issues modules) v.

Definition severity_order : dict Z :=
  [("ERROR", 0%Z); ("WARNING", 1%Z); ("INFO", 2%Z)].

(** [severity_order.get(x.severity, 999)] *)
Definition severity_rank (x : ValidationIssue.t) : Z :=
  PyDict.get_default (severity x) 999%Z severity_order.

(** The loop of [validate_all] that feeds every module to
    [collect_manifest_data]. *)
Definition collect_all (modules : list Manifest.t) (v : t) : t :=
  fold_left
    (fun v module =>
       collect_manifest_data
         (ModuleSection.name (Manifest.module module)) module v)
    modules v.

(** The issues in the order the three validations find them. *)
Definition discovered (modules : list Manifest.t) (v : t)
    : list ValidationIssue.t :=
  issues
    (validate_dependencies modules
       (validate_shared_state
          (validate_events
             (collect_all modules (with_issues [] v))))).

Definition validate_all (modules : list Manifest.t) (v : t)
    : t * (bool * list ValidationIssue.t) :=
  let v := with_issues [] v in
  let v := collect_all modules v in
  let v := validate_events v in
  let v := validate_shared_state v in
  let v := validate_dependencies modules v in
  let v := with_issues (sort_by_key severity_rank (issues v)) v in
  let has_errors :=
    existsb (fun issue => severity issue =? "ERROR") (issues v) in
  (v, (negb has_errors, issues v)).
End ManifestValidator.

(** [ManifestValidator.generate_validation_report] *)
Module ValidationReport.
Import ValidationIssue.

Definition nl : string := String (ascii_of_nat 10) EmptyString.

Definition count_severity (sev : string) (l : list ValidationIssue.t) : nat :=
  List.length (filter (fun i => severity i =? sev) l).

(** [categories[issue.category].append(issue)], creating the list first. *)
Definition group (categories : dict (list ValidationIssue.t))
    (issue : ValidationIssue.t) : dict (list ValidationIssue.t) :=
  PyDict.append_to issue categories (category issue).

Definition icons : dict string :=
  [("ERROR", "üî¥"); ("WARNING", "üü°");
   ("INFO", "üîµ")].

Definition issue_lines (issue : ValidationIssue.t) : list string :=
  let icon := PyDict.get_default (severity issue) "‚ùì" icons in
  [("### " ++ icon ++ " " ++ message issue)%string]
  ++ (if source_module issue =? "" then []
      else [("- **Module(s)**: " ++ source_module issue)%string])
  ++ (if target issue =? "" then []
      else [("- **Target**: `" ++ target issue ++ "`")%string])
  ++ [""].

Definition generate_validation_report (l : list ValidationIssue.t) : string :=
  match l with
  | [] => ("# ‚úÖ Validation Passed" ++ nl ++ nl ++ "No issues found!")%string
  | _ =>
      let errors := count_severity "ERROR" l in
      let warnings := count_severity "WARNING" l in
      let infos := count_severity "INFO" l in
      let categories := fold_left group l [] in
      PyStr.join nl
        (["# üîç Manifest Validation Report"; "";
          "## Summary";
          ("- üî¥ Errors: " ++ PyStr.of_nat errors)%string;
          ("- üü° Warnings: " ++ PyStr.of_nat warnings)%string;
          ("- üîµ Info: " ++ PyStr.of_nat infos)%string;
          ""]
         ++ flat_map
              (fun '(cat, issues) =>
                 [("## " ++ cat ++ " Issues")%string; ""]
                 ++ flat_map issue_lines issues)
              (PyDict.items categories)
         ++ (if (0 <? errors)%nat
             then ["## ‚ùå Build Failed";
                   "Fix all ERROR level issues before proceeding."]
             else if (0 <? warnings)%nat
             then ["## ‚ö†Ô∏è Build Warning";
                   "Consider fixing WARNING level issues."]
             else []))
  end.
End ValidationReport.

(** ** process_manifests.py *)

Module ModuleInfo.
(** The dataclass [ModuleInfo]. *)
Record t : Type := mk
  { name : string;
    type : string;
    version : string;
    description : string;
    priority : string;
    dependencies : list string;
    apis : list Api;
    ui_pages : json;
    shared_state_keys : list string;
    events : list string;
    config_file : option string;
    manifest_path : string;
    ui : dict json;
    driver_interface : option string }.

Definition json_of_strings (l : list string) : json := JArr (map JStr l).

Definition json_of_option (o : option string) : json :=
  match o with Some s => JStr s | None => JNull end.

Definition json_of_api (api : Api) : json :=
  JObj (map (fun '(k, v) => (k, JStr v)) api).

(** The attributes an instance has: the fields of the dataclass, in
    declaration order, each with its value. *)
Definition attributes (m : t) : dict json :=
  [("name", JStr (name m));
   ("type", JStr (type m));
   ("version", JStr (version m));
   ("description", JStr (description m));
   ("priority", JStr (priority m));
   ("dependencies", json_of_strings (dependencies m));
   ("apis", JArr (map json_of_api (apis m)));
   ("ui_pages", ui_pages m);
   ("shared_state_keys", json_of_strings (shared_state_keys m));
   ("events", json_of_strings (events m));
   ("config_file", json_of_option (config_file m));
   ("manifest_path", JStr (manifest_path m));
   ("ui", JObj (ui m));
   ("driver_interface", json_of_option (driver_interface m))].
End ModuleInfo.

(** The document that [json.load] returns for a module manifest. *)
Module ModuleData.
(** [manifest['module']]; every key may be absent. *)
Record t : Type := mk
  { name : option string;
    type : option string;
    version : option string;
    description : option string;
    priority : option string;
    dependencies : option (list string);
    driver_interface : option string }.

(** [manifest.get('module', {})] when the key is absent. *)
Definition empty : t := mk None None None None None None None.
End ModuleData.

Module ModuleManifest.
Record t : Type := mk
  { module : option ModuleData.t;
    apis : option (dict (list Api));     (* 'static' -> entries *)
    ui : option (dict json);
    shared_state : option PubSub.t;
    event_bus : option PubSub.t;
    configuration : option (dict string) }.
End ModuleManifest.

(** The document that [json.load] returns for a driver manifest. *)
Module DriverManifest.
Record t : Type := mk
  { driver : option (dict json);
    apis : option (dict json) }.
End DriverManifest.

(** What [jsonschema.validate] does with an instance and a schema. *)
Inductive validation_outcome : Type :=
| Conforms
| RaisesValidationError (msg : string)
| RaisesSchemaError (msg : string).

(** Exceptions that the modelled code can raise. *)
Inductive exn : Type :=
| AttributeError (msg : string)
| TypeError (msg : string)
| KeyError (key : string)
| LoadError (msg : string)        (* [open] or [json.load] failed *)
| SchemaError (msg : string)
| SystemExit (code : Z).

Inductive result (A : Type) : Type :=
| Ok (a : A)
| Raise (e : exn).
Arguments Ok {A} a.
Arguments Raise {A} e.

(** The component tree: every manifest file in the order [rglob] yields
    it, with its path and the document read from it ([None] when reading
    or decoding the file raises). *)
Module Tree.
Record t : Type := mk
  { module_manifests : list (string * option ModuleManifest.t);
    driver_manifests : list (string * option DriverManifest.t) }.
End Tree.

(** What a run acts on outside the processor object: the logger, the
    files it writes and the clock it reads. *)
Module World.
Record t : Type := mk
  { log : list (string * string);     (* level, message *)
    files : dict string;              (* path -> content *)
    clock : nat -> string;            (* successive formatted readings *)
    ticks : nat }.

Definition init (clock : nat -> string) : t := mk [] [] clock 0.
End World.

Module ManifestProcessor.
Import ValidationReport.

Record t : Type := mk
  { project_root : string;
    output_dir : string;
    module_schema : dict json;
    driver_schema : dict json;
    modules : list ModuleInfo.t;
    drivers : list (dict json);
    all_apis : list Api;
    all_ui_schemas : dict (dict json);
    all_events : dict (list string);
    manifest_files : Tree.t }.

(** The collections as [__init__] leaves them. *)
Definition init (project_root output_dir : string)
    (module_schema driver_schema : dict json) : t :=
  mk project_root output_dir module_schema driver_schema
     [] [] [] [] [] (Tree.mk [] []).

Definition with_modules (x : list ModuleInfo.t) (p : t) : t :=
  mk (project_root p) (output_dir p) (module_schema p) (driver_schema p)
     x (drivers p) (all_apis p) (all_ui_schemas p) (all_events p)
     (manifest_files p).

Definition with_drivers (x : list (dict json)) (p : t) : t :=
  mk (project_root p) (output_dir p) (module_schema p) (driver_schema p)
     (modules p) x (all_apis p) (all_ui_schemas p) (all_events p)
     (manifest_files p).

Definition with_all_apis (x : list Api) (p : t) : t :=
  mk (project_root p) (output_dir p) (module_schema p) (driver_schema p)
     (modules p) (drivers p) x (all_ui_schemas p) (all_events p)
     (manifest_files p).

Definition with_all_ui_schemas (x : dict (dict json)) (p : t) : t :=
  mk (project_root p) (output_dir p) (module_schema p) (driver_schema p)
     (modules p) (drivers p) (all_apis p) x (all_events p)
     (manifest_files p).

Definition with_all_events (x : dict (list string)) (p : t) : t :=
  mk (project_root p) (output_dir p) (module_schema p) (driver_schema p)
     (modules p) (drivers p) (all_apis p) (all_ui_schemas p) x
     (manifest_files p).

Definition with_manifest_files (x : Tree.t) (p : t) : t :=
  mk (project_root p) (output_dir p) (module_schema p) (driver_schema p)
     (modules p) (drivers p) (all_apis p) (all_ui_schemas p) (all_events p)
     x.

(** *** The monad of the methods: state and exceptions

    A method acts on [self] and on the world and returns a value or
    raises. What it has mutated before raising stays mutated. *)
Module St.
Record t : Type := mk { self : ManifestProcessor.t; world : World.t }.
End St.

Definition M (A : Type) : Type := St.t -> St.t * result A.

Definition ret {A} (a : A) : M A := fun s => (s, Ok a).

Definition bind {A B} (c : M A) (k : A -> M B) : M B :=
  fun s =>
    match c s with
    | (s', Ok a) => k a s'
    | (s', Raise e) => (s', Raise e)
    end.

Definition raise {A} (e : exn) : M A := fun s => (s, Raise e).

Definition get_self : M t := fun s => (s, Ok (St.self s)).

Definition modify_self (f : t -> t) : M unit :=
  fun s => (St.mk (f (St.self s)) (St.world s), Ok tt).

Definition modify_world (f : World.t -> World.t) : M unit :=
  fun s => (St.mk (St.self s) (f (St.world s)), Ok tt).

Declare Scope py_scope.
Delimit Scope py_scope with py.
Notation "x <- c ;; k" := (bind c (fun x => k))
  (at level 61, c at next level, right associativity) : py_scope.
Notation "c ;; k" := (bind c (fun _ => k))
  (at level 61, right associativity) : py_scope.
Local Open Scope py_scope.

(** [except Exception] does not catch [SystemExit]. *)
Definition is_Exception (e : exn) : bool :=
  match e with SystemExit _ => false | _ => true end.

(** [try: c  except Exception as e: handler(e)] *)
Definition try_except {A} (c : M A) (handler : exn -> M A) : M A :=
  fun s =>
    match c s with
    | (s', Raise e) => if is_Exception e then handler e s' else (s', Raise e)
    | r => r
    end.

(** [for x in l: body(x)] *)
Fixpoint for_each {X} (l : list X) (body : X -> M unit) : M unit :=
  match l with
  | [] => ret tt
  | x :: l' => body x ;; for_each l' body
  end.

(** [self.logger.<level>(msg)] *)
Definition logger (level msg : string) : M unit :=
  modify_world (fun w =>
    World.mk (World.log w ++ [(level, msg)]) (World.files w)
             (World.clock w) (World.ticks w)).

(** [with open(path, 'w') as f: f.write(content)] *)
Definition write_file (path content : string) : M unit :=
  modify_world (fun w =>
    World.mk (World.log w) (PyDict.set path content (World.files w))
             (World.clock w) (World.ticks w)).

(** [datetime.now().strftime('%Y-%m-%d %H:%M:%S')] *)
Definition now : M string :=
  fun s =>
    let w := St.world s in
    (St.mk (St.self s)
       (World.mk (World.log w) (World.files w) (World.clock w)
                 (S (World.ticks w))),
     Ok (World.clock w (World.ticks w))).

(** [str(e)] *)
Definition str_of_exn (e : exn) : string :=
  match e with
  | AttributeError msg => msg
  | TypeError msg => msg
  | KeyError key => ("'" ++ key ++ "'")%string
  | LoadError msg => msg
  | SchemaError msg => msg
  | SystemExit code => if (code =? 1)%Z then "1" else ""
  end.

(** [root / name], for a [root] as [str(Path(...))] prints it and a
    [name] without separator: joined to the current directory the name
    stands alone, and the root directory keeps its one separator. *)
Definition path_join (root name : string) : string :=
  if root =? "." then name
  else if root =? "/" then ("/" ++ name)%string
  else (root ++ "/" ++ name)%string.

Definition dq : string := String (ascii_of_nat 34) EmptyString.
(** [for x in l: ys.append(body(x))] *)
Fixpoint map_M {X Y} (body : X -> M Y) (l : list X) : M (list Y) :=
  match l with
  | [] => ret []
  | x :: l' => y <- body x ;; ys <- map_M body l' ;; ret (y :: ys)
  end.

(** [module.<attr>] on a [ModuleInfo] instance. *)
Definition getattr (module : ModuleInfo.t) (attr : string) : M json :=
  match PyDict.get attr (ModuleInfo.attributes module) with
  | Some v => ret v
  | None =>
      raise (AttributeError
               ("'ModuleInfo' object has no attribute '" ++ attr ++ "'"))
  end.

(** [type(j).__name__] *)
Definition type_name (j : json) : string :=
  match j with
  | JNull => "NoneType"
  | JBool _ => "bool"
  | JNum _ => "int"
  | JStr _ => "str"
  | JArr _ => "list"
  | JObj _ => "dict"
  end.

(** [k in j] for a string [k] and whatever [json.load] returned: a key
    of a dict, an element of a list, a part of a string; a number, a
    boolean and [None] cannot be searched. The texts of the errors are
    those of CPython 3.11. *)
Definition json_contains (k : string) (j : json) : result bool :=
  match j with
  | JObj d => Ok (PyDict.contains k d)
  | JArr l =>
      Ok (existsb (fun x => match x with JStr s => s =? k | _ => false end) l)
  | JStr s => Ok (PyStr.is_substring k s)
  | _ =>
      Raise (TypeError
               ("argument of type '" ++ type_name j ++ "' is not iterable"))
  end.

(** [j[k]] for a string [k] *)
Definition json_item (k : string) (j : json) : result json :=
  match j with
  | JObj d =>
      match PyDict.get k d with
      | Some v => Ok v
      | None => Raise (KeyError k)
      end
  | JArr _ => Raise (TypeError "list indices must be integers or slices, not str")
  | JStr _ => Raise (TypeError "string indices must be integers, not 'str'")
  | _ =>
      Raise (TypeError ("'" ++ type_name j ++ "' object is not subscriptable"))
  end.

(** A computation that touches neither [self] nor the world. *)
Definition lift {A} (r : result A) : M A := fun s => (s, r).

(** What the test
    ['static' in ui_data and 'pages' in ui_data['static']] and, when it
    holds, the read [ui_data['static']['pages']] give: the pages, [None]
    when the test fails, or the TypeError of a ['static'] that is not a
    dict. *)
Definition static_pages (ui_data : dict json) : result (option json) :=
  if PyDict.contains "static" ui_data then
    let static := PyDict.get_default "static" JNull ui_data in
    match json_contains "pages" static with
    | Ok true =>
        match json_item "pages" static with
        | Ok pages => Ok (Some pages)
        | Raise e => Raise e
        end
    | Ok false => Ok None
    | Raise e => Raise e
    end
  else Ok None.

Definition or_default {A} (default : A) (o : option A) : A :=
  match o with Some a => a | None => default end.

(** [_module_to_dict] *)
Definition _module_to_dict (module : ModuleInfo.t) : Manifest.t :=
  Manifest.mk
    (ModuleSection.mk (ModuleInfo.name module) (ModuleInfo.type module)
       (ModuleInfo.version module) (ModuleInfo.description module)
       (ModuleInfo.priority module) (ModuleInfo.driver_interface module)
       None)
    (Some (JObj (ModuleInfo.ui module)))
    (Some (ApisList (ModuleInfo.apis module)))
    None
    None.

Section Methods.
(** [jsonschema.validate], for module and for driver manifests. *)
Variable validate_module : ModuleManifest.t -> dict json -> validation_outcome.
Variable validate_driver : DriverManifest.t -> dict json -> validation_outcome.

Definition discover_manifests (tree : Tree.t) : M unit :=
  logger "INFO" "Discovering manifests..." ;;
  logger "INFO"
    ("Found " ++ PyStr.of_nat (List.length (Tree.module_manifests tree))
     ++ " module manifests") ;;
  logger "INFO"
    ("Found " ++ PyStr.of_nat (List.length (Tree.driver_manifests tree))
     ++ " driver manifests") ;;
  modify_self (with_manifest_files tree).

(** [with open(path) as f: manifest = json.load(f)]; the text of the
    error is not modelled. *)
Definition load {A} (manifest_path : string) (file : option A) : M A :=
  match file with
  | Some manifest => ret manifest
  | None => raise (LoadError ("cannot load " ++ manifest_path))
  end.

(** The schema check shared by both parsers: [true] to go on, [false]
    for the [return None] of the [except] branch. *)
Definition check_schema (manifest_path : string) (schema : dict json)
    (outcome : validation_outcome) : M bool :=
  match schema with
  | [] => ret true
  | _ :: _ =>
      match outcome with
      | Conforms => ret true
      | RaisesValidationError e =>
          logger "ERROR"
            ("Schema validation failed for " ++ manifest_path ++ ": " ++ e) ;;
          ret false
      | RaisesSchemaError e => raise (SchemaError e)
      end
  end.

(** The part of [parse_module_manifest] after the schema check. *)
Definition extract_module (manifest_path : string)
    (manifest : ModuleManifest.t) : M ModuleInfo.t :=
  let module_data :=
    or_default ModuleData.empty (ModuleManifest.module manifest) in
  let name := or_default "" (ModuleData.name module_data) in
  (* Extract APIs *)
  let static_apis :=
    match ModuleManifest.apis manifest with
    | Some apis => PyDict.get_default "static" [] apis
    | None => []
    end in
  let apis := map (PyDict.set "module" name) static_apis in
  modify_self (fun p => with_all_apis (all_apis p ++ apis) p) ;;
  (* Extract UI schemas *)
  let ui := or_default [] (ModuleManifest.ui manifest) in
  pages <-
    match ModuleManifest.ui manifest with
    | Some ui_data => lift (static_pages ui_data)
    | None => ret None
    end ;;
  let ui_pages := or_default (JArr []) pages in
  match pages with
  | Some _ =>
      modify_self (fun p =>
        with_all_ui_schemas (PyDict.set name ui (all_ui_schemas p)) p)
  | None => ret tt
  end ;;
  (* Extract shared state keys *)
  let shared_state_keys :=
    match ModuleManifest.shared_state manifest with
    | Some st => PyDict.keys (or_default [] (PubSub.publishes st))
    | None => []
    end in
  (* Extract events *)
  let events :=
    match ModuleManifest.event_bus manifest with
    | Some eb => PyDict.keys (or_default [] (PubSub.publishes eb))
    | None => []
    end in
  modify_self (fun p =>
    with_all_events
      (fold_left (PyDict.append_to name) events (all_events p)) p) ;;
  (* Configuration *)
  let config_file :=
    match ModuleManifest.configuration manifest with
    | Some c => PyDict.get "config_file" c
    | None => None
    end in
  ret (ModuleInfo.mk name
         (or_default "STANDARD" (ModuleData.type module_data))
         (or_default "0.0.0" (ModuleData.version module_data))
         (or_default "" (ModuleData.description module_data))
         (or_default "NORMAL" (ModuleData.priority module_data))
         (or_default [] (ModuleData.dependencies module_data))
         apis ui_pages shared_state_keys events config_file
         manifest_path ui (ModuleData.driver_interface module_data)).

Definition parse_module_manifest (manifest_path : string)
    (file : option ModuleManifest.t) : M (option ModuleInfo.t) :=
  manifest <- load manifest_path file ;;
  p <- get_self ;;
  (* Validate against schema *)
  valid <- check_schema manifest_path (module_schema p)
             (validate_module manifest (module_schema p)) ;;
  if negb valid then ret None
  else
    module <- extract_module manifest_path manifest ;;
    ret (Some module).

Definition parse_driver_manifest (manifest_path : string)
    (file : option DriverManifest.t) : M (option (dict json)) :=
  manifest <- load manifest_path file ;;
  p <- get_self ;;
  valid <- check_schema manifest_path (driver_schema p)
             (validate_driver manifest (driver_schema p)) ;;
  if negb valid then ret None
  else
    let driver_data := or_default [] (DriverManifest.driver manifest) in
    let driver_data :=
      PyDict.set "manifest_path" (JStr manifest_path) driver_data in
    let specific :=
      match DriverManifest.apis manifest with
      | Some a => PyDict.get_default "specific" (JArr []) a
      | None => JArr []
      end in
    ret (Some (PyDict.set "apis" specific driver_data)).

(** One turn of the first loop of [parse_manifests]. *)
Definition try_parse_module (entry : string * option ModuleManifest.t)
    : M unit :=
  let '(manifest_path, file) := entry in
  try_except
    (logger "INFO" ("Parsing module manifest: " ++ manifest_path) ;;
     module <- parse_module_manifest manifest_path file ;;
     match module with
     | Some module =>
         modify_self (fun p => with_modules (modules p ++ [module]) p)
     | None => ret tt
     end)
    (fun e =>
       logger "ERROR"
         ("Error parsing " ++ manifest_path ++ ": " ++ str_of_exn e)).

(** One turn of the second loop of [parse_manifests]. *)
Definition try_parse_driver (entry : string * option DriverManifest.t)
    : M unit :=
  let '(manifest_path, file) := entry in
  try_except
    (logger "INFO" ("Parsing driver manifest: " ++ manifest_path) ;;
     driver <- parse_driver_manifest manifest_path file ;;
     match driver with
     | Some driver =>
         modify_self (fun p => with_drivers (drivers p ++ [driver]) p)
     | None => ret tt
     end)
    (fun e =>
       logger "ERROR"
         ("Error parsing " ++ manifest_path ++ ": " ++ str_of_exn e)).

Definition parse_manifests : M unit :=
  p <- get_self ;;
  (* Parse module manifests *)
  for_each (Tree.module_manifests (manifest_files p)) try_parse_module ;;
  (* Parse driver manifests *)
  for_each (Tree.driver_manifests (manifest_files p)) try_parse_driver.

(** The value the validator finds under ['shared_state']. *)
Definition pubsub_of_json (j : json) : PubSub.t :=
  let section k :=
    match j with
    | JObj d => match PyDict.get k d with
                | Some (JObj x) => Some x
                | Some _ => Some []
                | None => None
                end
    | _ => None
    end in
  PubSub.mk (section "publishes") (section "subscribes").

(** The body of the loop of [validate_manifest_consistency] that
    prepares one manifest for the validator. *)
Definition prepare_manifest (all_events : dict (list string))
    (module : ModuleInfo.t) : M Manifest.t :=
  let manifest := _module_to_dict module in
  (* Collect events from module *)
  let publishes :=
    fold_left
      (fun d event =>
         match PyDict.get event all_events with
         | Some l => PyDict.set event (ModuleInfo.json_of_strings l) d
         | None => d
         end)
      (ModuleInfo.events module) [] in
  let event_bus := PubSub.mk (Some publishes) (Some []) in
  (* Add shared_state data if available *)
  shared_state <- getattr module "shared_state" ;;
  ret (Manifest.mk (Manifest.module manifest) (Manifest.ui manifest)
         (Manifest.apis manifest) (Some event_bus)
         (Some (pubsub_of_json shared_state))).

Definition log_issue (issue : ValidationIssue.t) : M unit :=
  let line :=
    ("  " ++ ValidationIssue.category issue ++ ": "
     ++ ValidationIssue.message issue)%string in
  if ValidationIssue.severity issue =? "ERROR" then logger "ERROR" line
  else if ValidationIssue.severity issue =? "WARNING"
  then logger "WARNING" line
  else logger "INFO" line.

Definition validate_manifest_consistency : M bool :=
  logger "INFO" "Validating manifest consistency..." ;;
  p <- get_self ;;
  (* Prepare manifest data for validation *)
  all_manifests <- map_M (prepare_manifest (all_events p)) (modules p) ;;
  (* Run validation *)
  let '(_, (is_valid, issues)) :=
    ManifestValidator.validate_all all_manifests ManifestValidator.init in
  (* Generate and save the validation report *)
  let report := generate_validation_report issues in
  let report_file :=
    path_join (path_join (project_root p) "build")
              "manifest_validation_report.md" in
  write_file report_file report ;;
  (* Log results *)
  (match issues with
   | [] => logger "INFO" "✅ All validations passed!"
   | _ :: _ =>
       logger "INFO"
         ("Validation found " ++ PyStr.of_nat (List.length issues)
          ++ " issues:") ;;
       for_each issues log_issue ;;
       logger "INFO" ("Validation report saved to: " ++ report_file)
   end) ;;
  ret is_valid.

(** The names [resolve_dependencies] accepts besides module names. *)
Definition resolver_system_dependencies : list string :=
  ["ESPhal"; "SharedState"; "EventBus"].

Definition resolve_dependencies : M unit :=
  logger "INFO" "Resolving dependencies..." ;;
  p <- get_self ;;
  let module_names := map ModuleInfo.name (modules p) in
  for_each (modules p) (fun module =>
    for_each (ModuleInfo.dependencies module) (fun dep =>
      if andb (negb (PyStr.mem dep module_names))
              (negb (PyStr.mem dep resolver_system_dependencies))
      then logger "WARNING"
             ("Module " ++ ModuleInfo.name module
              ++ " depends on unknown module: " ++ dep)
      else ret tt)).

(** The two header lines every generated source file starts with. *)
Definition provenance (timestamp : string) : list string :=
  ["// AUTO-GENERATED FILE - DO NOT EDIT";
   ("// Generated by process_manifests.py on " ++ timestamp)%string].

Definition api_registration (api : Api) : string :=
  let method := PyDict.get_default "method" "" api in
  let handler := PyDict.get_default "handler" "" api in
  let access_level := PyDict.get_default "access_level" "user" api in
  ("    rpc.register_method(" ++ dq ++ method ++ dq ++ ", &" ++ handler
   ++ ", AccessLevel::" ++ PyStr.upper access_level ++ ");")%string.

(** The lines of [generated_api_registry.cpp]. *)
Definition api_registry_code (timestamp : string)
    (modules : list ModuleInfo.t) : list string :=
  provenance timestamp
  ++ [""; 
      ("#include " ++ dq ++ "generated_api_registry.h" ++ dq)%string;
      ("#include " ++ dq ++ "json_rpc_interface.h" ++ dq)%string;
      "";
      "namespace ModESP {";
      "";
      "void register_generated_apis(JsonRpcInterface& rpc) {"]
  (* Group APIs by module *)
  ++ flat_map
       (fun module =>
          match ModuleInfo.apis module with
          | [] => []
          | apis =>
              [("    // APIs from " ++ ModuleInfo.name module)%string]
              ++ map api_registration apis ++ [""]
          end)
       modules
  ++ ["}"; ""; "} // namespace ModESP"].

Definition generate_api_registry : M unit :=
  p <- get_self ;;
  let output_file := path_join (output_dir p) "generated_api_registry.cpp" in
  logger "INFO" ("Generating " ++ output_file) ;;
  timestamp <- now ;;
  write_file output_file
    (PyStr.join nl (api_registry_code timestamp (modules p))).

Definition module_info_entry (module : ModuleInfo.t) : list string :=
  let deps_str :=
    PyStr.join ", "
      (map (fun dep => (dq ++ dep ++ dq)%string)
           (ModuleInfo.dependencies module)) in
  let config_str :=
    match ModuleInfo.config_file module with
    | Some f => if f =? "" then "nullptr" else (dq ++ f ++ dq)%string
    | None => "nullptr"
    end in
  ["    {";
   ("        .name = " ++ dq ++ ModuleInfo.name module ++ dq ++ ",")%string;
   ("        .type = ModuleType::" ++ ModuleInfo.type module ++ ",")%string;
   ("        .version = " ++ dq ++ ModuleInfo.version module ++ dq ++ ",")%string;
   ("        .description = " ++ dq ++ ModuleInfo.description module ++ dq
    ++ ",")%string;
   ("        .priority = Priority::" ++ ModuleInfo.priority module ++ ",")%string;
   ("        .dependencies = {" ++ deps_str ++ "},")%string;
   ("        .config_file = " ++ config_str ++ ",")%string;
   "    },"].

(** The lines of [generated_module_info.cpp]. *)
Definition module_info_code (timestamp : string)
    (modules : list ModuleInfo.t) : list string :=
  provenance timestamp
  ++ [""; 
      ("#include " ++ dq ++ "generated_module_info.h" ++ dq)%string;
      "";
      "namespace ModESP {";
      "";
      "const ModuleInfo generated_modules[] = {"]
  ++ flat_map module_info_entry modules
  ++ ["};";
      "";
      ("const size_t generated_module_count = "
       ++ PyStr.of_nat (List.length modules) ++ ";")%string;
      "";
      "} // namespace ModESP"].

Definition generate_module_info : M unit :=
  p <- get_self ;;
  let output_file := path_join (output_dir p) "generated_module_info.cpp" in
  logger "INFO" ("Generating " ++ output_file) ;;
  timestamp <- now ;;
  write_file output_file
    (PyStr.join nl (module_info_code timestamp (modules p))).

(** [key.upper().replace('.', '_')] *)
Definition const_name (key : string) : string :=
  PyStr.replace "."%char "_"%char (PyStr.upper key).

(** [constexpr const char* NAME = "key";] *)
Definition constant_line (key : string) : string :=
  ("    constexpr const char* " ++ const_name key ++ " = " ++ dq ++ key
   ++ dq ++ ";")%string.

(** The shared-state keys [generate_event_registry] collects from the
    dicts [_module_to_dict] returns. *)
Definition collect_all_states (modules : list ModuleInfo.t) : dict json :=
  fold_left
    (fun all_states module =>
       let manifest := _module_to_dict module in
       match Manifest.shared_state manifest with
       | Some st =>
           match PubSub.publishes st with
           | Some publishes =>
               fold_left
                 (fun all_states state_key =>
                    PyDict.set state_key
                      (PyDict.get_default state_key JNull publishes)
                      all_states)
                 (PyDict.keys publishes) all_states
           | None => all_states
           end
       | None => all_states
       end)
    modules [].

(** The lines of [generated_system_contract.h]. The loop that fills
    [events_by_module] is left out: nothing reads that dict. *)
Definition event_registry_code (timestamp : string)
    (all_events : dict (list string)) (modules : list ModuleInfo.t)
    : list string :=
  provenance timestamp
  ++ ["// For detailed documentation see: components/system_contract/";
      "";
      "#pragma once";
      "";
      "namespace ModESP {";
      "";
      "namespace Events {";
      "    // Event name constants for compile-time checking"]
  ++ map constant_line (PyStr.sorted (PyDict.keys all_events))
  ++ ["} // namespace Events";
      "";
      "namespace States {";
      "    // SharedState key constants"]
  ++ map constant_line
       (PyStr.sorted (PyDict.keys (collect_all_states modules)))
  ++ ["} // namespace States";
      "";
      "} // namespace ModESP"].

Definition system_contract_file (p : t) : string :=
  path_join
    (path_join (path_join (path_join (project_root p) "components") "core")
               "include")
    "generated_system_contract.h".

Definition generate_event_registry : M unit :=
  p <- get_self ;;
  let output_file := system_contract_file p in
  logger "INFO" ("Generating " ++ output_file) ;;
  timestamp <- now ;;
  write_file output_file
    (PyStr.join nl
       (event_registry_code timestamp (all_events p) (modules p))).

(** [generate_code], for the three generated sources modelled here.
    The documentation under [components/system_contract] and the
    adaptive UI registry, which it writes as well, are not modelled. *)
Definition generate_code : M unit :=
  logger "INFO" "Generating code..." ;;
  generate_api_registry ;;
  generate_module_info ;;
  generate_event_registry.

Definition process_all (tree : Tree.t) : M unit :=
  logger "INFO" "Starting manifest processing..." ;;
  (* Step 1: Discover manifests *)
  discover_manifests tree ;;
  (* Step 2: Parse and validate manifests *)
  parse_manifests ;;
  (* Step 3: Validate consistency across manifests *)
  valid <- validate_manifest_consistency ;;
  (if negb valid
   then logger "ERROR"
          "Manifest validation failed! Fix errors before proceeding." ;;
        raise (SystemExit 1)
   else ret tt) ;;
  (* Step 4: Resolve dependencies *)
  resolve_dependencies ;;
  (* Step 5: Generate code *)
  generate_code ;;
  logger "INFO" "Manifest processing complete!".

(** The exit status of the interpreter when [main] ends this way. *)
Definition exit_status (r : result unit) : Z :=
  match r with
  | Ok _ => 0
  | Raise (SystemExit code) => code
  | Raise _ => 1
  end.
End Methods.
End ManifestProcessor.

(** ** Notions used in the statements *)

Module Notions.
Import ValidationIssue.

Definition module_name (m : Manifest.t) : string :=
  ModuleSection.name (Manifest.module m).

Definition keys_of (entries : option (dict json)) : list string :=
  match entries with Some d => PyDict.keys d | None => [] end.

(** The event names a manifest lists under [event_bus.publishes]. *)
Definition published_events (m : Manifest.t) : list string :=
  match Manifest.event_bus m with
  | Some eb => keys_of (PubSub.publishes eb)
  | None => []
  end.

Definition subscribed_events (m : Manifest.t) : list string :=
  match Manifest.event_bus m with
  | Some eb => keys_of (PubSub.subscribes eb)
  | None => []
  end.

Definition written_states (m : Manifest.t) : list string :=
  match Manifest.shared_state m with
  | Some st => keys_of (PubSub.publishes st)
  | None => []
  end.

Definition read_states (m : Manifest.t) : list string :=
  match Manifest.shared_state m with
  | Some st => keys_of (PubSub.subscribes st)
  | None => []
  end.

(** The [(key, module)] pairs a list of modules contributes to one table,
    in the order the modules are visited. *)
Definition entries (sel : Manifest.t -> list string)
    (modules : list Manifest.t) : list (string * string) :=
  flat_map (fun m => map (fun key => (key, module_name m)) (sel m)) modules.

(** The second components of the pairs whose first one is [k]. *)
Definition names_for (k : string) (es : list (string * string))
    : list string :=
  map snd (filter (fun e => fst e =? k) es).

(** The modules that list [key], in visiting order. *)
Definition holders (sel : Manifest.t -> list string) (key : string)
    (modules : list Manifest.t) : list string :=
  names_for key (entries sel modules).

(** The [(method, module)] pairs registered, in visiting order. *)
Definition api_entries (modules : list Manifest.t)
    : list (string * string) :=
  entries (fun m => ManifestValidator.api_methods (Manifest.apis m)) modules.

(** The fold that fills one publisher or subscriber table. *)
Definition fill (table : dict (list string))
    (es : list (string * string)) : dict (list string) :=
  fold_left (fun t e => PyDict.append_to (snd e) t (fst e)) es table.

(** The fold that fills the API owners table. *)
Definition assign (table : dict string)
    (es : list (string * string)) : dict string :=
  fold_left (fun t e => PyDict.set (fst e) (snd e) t) es table.

(** The two ways an event can lack a counterpart. *)
Inductive orphan : Type := Unheard | Unannounced.

Definition is_orphan (k : orphan) (event : string)
    (modules : list Manifest.t) : Prop :=
  match k with
  | Unheard =>
      (exists m, In m modules /\ In event (published_events m))
      /\ (forall m, In m modules -> ~ In event (subscribed_events m))
  | Unannounced =>
      (exists m, In m modules /\ In event (subscribed_events m))
      /\ (forall m, In m modules -> ~ In event (published_events m))
  end.

(** The issue [validate_events] files for such an event. *)
Definition orphan_issue (k : orphan) (event : string)
    (modules : list Manifest.t) : ValidationIssue.t :=
  match k with
  | Unheard =>
      ValidationIssue.mk "WARNING" "EVENT"
        ("Event '" ++ event ++ "' is published but has no subscribers")
        (PyStr.join ", " (holders published_events event modules)) event
  | Unannounced =>
      ValidationIssue.mk "ERROR" "EVENT"
        ("Event '" ++ event ++ "' has subscribers but no publisher")
        (PyStr.join ", " (holders subscribed_events event modules)) event
  end.

Definition orphan_severity (k : orphan) : string :=
  match k with Unheard => "WARNING" | Unannounced => "ERROR" end.

(** The seven shapes of issue the validator files. *)
Definition rule_shapes (key : string) : list (string * string * string) :=
  [("WARNING", "EVENT",
    ("Event '" ++ key ++ "' is published but has no subscribers")%string);
   ("ERROR", "EVENT",
    ("Event '" ++ key ++ "' has subscribers but no publisher")%string);
   ("INFO", "EVENT",
    ("Event '" ++ key ++ "' is published by multiple modules")%string);
   ("WARNING", "STATE",
    ("State '" ++ key ++ "' is written but never read")%string);
   ("ERROR", "STATE",
    ("State '" ++ key ++ "' is read but never written")%string);
   ("WARNING", "STATE",
    ("State '" ++ key
     ++ "' is written by multiple modules - potential conflict")%string);
   ("ERROR", "DEPENDENCY",
    ("Module depends on non-existent module '" ++ key ++ "'")%string)].

Definition follows_a_rule (i : ValidationIssue.t) : Prop :=
  In (severity i, category i, message i) (rule_shapes (target i)).

(** The allow-list as the specification words it. *)
Definition documented_allow_list : list string :=
  ["HAL"; "SharedStateStore"; "EventBus"; "ConfigManager"].

(** A manifest with its ['apis'] key removed. *)
Definition without_apis (m : Manifest.t) : Manifest.t :=
  Manifest.mk (Manifest.module m) (Manifest.ui m) None
              (Manifest.event_bus m) (Manifest.shared_state m).

(** Two tables with the same keys and, under each key, the same modules,
    both up to order. *)
Definition same_up_to_order (t1 t2 : dict (list string)) : Prop :=
  Permutation (PyDict.keys t1) (PyDict.keys t2)
  /\ forall k, Permutation (PyDict.get_default k [] t1)
                           (PyDict.get_default k [] t2).

(** The document of a manifest file when [parse_module_manifest] gets
    past loading and the schema check, [None] when it does not. *)
Definition accepted
    (validate_module : ModuleManifest.t -> dict json -> validation_outcome)
    (schema : dict json) (file : option ModuleManifest.t)
    : option ModuleManifest.t :=
  match file with
  | Some manifest =>
      match schema with
      | [] => Some manifest
      | _ :: _ =>
          match validate_module manifest schema with
          | Conforms => Some manifest
          | _ => None
          end
      end
  | None => None
  end.

Definition is_accepted
    (validate_module : ModuleManifest.t -> dict json -> validation_outcome)
    (schema : dict json) (entry : string * option ModuleManifest.t) : bool :=
  match accepted validate_module schema (snd entry) with
  | Some _ => true
  | None => false
  end.

(** The ['ui'] section of the manifest lets the extraction through: the
    read of its static pages raises nothing. *)
Definition ui_sound (manifest : ModuleManifest.t) : bool :=
  match ModuleManifest.ui manifest with
  | Some ui_data =>
      match ManifestProcessor.static_pages ui_data with
      | Ok _ => true
      | Raise _ => false
      end
  | None => true
  end.

(** The document of a manifest file when [parse_module_manifest] returns
    a module for it: the file loads, passes the schema check and its
    extraction does not raise. *)
Definition parsed
    (validate_module : ModuleManifest.t -> dict json -> validation_outcome)
    (schema : dict json) (file : option ModuleManifest.t)
    : option ModuleManifest.t :=
  match accepted validate_module schema file with
  | Some manifest => if ui_sound manifest then Some manifest else None
  | None => None
  end.

Definition is_parsed
    (validate_module : ModuleManifest.t -> dict json -> validation_outcome)
    (schema : dict json) (entry : string * option ModuleManifest.t) : bool :=
  match parsed validate_module schema (snd entry) with
  | Some _ => true
  | None => false
  end.

(** The [(event, module)] pairs a module manifest publishes. *)
Definition manifest_events (manifest : ModuleManifest.t)
    : list (string * string) :=
  let name :=
    match ModuleManifest.module manifest with
    | Some d => match ModuleData.name d with Some n => n | None => "" end
    | None => ""
    end in
  match ModuleManifest.event_bus manifest with
  | Some eb => map (fun e => (e, name)) (keys_of (PubSub.publishes eb))
  | None => []
  end.

(** The pairs one manifest file adds to [all_events]. *)
Definition file_events
    (validate_module : ModuleManifest.t -> dict json -> validation_outcome)
    (schema : dict json) (entry : string * option ModuleManifest.t)
    : list (string * string) :=
  match parsed validate_module schema (snd entry) with
  | Some manifest => manifest_events manifest
  | None => []
  end.

(** Two states of a run that differ at most in the collections, the
    discovered files and the log. *)
Definition same_setting (s s' : ManifestProcessor.St.t) : Prop :=
  let p := ManifestProcessor.St.self s in
  let p' := ManifestProcessor.St.self s' in
  let w := ManifestProcessor.St.world s in
  let w' := ManifestProcessor.St.world s' in
  ManifestProcessor.project_root p' = ManifestProcessor.project_root p
  /\ ManifestProcessor.output_dir p' = ManifestProcessor.output_dir p
  /\ ManifestProcessor.module_schema p' = ManifestProcessor.module_schema p
  /\ ManifestProcessor.driver_schema p' = ManifestProcessor.driver_schema p
  /\ World.files w' = World.files w
  /\ World.clock w' = World.clock w
  /\ World.ticks w' = World.ticks w.

(** The state in which [process_all] reaches its third step. *)
Definition after_parsing
    (validate_module : ModuleManifest.t -> dict json -> validation_outcome)
    (validate_driver : DriverManifest.t -> dict json -> validation_outcome)
    (tree : Tree.t) (s : ManifestProcessor.St.t) : ManifestProcessor.St.t :=
  fst (ManifestProcessor.bind
         (ManifestProcessor.logger "INFO" "Starting manifest processing...")
         (fun _ =>
            ManifestProcessor.bind
              (ManifestProcessor.discover_manifests tree)
              (fun _ =>
                 ManifestProcessor.parse_manifests
                   validate_module validate_driver))
         s).

(** The state after one more log line. *)
Definition logged (level msg : string) (s : ManifestProcessor.St.t)
    : ManifestProcessor.St.t :=
  fst (ManifestProcessor.logger level msg s).

(** The five index tables of a validator. *)
Definition tables (v : ManifestValidator.t) :=
  (ManifestValidator.event_publishers v,
   ManifestValidator.event_subscribers v,
   ManifestValidator.state_publishers v,
   ManifestValidator.state_subscribers v,
   ManifestValidator.api_providers v).
End Notions.

(** ** Sample inputs *)

Module Samples.
Definition names (l : list string) : dict json :=
  map (fun k => (k, JObj [])) l.

(** A manifest as the validator reads it. *)
Definition manifest (name : string) (deps pubs subs methods : list string)
    : Manifest.t :=
  Manifest.mk
    (ModuleSection.mk name "STANDARD" "1.0.0" "" "NORMAL" None (Some deps))
    None
    (Some (ApisDict
             [("static", ApiList (map (fun m => [("method", m)]) methods))]))
    (Some (PubSub.mk (Some (names pubs)) (Some (names subs))))
    None.

Definition sensors : Manifest.t :=
  manifest "Sensors" [] ["x.y"] ["z.w"] [].

Definition compressor : Manifest.t :=
  manifest "Compressor" ["EventBus"; "Ghost"] [] [] [].

Definition display : Manifest.t :=
  manifest "Display" ["HAL"] [] [] [].

Definition naming : Manifest.t :=
  manifest "Naming" [] ["a.b"; "a_b"] [] [].

Definition listener : Manifest.t :=
  manifest "Listener" [] [] ["a.b"; "a_b"] [].

Definition thermostat : Manifest.t :=
  manifest "Thermostat" [] [] [] ["get_status"].

Definition heater : Manifest.t :=
  manifest "Heater" [] [] [] ["get_status"].

Definition alarm : Manifest.t :=
  manifest "Alarm" [] ["door.open"] ["door.open"] [].

Definition door : Manifest.t :=
  manifest "Door" [] ["door.open"] [] [].

(** A module manifest file as [json.load] returns it. *)
Definition module_file (name : string) (events : list string)
    : ModuleManifest.t :=
  ModuleManifest.mk
    (Some (ModuleData.mk (Some name) None None None None None None))
    None None None
    (Some (PubSub.mk (Some (names events)) None))
    None.

Definition conforms {A : Type} (_ : A) (_ : dict json)
    : validation_outcome := Conforms.

Definition rejects {A : Type} (_ : A) (_ : dict json)
    : validation_outcome :=
  RaisesValidationError "'module' is a required property".

Definition some_schema : dict json := [("type", JStr "object")].

Definition clock_a (_ : nat) : string := "2025-01-01 00:00:00".

(** A processor right after [__init__]. *)
Definition fresh (clock : nat -> string) (schema : dict json)
    : ManifestProcessor.St.t :=
  ManifestProcessor.St.mk
    (ManifestProcessor.init "." "main/generated" schema [])
    (World.init clock).

Definition sensors_file : string * option ModuleManifest.t :=
  ("components/sensors/module_manifest.json",
   Some (module_file "Sensors" ["sensor.updated"])).

Definition display_file : string * option ModuleManifest.t :=
  ("components/display/module_manifest.json",
   Some (module_file "Display" ["display.ready"; "sensor.updated"])).

(** A manifest with a ['ui'] section whose ['static'] is a number. *)
Definition faulty_ui_file : string * option ModuleManifest.t :=
  ("components/panel/module_manifest.json",
   Some (ModuleManifest.mk
           (Some (ModuleData.mk (Some "Panel") None None None None None None))
           (Some [("static", [[("method", "panel.get")]])])
           (Some [("static", JNum 5)])
           None
           (Some (PubSub.mk (Some (names ["panel.ready"])) None))
           None)).

Definition one_module_tree : Tree.t := Tree.mk [sensors_file] [].
Definition two_modules_tree : Tree.t :=
  Tree.mk [sensors_file; display_file] [].





(** Two event keys with one identifier, as [all_events] holds them. *)
Definition colliding_events : dict (list string) :=
  [("a.b", ["Naming"]); ("a_b", ["Naming"])].

End Samples.

(** ** Further notions *)

Module Behaviour.
Import ValidationIssue Notions.

(** The keys the modules list on one side, with repeats. *)
Definition keys_in (sel : Manifest.t -> list string)
    (modules : list Manifest.t) : list string :=
  map fst (entries sel modules).

(** What the three loops of one validation file about one key, given the
    modules on its producing side and on its consuming side. *)
Definition key_issues
    (unconsumed missing several : list string -> ValidationIssue.t)
    (producers consumers : list string) : list ValidationIssue.t :=
  (match producers, consumers with
   | _ :: _, [] => [unconsumed producers]
   | _, _ => []
   end)
  ++ (match consumers, producers with
      | _ :: _, [] => [missing consumers]
      | _, _ => []
      end)
  ++ (if (1 <? List.length producers)%nat then [several producers] else []).

Definition event_issue (severity tail event : string)
    (modules : list string) : ValidationIssue.t :=
  ValidationIssue.mk severity "EVENT" ("Event '" ++ event ++ tail)
    (PyStr.join ", " modules) event.

Definition state_issue (severity tail state : string)
    (modules : list string) : ValidationIssue.t :=
  ValidationIssue.mk severity "STATE" ("State '" ++ state ++ tail)
    (PyStr.join ", " modules) state.

(** Every key produced is consumed and conversely, and no key is produced
    twice. *)
Definition balanced (produced consumed : Manifest.t -> list string)
    (modules : list Manifest.t) : Prop :=
  forall key,
    (In key (keys_in produced modules) <-> In key (keys_in consumed modules))
    /\ (List.length (holders produced key modules) <= 1)%nat.

(** Every declared dependency is a module handed in or a system
    dependency. *)
Definition dependencies_known (modules : list Manifest.t) : Prop :=
  forall m dep,
    In m modules ->
    In dep (ManifestValidator.declared_dependencies m) ->
    In dep (map module_name modules)
    \/ In dep ManifestValidator.system_dependencies.

(** The three loops of [validate_events] and of [validate_shared_state],
    over the table of the producing side and that of the consuming
    side. *)
Definition three_loops (category severity3 : string)
    (unconsumed missing several : string -> string)
    (producers consumers : dict (list string)) : list ValidationIssue.t :=
  ManifestValidator.unmatched "WARNING" category unconsumed
    producers consumers
  ++ ManifestValidator.unmatched "ERROR" category missing
       consumers producers
  ++ ManifestValidator.multiple severity3 category several producers.

(** A key consumed by some module and produced by none. *)
Definition unproduced (produced consumed : Manifest.t -> list string)
    (modules : list Manifest.t) : Prop :=
  exists key,
    In key (keys_in consumed modules) /\ ~ In key (keys_in produced modules).

(** The name [parse_module_manifest] gives the module of a manifest. *)
Definition manifest_name (manifest : ModuleManifest.t) : string :=
  ManifestProcessor.or_default ""
    (ModuleData.name
       (ManifestProcessor.or_default ModuleData.empty
          (ModuleManifest.module manifest))).

(** The names of the manifests among [files] that parse, in order. *)
Definition parsed_names
    (validate_module : ModuleManifest.t -> dict json -> validation_outcome)
    (schema : dict json) (files : list (string * option ModuleManifest.t))
    : list string :=
  flat_map
    (fun entry =>
       match parsed validate_module schema (snd entry) with
       | Some manifest => [manifest_name manifest]
       | None => []
       end)
    files.

(** The static API entries of a manifest, each with the name of the
    module under ['module'], as [parse_module_manifest] appends them to
    [all_apis]. *)
Definition tagged_apis (manifest : ModuleManifest.t) : list Api :=
  map (PyDict.set "module" (manifest_name manifest))
      match ModuleManifest.apis manifest with
      | Some apis => PyDict.get_default "static" [] apis
      | None => []
      end.

(** The API entries one manifest file adds to [all_apis]: those of a
    file that loads and passes the schema check, whether its extraction
    succeeds afterwards or not. *)
Definition file_apis
    (validate_module : ModuleManifest.t -> dict json -> validation_outcome)
    (schema : dict json) (entry : string * option ModuleManifest.t)
    : list Api :=
  match accepted validate_module schema (snd entry) with
  | Some manifest => tagged_apis manifest
  | None => []
  end.

(** The API entries of the module that one manifest file yields. *)
Definition module_apis
    (validate_module : ModuleManifest.t -> dict json -> validation_outcome)
    (schema : dict json) (entry : string * option ModuleManifest.t)
    : list Api :=
  match parsed validate_module schema (snd entry) with
  | Some manifest => tagged_apis manifest
  | None => []
  end.

(** Every API entry of the module carries the module's name under
    ['module']. *)
Definition apis_tagged (module : ModuleInfo.t) : Prop :=
  Forall (fun api => PyDict.get "module" api = Some (ModuleInfo.name module))
         (ModuleInfo.apis module).

(** The state after the log lines [lines]. *)
Definition with_log (lines : list (string * string))
    (s : ManifestProcessor.St.t) : ManifestProcessor.St.t :=
  let w := ManifestProcessor.St.world s in
  ManifestProcessor.St.mk (ManifestProcessor.St.self s)
    (World.mk (World.log w ++ lines) (World.files w)
              (World.clock w) (World.ticks w)).

(** The warning of [resolve_dependencies] for a dependency [dep] of the
    module named [module]. *)
Definition resolver_warning (module dep : string) : string * string :=
  ("WARNING",
   ("Module " ++ module ++ " depends on unknown module: " ++ dep)%string).

(** The dependencies of [module] that [resolve_dependencies] warns
    about, the parsed modules being named [module_names]. *)
Definition unresolved (module_names : list string) (module : ModuleInfo.t)
    : list string :=
  filter
    (fun dep =>
       negb (PyStr.mem dep module_names)
       && negb (PyStr.mem dep ManifestProcessor.resolver_system_dependencies))
    (ModuleInfo.dependencies module).

(** Some module declares a dependency that is neither a module handed in
    nor a system dependency. *)
Definition unknown_dependency (modules : list Manifest.t) : Prop :=
  exists m dep,
    In m modules
    /\ In dep (ManifestValidator.declared_dependencies m)
    /\ ~ In dep (map module_name modules)
    /\ ~ In dep ManifestValidator.system_dependencies.
End Behaviour.

(** ** adaptive_ui_generator.py

    [generate_code] hands the dicts of [_module_to_dict] and
    [self.drivers] to [AdaptiveUIGenerator]. The collection of the UI
    components is modelled; the two headers the generator prints are
    not. The values under ['ui'] and the drivers are whatever [json.load]
    returned, so that each operation on them can fail as it does in
    Python. *)

Module AdaptiveUIGenerator.

Inductive error : Type :=
| AttributeError          (* [.get] on a value that is not a dict *)
| TypeError               (* a value that cannot be iterated, subscripted
                             by a string or assigned to *)
| KeyError (key : string).

Inductive outcome (A : Type) : Type :=
| Returns (a : A)
| Raises (e : error).
Arguments Returns {A} a.
Arguments Raises {A} e.

Definition bind {A B} (c : outcome A) (k : A -> outcome B) : outcome B :=
  match c with
  | Returns a => k a
  | Raises e => Raises e
  end.

Notation "x <-- c ;; k" := (bind c (fun x => k))
  (at level 61, c at next level, right associativity).

(** [v.get(key, default)] *)
Definition get (key : string) (default : json) (v : json) : outcome json :=
  match v with
  | JObj d => Returns (PyDict.get_default key default d)
  | _ => Raises AttributeError
  end.

(** [v[key]] for a string [key] *)
Definition item (key : string) (v : json) : outcome json :=
  match v with
  | JObj d =>
      match PyDict.get key d with
      | Some x => Returns x
      | None => Raises (KeyError key)
      end
  | _ => Raises TypeError
  end.

(** The values [for comp in v] visits: the elements of a list, the keys
    of a dict, the characters of a string. *)
Definition iter (v : json) : outcome (list json) :=
  match v with
  | JArr l => Returns l
  | JObj d => Returns (map JStr (PyDict.keys d))
  | JStr s =>
      Returns (map (fun c => JStr (String c EmptyString))
                   (list_ascii_of_string s))
  | _ => Raises TypeError
  end.

(** [comp['source'] = source] *)
Definition set_source (source : json) (comp : json) : outcome json :=
  match comp with
  | JObj d => Returns (JObj (PyDict.set "source" source d))
  | _ => Raises TypeError
  end.

(** [for comp in components: comp['source'] = <source>;
    self.all_components.append(comp)]; the right-hand side is evaluated
    at each turn, before the assignment. *)
Fixpoint collect_from (source : outcome json) (components : list json)
    (all_components : list json) : outcome (list json) :=
  match components with
  | [] => Returns all_components
  | comp :: components' =>
      name <-- source ;;
      comp <-- set_source name comp ;;
      collect_from source components' (all_components ++ [comp])
  end.

(** The body of the loop over the modules. *)
Definition collect_module (all_components : list json) (module : Manifest.t)
    : outcome (list json) :=
  if ModuleSection.type (Manifest.module module) =? "MANAGER" then
    ui_adaptive <--
      get "adaptive" (JObj [])
        (ManifestProcessor.or_default (JObj []) (Manifest.ui module)) ;;
    components <-- get "components" (JArr []) ui_adaptive ;;
    components <-- iter components ;;
    collect_from
      (Returns (JStr (ModuleSection.name (Manifest.module module))))
      components all_components
  else Returns all_components.

(** The body of the loop over the drivers. *)
Definition collect_driver (all_components : list json) (driver : dict json)
    : outcome (list json) :=
  let ui_ext := PyDict.get_default "ui_extensions" (JObj []) driver in
  components <-- get "components" (JArr []) ui_ext ;;
  components <-- iter components ;;
  collect_from
    (d <-- item "driver" (JObj driver) ;; item "name" d)
    components all_components.

Fixpoint for_each {X} (body : list json -> X -> outcome (list json))
    (l : list X) (all_components : list json) : outcome (list json) :=
  match l with
  | [] => Returns all_components
  | x :: l' =>
      all_components <-- body all_components x ;;
      for_each body l' all_components
  end.

(** [_collect_components], from [all_components = []]: what
    [all_components] holds when it returns. *)
Definition _collect_components (modules : list Manifest.t)
    (drivers : list (dict json)) : outcome (list json) :=
  (* From manager modules *)
  all_components <-- for_each collect_module modules [] ;;
  (* From driver extensions *)
  for_each collect_driver drivers all_components.

End AdaptiveUIGenerator.

(** * Properties *)

(** ** Dicts *)

Section DictFacts.
Context {V : Type}.
Implicit Types (d : dict V) (k : string) (v : V).

Lemma get_set_same k v d : PyDict.get k (PyDict.set k v d) = Some v.
Proof.
  induction d as [|[k' v'] d IH]; simpl.
  - now rewrite String.eqb_refl.
  - destruct (String.eqb_spec k' k) as [->|Hne]; simpl.
    + now rewrite String.eqb_refl.
    + destruct (String.eqb_spec k' k); [contradiction|exact IH].
Qed.

Lemma get_set_other k k' v d :
  k <> k' -> PyDict.get k' (PyDict.set k v d) = PyDict.get k' d.
Proof.
  intros Hne. induction d as [|[k0 v0] d IH]; simpl.
  - destruct (String.eqb_spec k k'); [contradiction|reflexivity].
  - destruct (String.eqb_spec k0 k) as [->|H0]; simpl.
    + destruct (String.eqb_spec k k'); [contradiction|reflexivity].
    + destruct (String.eqb_spec k0 k'); [reflexivity|exact IH].
Qed.

Lemma contains_keys k d :
  PyDict.contains k d = true <-> In k (PyDict.keys d).
Proof.
  unfold PyDict.contains, PyDict.keys.
  induction d as [|[k' v'] d IH]; simpl.
  - split; [discriminate|tauto].
  - destruct (String.eqb_spec k' k) as [->|Hne].
    + split; auto.
    + rewrite IH. split; [auto|]. intros [H|H]; [contradiction|exact H].
Qed.

Lemma not_contains_keys k d :
  PyDict.contains k d = false <-> ~ In k (PyDict.keys d).
Proof.
  rewrite <- contains_keys. destruct (PyDict.contains k d); split;
    congruence.
Qed.

Lemma get_None_keys k d : PyDict.get k d = None <-> ~ In k (PyDict.keys d).
Proof.
  rewrite <- not_contains_keys. unfold PyDict.contains.
  destruct (PyDict.get k d); split; congruence.
Qed.

Lemma keys_set k v d :
  PyDict.keys (PyDict.set k v d)
  = if PyDict.contains k d then PyDict.keys d else PyDict.keys d ++ [k].
Proof.
  unfold PyDict.contains, PyDict.keys.
  induction d as [|[k' v'] d IH]; simpl.
  - reflexivity.
  - destruct (String.eqb_spec k' k) as [->|Hne]; simpl.
    + reflexivity.
    + rewrite IH. now destruct (PyDict.get k d).
Qed.

Lemma in_keys_set k k' v d :
  In k' (PyDict.keys (PyDict.set k v d)) <-> k' = k \/ In k' (PyDict.keys d).
Proof.
  rewrite keys_set. destruct (PyDict.contains k d) eqn:Hc.
  - apply contains_keys in Hc. split; [auto|].
    intros [->|H]; assumption.
  - rewrite in_app_iff. simpl. intuition congruence.
Qed.

Lemma NoDup_keys_set k v d :
  NoDup (PyDict.keys d) -> NoDup (PyDict.keys (PyDict.set k v d)).
Proof.
  intros Hnd. rewrite keys_set. destruct (PyDict.contains k d) eqn:Hc.
  - exact Hnd.
  - apply not_contains_keys in Hc.
    apply NoDup_rev in Hnd. rewrite <- (rev_involutive (_ ++ _)).
    apply NoDup_rev. rewrite rev_app_distr. simpl. constructor.
    + now rewrite <- in_rev.
    + exact Hnd.
Qed.

(** A key of a dict without repeated keys selects exactly its item. *)
Lemma filter_items_key k d :
  NoDup (PyDict.keys d) ->
  filter (fun e : string * V => fst e =? k) d
  = match PyDict.get k d with Some v => [(k, v)] | None => [] end.
Proof.
  unfold PyDict.keys. induction d as [|[k' v'] d IH]; simpl; intros Hnd.
  - reflexivity.
  - inversion Hnd as [|? ? Hnotin Hnd']; subst.
    destruct (String.eqb_spec k' k) as [->|Hne].
    + rewrite (IH Hnd').
      apply get_None_keys in Hnotin. unfold PyDict.keys in Hnotin.
      now rewrite Hnotin.
    + exact (IH Hnd').
Qed.
End DictFacts.

Section AppendFacts.
Context {X : Type}.
Implicit Types (t : dict (list X)) (k : string) (x : X).

Lemma get_append_to_same x t k :
  PyDict.get k (PyDict.append_to x t k)
  = Some (PyDict.get_default k [] t ++ [x]).
Proof.
  unfold PyDict.append_to. rewrite get_set_same.
  destruct (PyDict.contains k t) eqn:Hc; simpl; [reflexivity|].
  unfold PyDict.get_default. rewrite get_set_same.
  unfold PyDict.contains in Hc. now destruct (PyDict.get k t).
Qed.

Lemma get_append_to_other x t k k' :
  k <> k' -> PyDict.get k' (PyDict.append_to x t k) = PyDict.get k' t.
Proof.
  intros Hne. unfold PyDict.append_to.
  rewrite get_set_other by exact Hne.
  destruct (PyDict.contains k t); simpl; [reflexivity|].
  now apply get_set_other.
Qed.

Lemma in_keys_append_to x t k k' :
  In k' (PyDict.keys (PyDict.append_to x t k))
  <-> k' = k \/ In k' (PyDict.keys t).
Proof.
  unfold PyDict.append_to. rewrite in_keys_set.
  destruct (PyDict.contains k t); simpl; [tauto|].
  rewrite in_keys_set. tauto.
Qed.

Lemma NoDup_keys_append_to x t k :
  NoDup (PyDict.keys t) -> NoDup (PyDict.keys (PyDict.append_to x t k)).
Proof.
  intros Hnd. unfold PyDict.append_to. apply NoDup_keys_set.
  destruct (PyDict.contains k t); simpl; [exact Hnd|].
  now apply NoDup_keys_set.
Qed.
End AppendFacts.

(** ** The index tables as folds over [(key, module)] pairs *)

Section FillFacts.
Import Notions.

Lemma get_fill k es : forall t,
  PyDict.get k (fill t es)
  = match names_for k es with
    | [] => PyDict.get k t
    | ns => Some (PyDict.get_default k [] t ++ ns)
    end.
Proof.
  unfold fill, names_for.
  induction es as [|[k' n] es IH]; intros t; [reflexivity|].
  cbn [fold_left filter fst snd]. rewrite IH.
  destruct (String.eqb_spec k' k) as [->|Hne]; cbn [map snd].
  - unfold PyDict.get_default. rewrite get_append_to_same.
    destruct (map snd _); [reflexivity|].
    now rewrite <- app_assoc.
  - unfold PyDict.get_default. rewrite !get_append_to_other by exact Hne.
    reflexivity.
Qed.

Lemma names_for_nil k es : names_for k es = [] <-> ~ In k (map fst es).
Proof.
  unfold names_for. induction es as [|[k' n] es IH]; simpl.
  - tauto.
  - destruct (String.eqb_spec k' k) as [->|Hne]; simpl.
    + split; [discriminate|]. intros H. exfalso. apply H. now left.
    + rewrite IH. tauto.
Qed.

Lemma get_fill_init k es :
  PyDict.get k (fill [] es)
  = match names_for k es with [] => None | ns => Some ns end.
Proof. rewrite get_fill. reflexivity. Qed.

Lemma in_keys_fill k es : forall t,
  In k (PyDict.keys (fill t es)) <-> In k (PyDict.keys t) \/ In k (map fst es).
Proof.
  unfold fill. induction es as [|[k' n] es IH]; intros t; simpl.
  - tauto.
  - rewrite IH, in_keys_append_to. intuition congruence.
Qed.

Lemma NoDup_keys_fill es : forall t,
  NoDup (PyDict.keys t) -> NoDup (PyDict.keys (fill t es)).
Proof.
  unfold fill. induction es as [|[k' n] es IH]; intros t Hnd; simpl.
  - exact Hnd.
  - apply IH. now apply NoDup_keys_append_to.
Qed.

Lemma fill_app t es1 es2 : fill t (es1 ++ es2) = fill (fill t es1) es2.
Proof. unfold fill. apply fold_left_app. Qed.

Lemma assign_app (t : dict string) es1 es2 :
  assign t (es1 ++ es2) = assign (assign t es1) es2.
Proof. unfold assign. apply fold_left_app. Qed.

Lemma fill_keys_of name l : forall t,
  fold_left (ManifestValidator.append_module name) l t
  = fill t (map (fun key => (key, name)) l).
Proof.
  unfold fill. induction l as [|k l IH]; intros t; simpl; [reflexivity|].
  apply IH.
Qed.

Lemma assign_methods name l : forall t : dict string,
  fold_left (fun table method => PyDict.set method name table) l t
  = assign t (map (fun key => (key, name)) l).
Proof.
  unfold assign. induction l as [|k l IH]; intros t; simpl; [reflexivity|].
  apply IH.
Qed.

Lemma collect_keys_fill name entries t :
  ManifestValidator.collect_keys name entries t
  = fill t (map (fun key => (key, name)) (keys_of entries)).
Proof.
  destruct entries as [d|]; simpl; [apply fill_keys_of|reflexivity].
Qed.

(** [collect_manifest_data] extends each table by the module's pairs. *)
Lemma collect_manifest_data_tables m v :
  tables (ManifestValidator.collect_manifest_data (module_name m) m v)
  = (fill (ManifestValidator.event_publishers v)
          (entries published_events [m]),
     fill (ManifestValidator.event_subscribers v)
          (entries subscribed_events [m]),
     fill (ManifestValidator.state_publishers v)
          (entries written_states [m]),
     fill (ManifestValidator.state_subscribers v)
          (entries read_states [m]),
     assign (ManifestValidator.api_providers v) (api_entries [m])).
Proof.
  unfold tables, ManifestValidator.collect_manifest_data, api_entries,
    entries, published_events, subscribed_events, written_states,
    read_states.
  simpl. rewrite !app_nil_r, assign_methods.
  destruct (Manifest.event_bus m) as [eb|];
    destruct (Manifest.shared_state m) as [st|]; simpl;
    rewrite ?collect_keys_fill; reflexivity.
Qed.

Lemma collect_all_tables ms : forall v,
  tables (ManifestValidator.collect_all ms v)
  = (fill (ManifestValidator.event_publishers v)
          (entries published_events ms),
     fill (ManifestValidator.event_subscribers v)
          (entries subscribed_events ms),
     fill (ManifestValidator.state_publishers v)
          (entries written_states ms),
     fill (ManifestValidator.state_subscribers v)
          (entries read_states ms),
     assign (ManifestValidator.api_providers v) (api_entries ms)).
Proof.
  induction ms as [|m ms IH]; intros v.
  - reflexivity.
  - unfold ManifestValidator.collect_all in *. simpl fold_left.
    rewrite IH. fold (module_name m).
    pose proof (collect_manifest_data_tables m v) as Hm.
    unfold tables in Hm. injection Hm as -> -> -> -> ->.
    rewrite !app_nil_r. unfold api_entries, entries. cbn [flat_map].
    now rewrite !fill_app, assign_app.
Qed.

Lemma collect_all_issues ms : forall v,
  ManifestValidator.issues (ManifestValidator.collect_all ms v)
  = ManifestValidator.issues v.
Proof.
  unfold ManifestValidator.collect_all.
  induction ms as [|m ms IH]; intros v; simpl; [reflexivity|].
  rewrite IH. unfold ManifestValidator.collect_manifest_data.
  destruct (Manifest.event_bus m); destruct (Manifest.shared_state m);
    reflexivity.
Qed.
End FillFacts.

(** ** The stable sort *)

Section SortFacts.
Context {A : Type} (le : A -> A -> bool).

Lemma insert_sorted_perm x l : Permutation (x :: l) (insert_sorted le x l).
Proof.
  induction l as [|y l IH]; simpl.
  - apply Permutation_refl.
  - destruct (le x y).
    + apply Permutation_refl.
    + eapply perm_trans; [apply perm_swap|]. now apply perm_skip.
Qed.

Lemma stable_sort_perm l : Permutation l (stable_sort le l).
Proof.
  induction l as [|x l IH]; simpl.
  - apply perm_nil.
  - eapply perm_trans; [apply perm_skip, IH|]. apply insert_sorted_perm.
Qed.

Section Ordered.
Hypothesis le_total : forall a b, le a b = false -> le b a = true.
Hypothesis le_trans :
  forall a b c, le a b = true -> le b c = true -> le a c = true.

Let ascending (a b : A) : Prop := le a b = true.

Lemma insert_sorted_hd y x l :
  ascending y x -> HdRel ascending y l ->
  HdRel ascending y (insert_sorted le x l).
Proof.
  intros Hyx Hhd. destruct l as [|z l]; simpl.
  - now constructor.
  - destruct (le x z); constructor; [exact Hyx|].
    now inversion Hhd.
Qed.

Lemma insert_sorted_sorted x l :
  Sorted ascending l -> Sorted ascending (insert_sorted le x l).
Proof.
  induction 1 as [|y l Hs IH Hhd]; simpl.
  - repeat constructor.
  - destruct (le x y) eqn:Hle.
    + constructor; [now constructor|]. now constructor.
    + constructor; [exact IH|]. apply insert_sorted_hd; [|exact Hhd].
      now apply le_total.
Qed.

Lemma stable_sort_sorted l :
  StronglySorted ascending (stable_sort le l).
Proof.
  apply Sorted_StronglySorted; [exact le_trans|].
  induction l as [|x l IH]; simpl; [constructor|].
  now apply insert_sorted_sorted.
Qed.


End Ordered.

(** Within a class of elements that are below one another, sorting
    keeps the order. *)
Section Stable.
Variable p : A -> bool.
Hypothesis one_class :
  forall a b, p a = true -> p b = true -> le a b = true.

Lemma filter_insert_sorted x l :
  filter p (insert_sorted le x l) = filter p (x :: l).
Proof.
  induction l as [|y l IH]; [reflexivity|].
  cbn [insert_sorted]. destruct (le x y) eqn:Hle.
  - reflexivity.
  - cbn [filter] in *. rewrite IH.
    destruct (p x) eqn:Hx; [|reflexivity].
    destruct (p y) eqn:Hy; [|reflexivity].
    rewrite (one_class x y Hx Hy) in Hle. discriminate.
Qed.

Lemma filter_stable_sort l :
  filter p (stable_sort le l) = filter p l.
Proof.
  induction l as [|x l IH]; [reflexivity|].
  cbn [stable_sort fold_right]. fold (stable_sort le l).
  rewrite filter_insert_sorted. cbn [filter]. now rewrite IH.
Qed.
End Stable.
End SortFacts.

Section SortByKeyFacts.
Context {A : Type} (key : A -> Z).

Lemma sort_by_key_perm l : Permutation l (sort_by_key key l).
Proof. apply stable_sort_perm. Qed.

Lemma sort_by_key_strongly_sorted l :
  StronglySorted (fun a b => (key a <= key b)%Z) (sort_by_key key l).
Proof.
  assert (H : StronglySorted (fun a b => (key a <=? key b)%Z = true)
                             (sort_by_key key l)).
  { apply stable_sort_sorted; intros; lia. }
  induction H as [|x l' _ IH Hx]; constructor; [exact IH|].
  eapply Forall_impl; [|exact Hx]. intros a Ha. simpl in Ha. lia.
Qed.

Lemma filter_sort_by_key (p : A -> bool) l :
  (forall a b, p a = true -> p b = true -> key a = key b) ->
  filter p (sort_by_key key l) = filter p l.
Proof.
  intros Hkey. apply filter_stable_sort. intros a b Ha Hb.
  rewrite (Hkey a b Ha Hb). lia.
Qed.
End SortByKeyFacts.

(** ** The order of strings *)

Section StringOrder.
Lemma ascii_compare_Lt_trans a b c :
  Ascii.compare a b = Lt -> Ascii.compare b c = Lt ->
  Ascii.compare a c = Lt.
Proof.
  unfold Ascii.compare. rewrite !N.compare_lt_iff. lia.
Qed.

Lemma string_compare_Lt_trans s1 : forall s2 s3,
  String.compare s1 s2 = Lt -> String.compare s2 s3 = Lt ->
  String.compare s1 s3 = Lt.
Proof.
  induction s1 as [|c1 s1 IH]; intros [|c2 s2] [|c3 s3]; simpl;
    try congruence.
  destruct (Ascii.compare c1 c2) eqn:H12; try discriminate;
    destruct (Ascii.compare c2 c3) eqn:H23; try discriminate.
  - apply Ascii.compare_eq_iff in H12, H23. subst.
    assert (H : Ascii.compare c3 c3 = Eq)
      by (unfold Ascii.compare; apply N.compare_refl).
    rewrite H. apply IH.
  - apply Ascii.compare_eq_iff in H12. subst. now rewrite H23.
  - apply Ascii.compare_eq_iff in H23. subst. now rewrite H12.
  - now rewrite (ascii_compare_Lt_trans _ _ _ H12 H23).
Qed.

Lemma string_leb_trans a b c :
  String.leb a b = true -> String.leb b c = true -> String.leb a c = true.
Proof.
  unfold String.leb.
  destruct (String.compare a b) eqn:Hab; try discriminate;
    destruct (String.compare b c) eqn:Hbc; try discriminate; intros _ _.
  - apply String.compare_eq_iff in Hab, Hbc. subst.
    destruct (String.compare c c) eqn:H; try reflexivity.
    pose proof (String.compare_antisym c c) as H'. rewrite H in H'.
    discriminate.
  - apply String.compare_eq_iff in Hab. subst. now rewrite Hbc.
  - apply String.compare_eq_iff in Hbc. subst. now rewrite Hab.
  - now rewrite (string_compare_Lt_trans _ _ _ Hab Hbc).
Qed.

Lemma string_leb_total a b : String.leb a b = false -> String.leb b a = true.
Proof.
  intros H. destruct (String.leb_total a b) as [H'|H']; congruence.
Qed.

Lemma sorted_perm l : Permutation l (PyStr.sorted l).
Proof. apply stable_sort_perm. Qed.

End StringOrder.

(** ** What the three validations file *)

(** Finds an element in a concrete list. *)
Ltac pick := cbn [In]; repeat (first [left; reflexivity | right]).

(** Splits a conjunction into its parts, and nothing else. *)
Ltac conjs := repeat match goal with |- _ /\ _ => split end.

Section IssueFacts.
Import Notions ValidationIssue.

Lemma unmatched_follow sev cat msg table other i :
  In i (ManifestValidator.unmatched sev cat msg table other) ->
  severity i = sev /\ category i = cat /\ message i = msg (target i)
  /\ In (target i) (PyDict.keys table).
Proof.
  unfold ManifestValidator.unmatched, PyDict.items.
  rewrite in_flat_map. intros [[k l] [Hin Hi]].
  destruct (ManifestValidator.no_entry k other); [|contradiction].
  destruct Hi as [<-|[]]. simpl. repeat split.
  unfold PyDict.keys. now apply (in_map fst) in Hin.
Qed.

Lemma multiple_follow sev cat msg table i :
  In i (ManifestValidator.multiple sev cat msg table) ->
  severity i = sev /\ category i = cat /\ message i = msg (target i).
Proof.
  unfold ManifestValidator.multiple, PyDict.items.
  rewrite in_flat_map. intros [[k l] [Hin Hi]].
  destruct (1 <? List.length l)%nat; [|contradiction].
  destruct Hi as [<-|[]]. simpl. repeat split.
Qed.

Lemma event_issues_follow v i :
  In i (ManifestValidator.event_issues v) ->
  category i = "EVENT" /\ follows_a_rule i.
Proof.
  unfold ManifestValidator.event_issues, follows_a_rule, rule_shapes.
  rewrite !in_app_iff. intros [H|[H|H]].
  - apply unmatched_follow in H. destruct H as (-> & -> & -> & _).
    split; [reflexivity|pick].
  - apply unmatched_follow in H. destruct H as (-> & -> & -> & _).
    split; [reflexivity|pick].
  - apply multiple_follow in H. destruct H as (-> & -> & ->).
    split; [reflexivity|pick].
Qed.

Lemma shared_state_issues_follow v i :
  In i (ManifestValidator.shared_state_issues v) ->
  category i = "STATE" /\ follows_a_rule i.
Proof.
  unfold ManifestValidator.shared_state_issues, follows_a_rule, rule_shapes.
  rewrite !in_app_iff. intros [H|[H|H]].
  - apply unmatched_follow in H. destruct H as (-> & -> & -> & _).
    split; [reflexivity|pick].
  - apply unmatched_follow in H. destruct H as (-> & -> & -> & _).
    split; [reflexivity|pick].
  - apply multiple_follow in H. destruct H as (-> & -> & ->).
    split; [reflexivity|pick].
Qed.

Lemma in_dependency_issues modules i :
  In i (ManifestValidator.dependency_issues modules) <->
  exists m dep,
    In m modules /\ In dep (ManifestValidator.declared_dependencies m)
    /\ PyStr.mem dep ManifestValidator.system_dependencies = false
    /\ PyStr.mem dep (map module_name modules) = false
    /\ i = ValidationIssue.mk "ERROR" "DEPENDENCY"
             ("Module depends on non-existent module '" ++ dep ++ "'")
             (module_name m) dep.
Proof.
  unfold ManifestValidator.dependency_issues. rewrite in_flat_map. split.
  - intros (m & Hm & Hi). apply in_flat_map in Hi.
    destruct Hi as (dep & Hdep & Hi). exists m, dep.
    destruct (PyStr.mem dep ManifestValidator.system_dependencies);
      [contradiction|].
    fold module_name in Hi. fold (module_name m) in Hi.
    change (map (fun m0 => ModuleSection.name (Manifest.module m0)) modules)
      with (map module_name modules) in Hi.
    destruct (PyStr.mem dep (map module_name modules)); [contradiction|].
    destruct Hi as [<-|[]]. auto.
  - intros (m & dep & Hm & Hdep & Hsys & Hnames & ->).
    exists m. split; [exact Hm|]. apply in_flat_map. exists dep.
    split; [exact Hdep|]. rewrite Hsys.
    change (map (fun m0 => ModuleSection.name (Manifest.module m0)) modules)
      with (map module_name modules).
    rewrite Hnames. now left.
Qed.

Lemma dependency_issues_follow modules i :
  In i (ManifestValidator.dependency_issues modules) ->
  category i = "DEPENDENCY" /\ follows_a_rule i.
Proof.
  rewrite in_dependency_issues.
  intros (m & dep & _ & _ & _ & _ & ->). split; [reflexivity|].
  unfold follows_a_rule, rule_shapes. pick.
Qed.

(** The issues found are those of the three validations, in that order;
    what [self.issues] held before is cleared. *)
Lemma discovered_eq modules v :
  ManifestValidator.discovered modules v
  = let w := ManifestValidator.collect_all modules
               (ManifestValidator.with_issues [] v) in
    ManifestValidator.event_issues w
    ++ ManifestValidator.shared_state_issues w
    ++ ManifestValidator.dependency_issues modules.
Proof.
  unfold ManifestValidator.discovered, ManifestValidator.validate_dependencies,
    ManifestValidator.validate_shared_state, ManifestValidator.validate_events.
  cbn [ManifestValidator.issues ManifestValidator.with_issues].
  rewrite collect_all_issues. cbn [ManifestValidator.issues
    ManifestValidator.with_issues]. cbn [app]. now rewrite <- app_assoc.
Qed.

Lemma validate_all_eq modules v :
  snd (ManifestValidator.validate_all modules v)
  = let out := sort_by_key ManifestValidator.severity_rank
                 (ManifestValidator.discovered modules v) in
    (negb (existsb (fun issue => severity issue =? "ERROR") out), out).
Proof. reflexivity. Qed.

Lemma discovered_follow modules v i :
  In i (ManifestValidator.discovered modules v) ->
  In (category i) ["EVENT"; "STATE"; "DEPENDENCY"] /\ follows_a_rule i.
Proof.
  rewrite discovered_eq. cbv zeta. rewrite !in_app_iff. intros [H|[H|H]].
  - apply event_issues_follow in H. destruct H as [-> H]. split; [pick|auto].
  - apply shared_state_issues_follow in H. destruct H as [-> H].
    split; [pick|auto].
  - apply dependency_issues_follow in H. destruct H as [-> H].
    split; [pick|auto].
Qed.

Lemma in_validate_all modules v i :
  In i (snd (snd (ManifestValidator.validate_all modules v)))
  <-> In i (ManifestValidator.discovered modules v).
Proof.
  rewrite validate_all_eq. cbn [snd]. split; intros H.
  - eapply Permutation_in; [|exact H].
    apply Permutation_sym, sort_by_key_perm.
  - eapply Permutation_in; [|exact H]. apply sort_by_key_perm.
Qed.

Lemma rule_rank i :
  follows_a_rule i ->
  In (severity i, ManifestValidator.severity_rank i)
     [("ERROR", 0%Z); ("WARNING", 1%Z); ("INFO", 2%Z)].
Proof.
  unfold follows_a_rule, rule_shapes, ManifestValidator.severity_rank.
  intros H. simpl in H.
  repeat (destruct H as [H|H]; [injection H as Hs _ _; rewrite <- Hs;
                                pick|]).
  contradiction.
Qed.

Lemma severity_one_rank sev a b :
  (severity a =? sev) = true -> (severity b =? sev) = true ->
  ManifestValidator.severity_rank a = ManifestValidator.severity_rank b.
Proof.
  rewrite !String.eqb_eq. unfold ManifestValidator.severity_rank.
  now intros -> ->.
Qed.
End IssueFacts.

(** C9. The list [validate_all] returns is ascending in the severity rank
    (ERROR 0, WARNING 1, INFO 2, the only severities that occur), it holds
    exactly the issues found, and the issues of one severity keep the
    order in which they were found. *)
Theorem validate_all_sorted_stable
    (modules : list Manifest.t) (v : ManifestValidator.t) :
  let out := snd (snd (ManifestValidator.validate_all modules v)) in
  let found := ManifestValidator.discovered modules v in
  StronglySorted
    (fun a b => (ManifestValidator.severity_rank a
                 <= ManifestValidator.severity_rank b)%Z) out
  /\ Permutation found out
  /\ (forall sev,
        filter (fun i => ValidationIssue.severity i =? sev) out
        = filter (fun i => ValidationIssue.severity i =? sev) found)
  /\ Forall
       (fun i => In (ValidationIssue.severity i,
                     ManifestValidator.severity_rank i)
                    [("ERROR", 0%Z); ("WARNING", 1%Z); ("INFO", 2%Z)]) out.
Proof.
  cbv zeta. rewrite validate_all_eq. cbn [snd]. repeat split.
  - apply sort_by_key_strongly_sorted.
  - apply sort_by_key_perm.
  - intros sev. apply filter_sort_by_key. apply severity_one_rank.
  - apply Forall_forall. intros i Hi. apply rule_rank.
    apply (discovered_follow modules v).
    eapply Permutation_in; [|exact Hi].
    apply Permutation_sym, sort_by_key_perm.
Qed.

(** ** Orphan events *)

Section OrphanFacts.
Import Notions ValidationIssue.

Lemma filter_none {A} (p : A -> bool) l :
  (forall x, In x l -> p x = false) -> filter p l = [].
Proof.
  induction l as [|x l IH]; intros H; [reflexivity|].
  cbn [filter]. rewrite (H x) by now left.
  apply IH. intros y Hy. apply H. now right.
Qed.

Lemma unmatched_cons sev cat msg k l table other :
  ManifestValidator.unmatched sev cat msg ((k, l) :: table) other
  = (if ManifestValidator.no_entry k other
     then [ValidationIssue.mk sev cat (msg k) (PyStr.join ", " l) k]
     else [])
    ++ ManifestValidator.unmatched sev cat msg table other.
Proof. reflexivity. Qed.

(** Of the issues one loop files, those about [key] are: one, when
    [key] is in the table and has no entry on the other side. *)
Lemma filter_unmatched sev cat msg key other : forall table,
  NoDup (PyDict.keys table) ->
  filter (fun i => target i =? key)
         (ManifestValidator.unmatched sev cat msg table other)
  = match PyDict.get key table with
    | Some l =>
        if ManifestValidator.no_entry key other
        then [ValidationIssue.mk sev cat (msg key) (PyStr.join ", " l) key]
        else []
    | None => []
    end.
Proof.
  induction table as [|[k l] table IH]; intros Hnd; [reflexivity|].
  rewrite unmatched_cons, filter_app.
  inversion Hnd as [|? ? Hnotin Hnd']; subst.
  cbn [PyDict.get]. destruct (String.eqb_spec k key) as [->|Hne].
  - rewrite (filter_none _ (ManifestValidator.unmatched _ _ _ table other)).
    + destruct (ManifestValidator.no_entry key other); cbn [filter target];
        [|reflexivity].
      now rewrite String.eqb_refl.
    + intros i Hi. apply unmatched_follow in Hi.
      destruct Hi as (_ & _ & _ & Hk). apply String.eqb_neq.
      intros Heq. apply Hnotin. unfold PyDict.keys in Hk. now rewrite <- Heq.
  - rewrite (IH Hnd').
    destruct (ManifestValidator.no_entry k other); [|reflexivity].
    cbn [filter target app]. apply String.eqb_neq in Hne. now rewrite Hne.
Qed.

Lemma no_entry_fill_init key es :
  ManifestValidator.no_entry key (fill [] es)
  = match names_for key es with [] => true | _ => false end.
Proof.
  unfold ManifestValidator.no_entry. rewrite get_fill_init.
  now destruct (names_for key es).
Qed.

Lemma in_entries sel key modules :
  In key (map fst (entries sel modules))
  <-> exists m, In m modules /\ In key (sel m).
Proof.
  unfold entries. rewrite in_map_iff. split.
  - intros ([k n] & Hk & Hin). simpl in Hk. subst k.
    apply in_flat_map in Hin. destruct Hin as (m & Hm & Hin).
    apply in_map_iff in Hin. destruct Hin as (k' & Heq & Hk').
    injection Heq as -> _. eauto.
  - intros (m & Hm & Hk). exists (key, module_name m). split; [reflexivity|].
    apply in_flat_map. exists m. split; [exact Hm|].
    apply in_map_iff. eauto.
Qed.

Lemma init_tables modules :
  tables (ManifestValidator.collect_all modules ManifestValidator.init)
  = (fill [] (entries published_events modules),
     fill [] (entries subscribed_events modules),
     fill [] (entries written_states modules),
     fill [] (entries read_states modules),
     assign [] (api_entries modules)).
Proof. apply collect_all_tables. Qed.

(** The table of one side holds [key] with its holders, the other side
    has no entry for it. *)
Lemma orphan_tables sel other key modules :
  (exists m, In m modules /\ In key (sel m)) ->
  (forall m, In m modules -> ~ In key (other m)) ->
  PyDict.get key (fill [] (entries sel modules))
  = Some (holders sel key modules)
  /\ ManifestValidator.no_entry key (fill [] (entries other modules)) = true.
Proof.
  intros Hsome Hnone. split.
  - rewrite get_fill_init. unfold holders.
    destruct (names_for key (entries sel modules)) eqn:Hn; [|reflexivity].
    apply names_for_nil in Hn. exfalso. apply Hn. now apply in_entries.
  - rewrite no_entry_fill_init.
    destruct (names_for key (entries other modules)) eqn:Hn; [reflexivity|].
    assert (Hin : In key (map fst (entries other modules))).
    { destruct (in_dec string_dec key (map fst (entries other modules)))
        as [H|H]; [exact H|].
      apply names_for_nil in H. congruence. }
    apply in_entries in Hin. destruct Hin as (m & Hm & Hk).
    exfalso. exact (Hnone m Hm Hk).
Qed.

Lemma filter_severity_unmatched sev sev' cat msg table other key :
  filter (fun i => (severity i =? sev') && (target i =? key))
         (ManifestValidator.unmatched sev cat msg table other)
  = if sev =? sev'
    then filter (fun i => target i =? key)
                (ManifestValidator.unmatched sev cat msg table other)
    else [].
Proof.
  destruct (String.eqb_spec sev sev') as [<-|Hne].
  - apply filter_ext_in. intros i Hi. apply unmatched_follow in Hi.
    destruct Hi as (-> & _). now rewrite String.eqb_refl.
  - apply filter_none. intros i Hi. apply unmatched_follow in Hi.
    destruct Hi as (-> & _). apply String.eqb_neq in Hne. now rewrite Hne.
Qed.

Lemma filter_severity_multiple sev sev' cat msg table key :
  sev <> sev' ->
  filter (fun i => (severity i =? sev') && (target i =? key))
         (ManifestValidator.multiple sev cat msg table)
  = [].
Proof.
  intros Hne. apply filter_none. intros i Hi. apply multiple_follow in Hi.
  destruct Hi as (-> & _). apply String.eqb_neq in Hne. now rewrite Hne.
Qed.

Lemma orphan_in_event_issues k event modules :
  is_orphan k event modules ->
  filter (fun i => (severity i =? orphan_severity k) && (target i =? event))
         (ManifestValidator.event_issues
            (ManifestValidator.collect_all modules ManifestValidator.init))
  = [orphan_issue k event modules].
Proof.
  intros Ho. unfold ManifestValidator.event_issues.
  pose proof (init_tables modules) as Ht. unfold tables in Ht.
  injection Ht as -> -> _ _ _.
  rewrite !filter_app, !filter_severity_unmatched.
  rewrite !filter_unmatched by (apply NoDup_keys_fill; constructor).
  destruct k; destruct Ho as [Hsome Hnone];
    destruct (orphan_tables _ _ _ _ Hsome Hnone) as [-> ->];
    rewrite filter_severity_multiple by discriminate; reflexivity.
Qed.
End OrphanFacts.

(** C4. An event that some module publishes and none subscribes to gets
    exactly one WARNING from [validate_events], with the event as target
    and the publishing modules as source; an event that some module
    subscribes to and none publishes gets exactly one ERROR. The same
    issue is the only EVENT issue of that severity and target in the list
    [validate_all] returns. *)
Theorem orphan_event_one_issue
    (k : Notions.orphan) (event : string) (modules : list Manifest.t) :
  Notions.is_orphan k event modules ->
  filter (fun i => (ValidationIssue.severity i =? Notions.orphan_severity k)
                   && (ValidationIssue.target i =? event))
         (ManifestValidator.event_issues
            (ManifestValidator.collect_all modules ManifestValidator.init))
  = [Notions.orphan_issue k event modules]
  /\ filter (fun i => (ValidationIssue.severity i =? Notions.orphan_severity k)
                      && (ValidationIssue.target i =? event)
                      && (ValidationIssue.category i =? "EVENT"))
            (snd (snd (ManifestValidator.validate_all modules
                         ManifestValidator.init)))
     = [Notions.orphan_issue k event modules].
Proof.
  intros Ho. split; [now apply orphan_in_event_issues|].
  rewrite validate_all_eq. cbn [snd].
  rewrite filter_sort_by_key.
  2:{ intros a b Ha Hb.
      apply andb_prop in Ha. destruct Ha as [Ha _].
      apply andb_prop in Ha. destruct Ha as [Ha _].
      apply andb_prop in Hb. destruct Hb as [Hb _].
      apply andb_prop in Hb. destruct Hb as [Hb _].
      exact (severity_one_rank _ a b Ha Hb). }
  rewrite discovered_eq. cbv zeta. rewrite !filter_app.
  rewrite (filter_none _ (ManifestValidator.shared_state_issues _)).
  2:{ intros i Hi. apply shared_state_issues_follow in Hi.
      destruct Hi as [-> _]. apply andb_false_r. }
  rewrite (filter_none _ (ManifestValidator.dependency_issues _)).
  2:{ intros i Hi. apply dependency_issues_follow in Hi.
      destruct Hi as [-> _]. apply andb_false_r. }
  rewrite !app_nil_r.
  rewrite <- (orphan_in_event_issues k event modules Ho).
  apply filter_ext_in. intros i Hi. apply event_issues_follow in Hi.
  destruct Hi as [-> _]. apply andb_true_r.
Qed.

(** ** Dependencies *)

Section DependencyFacts.
Import Notions ValidationIssue.

Lemma mem_In x l : PyStr.mem x l = true <-> In x l.
Proof.
  unfold PyStr.mem. rewrite existsb_exists. split.
  - intros (y & Hy & Heq). apply String.eqb_eq in Heq. now subst.
  - intros H. exists x. split; [exact H|apply String.eqb_refl].
Qed.

Lemma mem_false x l : PyStr.mem x l = false <-> ~ In x l.
Proof.
  rewrite <- mem_In. destruct (PyStr.mem x l); split; congruence.
Qed.

Lemma dependency_issue_target modules v i :
  In i (snd (snd (ManifestValidator.validate_all modules v))) ->
  category i = "DEPENDENCY" ->
  ~ In (target i) (map module_name modules)
  /\ ~ In (target i) ManifestValidator.system_dependencies.
Proof.
  rewrite in_validate_all, discovered_eq. cbv zeta.
  rewrite !in_app_iff. intros [H|[H|H]] Hcat.
  - apply event_issues_follow in H. destruct H as [H _].
    rewrite H in Hcat. discriminate.
  - apply shared_state_issues_follow in H. destruct H as [H _].
    rewrite H in Hcat. discriminate.
  - apply in_dependency_issues in H.
    destruct H as (m & dep & _ & _ & Hsys & Hnames & ->).
    cbn [target]. apply mem_false in Hsys, Hnames. now split.
Qed.

Lemma unknown_dependency_issue modules v m dep :
  In m modules -> In dep (ManifestValidator.declared_dependencies m) ->
  ~ In dep (map module_name modules) ->
  ~ In dep ManifestValidator.system_dependencies ->
  In (ValidationIssue.mk "ERROR" "DEPENDENCY"
        ("Module depends on non-existent module '" ++ dep ++ "'")
        (module_name m) dep)
     (snd (snd (ManifestValidator.validate_all modules v))).
Proof.
  intros Hm Hdep Hnames Hsys.
  rewrite in_validate_all, discovered_eq. cbv zeta.
  rewrite !in_app_iff. right. right. apply in_dependency_issues.
  exists m, dep. repeat split; try assumption; now apply mem_false.
Qed.
End DependencyFacts.

(** C5, amended. A declared dependency gets no DEPENDENCY issue exactly
    when it is the name of a module handed to the validator or one of
    ESPhal, SharedState, EventBus, ConfigManager; any other dependency
    gets a DEPENDENCY ERROR that names it and the declaring module. *)
Theorem dependency_issue_iff
    (modules : list Manifest.t) (v : ManifestValidator.t)
    (m : Manifest.t) (dep : string) :
  In m modules ->
  In dep (ManifestValidator.declared_dependencies m) ->
  let out := snd (snd (ManifestValidator.validate_all modules v)) in
  let known :=
    In dep (map Notions.module_name modules)
    \/ In dep ["ESPhal"; "SharedState"; "EventBus"; "ConfigManager"] in
  ((forall i, In i out -> ValidationIssue.category i = "DEPENDENCY" ->
              ValidationIssue.target i <> dep) <-> known)
  /\ (~ known ->
      In (ValidationIssue.mk "ERROR" "DEPENDENCY"
            ("Module depends on non-existent module '" ++ dep ++ "'")
            (Notions.module_name m) dep) out).
Proof.
  intros Hm Hdep out known.
  assert (Hissue : ~ known ->
    In (ValidationIssue.mk "ERROR" "DEPENDENCY"
          ("Module depends on non-existent module '" ++ dep ++ "'")
          (Notions.module_name m) dep) out).
  { intros Hk. apply unknown_dependency_issue; try assumption;
      intros H; apply Hk; [now left|now right]. }
  split; [split|exact Hissue].
  - intros Hnone.
    destruct (in_dec string_dec dep (map Notions.module_name modules)) as [H|H1];
      [now left|].
    destruct (in_dec string_dec dep
                ["ESPhal"; "SharedState"; "EventBus"; "ConfigManager"])
      as [H|H2]; [now right|].
    exfalso. assert (Hk : ~ known) by (intros [H|H]; contradiction).
    exact (Hnone _ (Hissue Hk) eq_refl eq_refl).
  - intros Hk i Hi Hcat Htarget.
    destruct (dependency_issue_target modules v i Hi Hcat) as [H1 H2].
    rewrite Htarget in H1, H2. destruct Hk; contradiction.
Qed.

(** ** The index under a change of visiting order *)

Section OrderFacts.
Import Notions.

Lemma Permutation_filter' {A} (p : A -> bool) l1 l2 :
  Permutation l1 l2 -> Permutation (filter p l1) (filter p l2).
Proof.
  induction 1 as [|x l1 l2 _ IH|x y l|l1 l2 l3 _ IH1 _ IH2]; cbn [filter].
  - apply perm_nil.
  - destruct (p x); [now apply perm_skip|exact IH].
  - destruct (p x), (p y); try apply Permutation_refl. apply perm_swap.
  - now apply perm_trans with (filter p l2).
Qed.

Lemma Permutation_flat_map' {A B} (f : A -> list B) l1 l2 :
  Permutation l1 l2 -> Permutation (flat_map f l1) (flat_map f l2).
Proof.
  induction 1 as [|x l1 l2 _ IH|x y l|l1 l2 l3 _ IH1 _ IH2]; cbn [flat_map].
  - apply perm_nil.
  - now apply Permutation_app_head.
  - rewrite !app_assoc. apply Permutation_app_tail, Permutation_app_comm.
  - now apply perm_trans with (flat_map f l2).
Qed.

Lemma entries_perm sel ms1 ms2 :
  Permutation ms1 ms2 -> Permutation (entries sel ms1) (entries sel ms2).
Proof. apply Permutation_flat_map'. Qed.

Lemma names_for_perm k es1 es2 :
  Permutation es1 es2 -> Permutation (names_for k es1) (names_for k es2).
Proof.
  intros H. unfold names_for. now apply Permutation_map, Permutation_filter'.
Qed.

Lemma get_default_fill_init k es :
  PyDict.get_default k [] (fill [] es) = names_for k es.
Proof.
  unfold PyDict.get_default. rewrite get_fill_init.
  now destruct (names_for k es).
Qed.

Lemma fill_perm es1 es2 :
  Permutation es1 es2 -> same_up_to_order (fill [] es1) (fill [] es2).
Proof.
  intros H. split.
  - apply NoDup_Permutation; try (apply NoDup_keys_fill; constructor).
    intros k. rewrite !in_keys_fill.
    split; (intros [[]|Hk]; right; eapply Permutation_in; [|exact Hk]);
      [|apply Permutation_sym]; now apply Permutation_map.
  - intros k. rewrite !get_default_fill_init. now apply names_for_perm.
Qed.

Lemma get_assign k es : forall t : dict string,
  PyDict.get k (assign t es)
  = match rev (names_for k es) with
    | [] => PyDict.get k t
    | n :: _ => Some n
    end.
Proof.
  unfold assign, names_for.
  induction es as [|[k' n] es IH]; intros t; [reflexivity|].
  cbn [fold_left filter fst snd]. rewrite IH.
  destruct (String.eqb_spec k' k) as [->|Hne]; cbn [map snd rev].
  - rewrite get_set_same. now destruct (rev _).
  - now rewrite get_set_other by exact Hne.
Qed.

Lemma in_keys_assign k es : forall t : dict string,
  In k (PyDict.keys (assign t es))
  <-> In k (PyDict.keys t) \/ In k (map fst es).
Proof.
  unfold assign. induction es as [|[k' n] es IH]; intros t; simpl.
  - tauto.
  - rewrite IH, in_keys_set. intuition congruence.
Qed.

Lemma NoDup_keys_assign es : forall t : dict string,
  NoDup (PyDict.keys t) -> NoDup (PyDict.keys (assign t es)).
Proof.
  unfold assign. induction es as [|[k' n] es IH]; intros t Hnd; simpl.
  - exact Hnd.
  - apply IH. now apply NoDup_keys_set.
Qed.

Lemma in_names_for sel key n modules :
  In n (names_for key (entries sel modules))
  <-> exists m, In m modules /\ In key (sel m) /\ n = module_name m.
Proof.
  unfold names_for, entries. rewrite in_map_iff. split.
  - intros ([k n'] & Hn & Hin). simpl in Hn. subst n'.
    apply filter_In in Hin. destruct Hin as [Hin Hk].
    apply String.eqb_eq in Hk. simpl in Hk. subst k.
    apply in_flat_map in Hin. destruct Hin as (m & Hm & Hin).
    apply in_map_iff in Hin. destruct Hin as (k' & Heq & Hk').
    injection Heq as -> <-. eauto.
  - intros (m & Hm & Hk & ->). exists (key, module_name m).
    split; [reflexivity|]. apply filter_In. split.
    + apply in_flat_map. exists m. split; [exact Hm|].
      apply in_map_iff. eauto.
    + apply String.eqb_refl.
Qed.

(** A list whose elements all equal [x] starts with [x] or is empty. *)
Lemma all_same_head {A} (x : A) l :
  (forall y, In y l -> y = x) ->
  match l with [] => True | y :: _ => y = x end.
Proof. destruct l as [|y l]; [trivial|]. intros H. apply H. now left. Qed.

Lemma assign_single_owner method owner es1 es2 :
  Permutation es1 es2 ->
  (forall n, In n (names_for method es1) -> n = owner) ->
  PyDict.get method (assign [] es1) = PyDict.get method (assign [] es2).
Proof.
  intros Hp Hown. rewrite !get_assign.
  pose proof (names_for_perm method _ _ Hp) as Hn.
  assert (H1 : forall y, In y (rev (names_for method es1)) -> y = owner).
  { intros y Hy. apply Hown. now apply in_rev. }
  assert (H2 : forall y, In y (rev (names_for method es2)) -> y = owner).
  { intros y Hy. apply Hown. apply in_rev in Hy.
    eapply Permutation_in; [apply Permutation_sym, Hn|exact Hy]. }
  apply all_same_head in H1, H2.
  assert (Hlen : List.length (rev (names_for method es1))
                 = List.length (rev (names_for method es2))).
  { rewrite !length_rev. now apply Permutation_length. }
  destruct (rev (names_for method es1)), (rev (names_for method es2));
    try discriminate; [reflexivity|congruence].
Qed.
End OrderFacts.

(** C8, amended. Folding the same module records in two orders yields
    publisher and subscriber tables with the same keys and, under each
    key, the same modules, both up to order; the API table has the same
    methods, and the same owner for every method that modules of one name
    only register. *)
Theorem index_up_to_order (ms1 ms2 : list Manifest.t) :
  Permutation ms1 ms2 ->
  let v1 := ManifestValidator.collect_all ms1 ManifestValidator.init in
  let v2 := ManifestValidator.collect_all ms2 ManifestValidator.init in
  Notions.same_up_to_order (ManifestValidator.event_publishers v1)
                        (ManifestValidator.event_publishers v2)
  /\ Notions.same_up_to_order (ManifestValidator.event_subscribers v1)
                           (ManifestValidator.event_subscribers v2)
  /\ Notions.same_up_to_order (ManifestValidator.state_publishers v1)
                           (ManifestValidator.state_publishers v2)
  /\ Notions.same_up_to_order (ManifestValidator.state_subscribers v1)
                           (ManifestValidator.state_subscribers v2)
  /\ Permutation (PyDict.keys (ManifestValidator.api_providers v1))
                 (PyDict.keys (ManifestValidator.api_providers v2))
  /\ (forall method owner,
        (forall m, In m ms1 ->
                   In method (ManifestValidator.api_methods (Manifest.apis m)) ->
                   Notions.module_name m = owner) ->
        PyDict.get method (ManifestValidator.api_providers v1)
        = PyDict.get method (ManifestValidator.api_providers v2)).
Proof.
  intros Hp v1 v2.
  pose proof (init_tables ms1) as H1. pose proof (init_tables ms2) as H2.
  unfold Notions.tables in H1, H2. fold v1 in H1. fold v2 in H2.
  injection H1 as -> -> -> -> ->. injection H2 as -> -> -> -> ->.
  repeat split; try (apply fill_perm, entries_perm, Hp).
  - apply NoDup_Permutation; try (apply NoDup_keys_assign; constructor).
    intros k. rewrite !in_keys_assign. unfold Notions.api_entries.
    split; (intros [[]|Hk]; right; eapply Permutation_in; [|exact Hk]);
      [|apply Permutation_sym]; apply Permutation_map, entries_perm, Hp.
  - intros method owner Hown.
    apply (assign_single_owner method owner).
    + apply entries_perm, Hp.
    + intros n Hn. apply in_names_for in Hn.
      destruct Hn as (m & Hm & Hk & ->). now apply Hown.
Qed.

(** ** Duplicate API registrations *)

Section ApiFacts.
Import Notions.

Lemma entries_app sel ms1 ms2 :
  entries sel (ms1 ++ ms2) = entries sel ms1 ++ entries sel ms2.
Proof. unfold entries. apply flat_map_app. Qed.

Lemma names_for_app k es1 es2 :
  names_for k (es1 ++ es2) = names_for k es1 ++ names_for k es2.
Proof. unfold names_for. now rewrite filter_app, map_app. Qed.

(** The modules after the last one that registers [method] do not
    change its owner. *)
Lemma last_registration_owns method pre m post v :
  In method (ManifestValidator.api_methods (Manifest.apis m)) ->
  (forall m', In m' post ->
     ~ In method (ManifestValidator.api_methods (Manifest.apis m'))) ->
  PyDict.get method
    (ManifestValidator.api_providers
       (ManifestValidator.collect_all (pre ++ m :: post) v))
  = Some (module_name m).
Proof.
  intros Hm Hpost.
  pose proof (collect_all_tables (pre ++ m :: post) v) as Ht.
  unfold tables in Ht. injection Ht as _ _ _ _ ->.
  rewrite get_assign. unfold api_entries.
  set (sel := fun m0 => ManifestValidator.api_methods (Manifest.apis m0)).
  change (pre ++ m :: post) with (pre ++ [m] ++ post).
  rewrite !entries_app, !names_for_app.
  assert (Hnil : names_for method (entries sel post) = []).
  { apply names_for_nil. rewrite in_entries. intros (m' & Hin & Hk).
    exact (Hpost m' Hin Hk). }
  rewrite Hnil, app_nil_r, rev_app_distr.
  assert (Hsame : forall y, In y (rev (names_for method (entries sel [m]))) ->
                            y = module_name m).
  { intros y Hy. apply in_rev, in_names_for in Hy.
    destruct Hy as (m0 & [<-|[]] & _ & ->). reflexivity. }
  apply all_same_head in Hsame.
  destruct (rev (names_for method (entries sel [m]))) as [|y l] eqn:Hrev.
  - exfalso. apply (f_equal (@rev string)) in Hrev.
    rewrite rev_involutive in Hrev. cbn [rev] in Hrev.
    apply names_for_nil in Hrev. apply Hrev, in_entries.
    exists m. split; [now left|exact Hm].
  - cbn [app]. now rewrite Hsame.
Qed.

Lemma entries_without_apis sel modules :
  (forall m, sel (without_apis m) = sel m) ->
  entries sel (map without_apis modules) = entries sel modules.
Proof.
  intros Hsel. unfold entries.
  induction modules as [|m ms IH]; [reflexivity|].
  cbn [map flat_map]. now rewrite IH, Hsel.
Qed.

Lemma dependency_issues_without_apis modules :
  ManifestValidator.dependency_issues (map without_apis modules)
  = ManifestValidator.dependency_issues modules.
Proof.
  unfold ManifestValidator.dependency_issues. rewrite map_map.
  cbn [without_apis Manifest.module].
  generalize (map (fun m => ModuleSection.name (Manifest.module m)) modules).
  intros names. induction modules as [|m ms IH]; [reflexivity|].
  cbn [map flat_map]. now rewrite IH.
Qed.

(** The issues found do not depend on the ['apis'] of the manifests. *)
Lemma discovered_without_apis modules v :
  ManifestValidator.discovered (map without_apis modules) v
  = ManifestValidator.discovered modules v.
Proof.
  rewrite !discovered_eq. cbv zeta.
  rewrite dependency_issues_without_apis.
  unfold ManifestValidator.event_issues, ManifestValidator.shared_state_issues.
  pose proof (collect_all_tables (map without_apis modules)
                (ManifestValidator.with_issues [] v)) as H1.
  pose proof (collect_all_tables modules
                (ManifestValidator.with_issues [] v)) as H2.
  unfold tables in H1, H2.
  injection H1 as -> -> -> -> _. injection H2 as -> -> -> -> _.
  now rewrite !entries_without_apis by reflexivity.
Qed.
End ApiFacts.

(** C7, amended. When several modules register an API method of the same
    name, [api_providers] keeps the module that registered it last, and
    nothing is reported: the verdict and the issues of [validate_all] are
    those of the same manifests without their APIs. *)
Theorem duplicate_api_last_writer
    (pre post : list Manifest.t) (m : Manifest.t) (method : string)
    (v : ManifestValidator.t) :
  In method (ManifestValidator.api_methods (Manifest.apis m)) ->
  (forall m', In m' post ->
     ~ In method (ManifestValidator.api_methods (Manifest.apis m'))) ->
  let modules := pre ++ m :: post in
  PyDict.get method
    (ManifestValidator.api_providers
       (ManifestValidator.collect_all modules v))
  = Some (Notions.module_name m)
  /\ snd (ManifestValidator.validate_all modules v)
     = snd (ManifestValidator.validate_all
              (map Notions.without_apis modules) v).
Proof.
  intros Hm Hpost modules. split.
  - now apply last_registration_owns.
  - rewrite !validate_all_eq. now rewrite discovered_without_apis.
Qed.

(** ** Identifiers of the generated constants *)

Section ConstantFacts.
Lemma append_cancel_l p a b : (p ++ a)%string = (p ++ b)%string -> a = b.
Proof.
  induction p as [|c p IH]; simpl; [trivial|].
  intros H. injection H as H. exact (IH H).
Qed.

Lemma length_append a b :
  String.length (a ++ b) = String.length a + String.length b.
Proof. induction a as [|c a IH]; simpl; [reflexivity|now rewrite IH]. Qed.

Lemma append_cancel_r s : forall a b,
  (a ++ s)%string = (b ++ s)%string -> a = b.
Proof.
  induction a as [|c a IH]; intros [|d b] H; simpl in H.
  - reflexivity.
  - apply (f_equal String.length) in H. simpl in H.
    rewrite length_append in H. lia.
  - apply (f_equal String.length) in H. simpl in H.
    rewrite length_append in H. lia.
  - injection H as -> H. f_equal. exact (IH b H).
Qed.

(** Two keys with one identifier still give two different lines. *)
Lemma constant_line_inj k1 k2 :
  ManifestProcessor.const_name k1 = ManifestProcessor.const_name k2 ->
  ManifestProcessor.constant_line k1 = ManifestProcessor.constant_line k2 ->
  k1 = k2.
Proof.
  unfold ManifestProcessor.constant_line. intros -> H.
  do 4 apply append_cancel_l in H.
  now apply append_cancel_r in H.
Qed.
End ConstantFacts.

(** C6, amended. Two distinct event keys that the transform maps to one
    identifier are not flagged: every issue the validator files is an
    instance of one of its seven rules on events, states and dependencies,
    and [generate_event_registry] writes one constant per key, so both
    keys are emitted, on two lines that declare the same identifier. *)
Theorem colliding_keys_both_emitted
    (timestamp : string) (all_events : dict (list string))
    (modules : list ModuleInfo.t) (k1 k2 : string) :
  In k1 (PyDict.keys all_events) ->
  In k2 (PyDict.keys all_events) ->
  k1 <> k2 ->
  ManifestProcessor.const_name k1 = ManifestProcessor.const_name k2 ->
  let code :=
    ManifestProcessor.event_registry_code timestamp all_events modules in
  In (ManifestProcessor.constant_line k1) code
  /\ In (ManifestProcessor.constant_line k2) code
  /\ ManifestProcessor.constant_line k1 <> ManifestProcessor.constant_line k2
  /\ (forall ms v i,
        In i (snd (snd (ManifestValidator.validate_all ms v))) ->
        Notions.follows_a_rule i).
Proof.
  intros H1 H2 Hne Hname code.
  assert (Hin : forall k, In k (PyDict.keys all_events) ->
                          In (ManifestProcessor.constant_line k) code).
  { intros k Hk. unfold code, ManifestProcessor.event_registry_code.
    rewrite !in_app_iff. right. right. left.
    apply in_map. eapply Permutation_in; [apply sorted_perm|exact Hk]. }
  repeat split.
  - now apply Hin.
  - now apply Hin.
  - intros Heq. apply Hne. now apply constant_line_inj.
  - intros ms v i Hi. apply in_validate_all in Hi.
    now apply discovered_follow in Hi.
Qed.

(** ** The methods of the processor *)

Section ProcessorFacts.
Import ManifestProcessor Notions.
Variable validate_module : ModuleManifest.t -> dict json -> validation_outcome.
Variable validate_driver : DriverManifest.t -> dict json -> validation_outcome.

Lemma same_setting_refl s : same_setting s s.
Proof. unfold same_setting. cbv zeta. conjs; reflexivity. Qed.

Lemma same_setting_trans s1 s2 s3 :
  same_setting s1 s2 -> same_setting s2 s3 -> same_setting s1 s3.
Proof.
  unfold same_setting. cbv zeta.
  intros (A1 & A2 & A3 & A4 & A5 & A6 & A7) (B1 & B2 & B3 & B4 & B5 & B6 & B7).
  conjs; congruence.
Qed.

Lemma same_setting_logged level msg s : same_setting s (logged level msg s).
Proof. unfold same_setting. cbv zeta. conjs; reflexivity. Qed.

Lemma bind_ret {A B} (a : A) (k : A -> M B) s : bind (ret a) k s = k a s.
Proof. reflexivity. Qed.

Lemma bind_get_self {B} (k : t -> M B) s :
  bind get_self k s = k (St.self s) s.
Proof. reflexivity. Qed.

Lemma bind_raise {A B} e (k : A -> M B) s :
  bind (raise e) k s = (s, Raise e).
Proof. reflexivity. Qed.

Lemma bind_logger {B} level msg (k : unit -> M B) s :
  bind (logger level msg) k s = k tt (logged level msg s).
Proof. reflexivity. Qed.

Lemma bind_run_ok {A B} (c : M A) (k : A -> M B) s s' a :
  c s = (s', Ok a) -> bind c k s = k a s'.
Proof. unfold bind. now intros ->. Qed.

Lemma bind_run_raise {A B} (c : M A) (k : A -> M B) s s' e :
  c s = (s', Raise e) -> bind c k s = (s', Raise e).
Proof. unfold bind. now intros ->. Qed.

(** [_module_to_dict] stores no ['shared_state'] key, so the registry
    collects no state. *)
Lemma collect_all_states_nil modules : collect_all_states modules = [].
Proof.
  unfold collect_all_states.
  induction modules as [|m ms IH]; [reflexivity|exact IH].
Qed.

(** A manifest that fails the schema check is dropped before anything
    is extracted: the processor is untouched, the world has one more
    log line. *)
Lemma parse_module_manifest_rejected path manifest s msg :
  module_schema (St.self s) <> [] ->
  validate_module manifest (module_schema (St.self s))
  = RaisesValidationError msg ->
  parse_module_manifest validate_module path (Some manifest) s
  = (logged "ERROR"
       ("Schema validation failed for " ++ path ++ ": " ++ msg) s,
     Ok None).
Proof.
  intros Hschema Hfail.
  unfold parse_module_manifest. cbn [load].
  rewrite bind_ret, bind_get_self. unfold check_schema.
  destruct (module_schema (St.self s)) as [|e schema]; [contradiction|].
  rewrite Hfail. reflexivity.
Qed.

(** A faulty ['ui'] section raises an exception that [except Exception]
    catches. *)
Lemma static_pages_exception ui_data e :
  static_pages ui_data = Raise e -> is_Exception e = true.
Proof.
  unfold static_pages.
  destruct (PyDict.contains "static" ui_data); [|discriminate].
  cbv zeta.
  destruct (PyDict.get_default "static" JNull ui_data) as [|b|z|str|l|d];
    cbn [json_contains json_item type_name].
  - intros [= <-]. reflexivity.
  - intros [= <-]. reflexivity.
  - intros [= <-]. reflexivity.
  - destruct (PyStr.is_substring "pages" str); [|discriminate].
    intros [= <-]. reflexivity.
  - destruct (existsb _ l); [|discriminate]. intros [= <-]. reflexivity.
  - destruct (PyDict.contains "pages" d); [|discriminate].
    destruct (PyDict.get "pages" d); [discriminate|].
    intros [= <-]. reflexivity.
Qed.

(** What extraction does to the processor: it returns a module exactly
    when the ['ui'] section is sound, and fills [all_events] only then. *)
Lemma extract_module_run path manifest s :
  exists s' r,
    extract_module path manifest s = (s', r)
    /\ same_setting s s'
    /\ manifest_files (St.self s') = manifest_files (St.self s)
    /\ modules (St.self s') = modules (St.self s)
    /\ all_events (St.self s')
       = fill (all_events (St.self s))
              (if ui_sound manifest then manifest_events manifest else [])
    /\ match r with
       | Ok _ => ui_sound manifest = true
       | Raise e => ui_sound manifest = false /\ is_Exception e = true
       end.
Proof.
  unfold extract_module, ui_sound.
  destruct (ModuleManifest.ui manifest) as [ui_data|];
    [destruct (static_pages ui_data) as [[pages|]|e] eqn:Hsp|];
    unfold bind, modify_self, ret, lift, same_setting;
    cbn [St.self St.world];
    (eexists; eexists; split; [reflexivity|]);
    cbn; conjs; try reflexivity;
    try (eapply static_pages_exception; exact Hsp);
    unfold manifest_events, or_default;
    destruct (ModuleManifest.event_bus manifest) as [eb|];
    try reflexivity;
    rewrite <- fill_keys_of; unfold keys_of;
    destruct (ModuleManifest.module manifest) as [d|];
    try destruct (ModuleData.name d);
    destruct (PubSub.publishes eb); reflexivity.
Qed.

(** What [parse_module_manifest] does to the processor, whichever way
    it ends; it returns a module exactly for a file that parses, and
    raises nothing that [except Exception] lets through. *)
Lemma parse_module_manifest_run path file s :
  exists s' r,
    parse_module_manifest validate_module path file s = (s', r)
    /\ same_setting s s'
    /\ manifest_files (St.self s') = manifest_files (St.self s)
    /\ modules (St.self s') = modules (St.self s)
    /\ all_events (St.self s')
       = fill (all_events (St.self s))
              (file_events validate_module (module_schema (St.self s))
                           (path, file))
    /\ match r with
       | Ok (Some _) =>
           is_parsed validate_module (module_schema (St.self s))
                     (path, file) = true
       | Ok None =>
           is_parsed validate_module (module_schema (St.self s))
                     (path, file) = false
       | Raise e =>
           is_parsed validate_module (module_schema (St.self s))
                     (path, file) = false
           /\ is_Exception e = true
       end.
Proof.
  unfold is_parsed, file_events, parsed, accepted. cbn [snd].
  destruct file as [manifest|].
  2:{ eexists. eexists. split; [reflexivity|].
      conjs; try reflexivity. apply same_setting_refl. }
  unfold parse_module_manifest. cbn [load].
  rewrite bind_ret, bind_get_self. unfold check_schema.
  destruct (extract_module_run path manifest s)
    as (s' & r & Heq & H1 & H2 & H3 & H4 & Hr).
  assert (Hpass :
    exists r',
      (module <- extract_module path manifest ;; ret (Some module))%py s
      = (s', r')
      /\ all_events (St.self s')
         = fill (all_events (St.self s))
             match (if ui_sound manifest then Some manifest else None) with
             | Some manifest => manifest_events manifest
             | None => []
             end
      /\ match r' with
         | Ok (Some _) =>
             match (if ui_sound manifest then Some manifest else None) with
             | Some _ => true
             | None => false
             end = true
         | Ok None =>
             match (if ui_sound manifest then Some manifest else None) with
             | Some _ => true
             | None => false
             end = false
         | Raise e =>
             match (if ui_sound manifest then Some manifest else None) with
             | Some _ => true
             | None => false
             end = false
             /\ is_Exception e = true
         end).
  { destruct r as [info|e].
    - rewrite (bind_run_ok _ _ _ _ _ Heq). rewrite Hr in *.
      eexists. split; [reflexivity|]. split; [exact H4|reflexivity].
    - destruct Hr as [Hr He]. rewrite (bind_run_raise _ _ _ _ _ Heq).
      rewrite Hr in *. eexists. split; [reflexivity|].
      split; [exact H4|]. split; [reflexivity|exact He]. }
  destruct Hpass as (r' & Hrun & Hev & Hr').
  destruct (module_schema (St.self s)) as [|e0 schema] eqn:Hs;
    [|destruct (validate_module manifest (e0 :: schema))].
  - rewrite bind_ret. cbn [negb]. rewrite Hrun.
    eexists. eexists. split; [reflexivity|].
    conjs; assumption.
  - rewrite bind_ret. cbn [negb]. rewrite Hrun.
    eexists. eexists. split; [reflexivity|].
    conjs; assumption.
  - eexists. eexists. split; [reflexivity|].
    conjs; try reflexivity. apply same_setting_logged.
  - rewrite bind_raise. eexists. eexists. split; [reflexivity|].
    conjs; try reflexivity. apply same_setting_refl.
Qed.

(** One turn of the module loop never raises; a file that parses adds one
    module and its events, any other file adds nothing. *)
Lemma try_parse_module_run entry s :
  exists s',
    try_parse_module validate_module entry s = (s', Ok tt)
    /\ same_setting s s'
    /\ manifest_files (St.self s') = manifest_files (St.self s)
    /\ all_events (St.self s')
       = fill (all_events (St.self s))
              (file_events validate_module (module_schema (St.self s)) entry)
    /\ List.length (modules (St.self s'))
       = (List.length (modules (St.self s))
          + if is_parsed validate_module (module_schema (St.self s)) entry
            then 1 else 0)%nat.
Proof.
  destruct entry as [path file].
  unfold try_parse_module, try_except. rewrite bind_logger.
  set (s1 := logged "INFO" ("Parsing module manifest: " ++ path) s).
  destruct (parse_module_manifest_run path file s1)
    as (s2 & r & Heq & H1 & H2 & H3 & H4 & Hr).
  assert (H0 : same_setting s s2).
  { eapply same_setting_trans; [apply same_setting_logged|exact H1]. }
  change (module_schema (St.self s1)) with (module_schema (St.self s)) in Hr.
  change (modules (St.self s1)) with (modules (St.self s)) in H3.
  destruct r as [[info|]|e].
  - rewrite (bind_run_ok _ _ _ _ _ Heq).
    eexists. split; [reflexivity|]. conjs; try assumption.
    cbn. rewrite Hr, H3, length_app. reflexivity.
  - rewrite (bind_run_ok _ _ _ _ _ Heq).
    eexists. split; [reflexivity|]. conjs; try assumption.
    rewrite Hr, H3. lia.
  - destruct Hr as [Hr Hexc].
    rewrite (bind_run_raise _ _ _ _ _ Heq), Hexc.
    eexists. split; [reflexivity|]. conjs; try assumption.
    cbn. rewrite Hr, H3. lia.
Qed.

Lemma module_loop_run files : forall s,
  exists s',
    for_each files (try_parse_module validate_module) s = (s', Ok tt)
    /\ same_setting s s'
    /\ manifest_files (St.self s') = manifest_files (St.self s)
    /\ all_events (St.self s')
       = fill (all_events (St.self s))
              (flat_map
                 (file_events validate_module (module_schema (St.self s)))
                 files)
    /\ List.length (modules (St.self s'))
       = (List.length (modules (St.self s))
          + List.length
              (filter (is_parsed validate_module
                         (module_schema (St.self s))) files))%nat.
Proof.
  induction files as [|entry files IH]; intros s.
  - exists s. cbn. conjs; try reflexivity; [apply same_setting_refl|lia].
  - destruct (try_parse_module_run entry s)
      as (s1 & Heq & H1 & H2 & H3 & H4).
    destruct (IH s1) as (s2 & Heq' & H1' & H2' & H3' & H4').
    exists s2. cbn [for_each flat_map filter].
    rewrite (bind_run_ok _ _ _ _ _ Heq), Heq'.
    assert (Hschema : module_schema (St.self s1) = module_schema (St.self s))
      by (destruct H1 as (_ & _ & -> & _); reflexivity).
    rewrite Hschema in H3', H4'.
    conjs; try reflexivity.
    + eapply same_setting_trans; eassumption.
    + congruence.
    + now rewrite H3', H3, fill_app.
    + rewrite H4', H4.
      destruct (is_parsed validate_module (module_schema (St.self s)) entry);
        cbn [List.length]; lia.
Qed.

Lemma try_parse_driver_run entry s :
  exists s',
    try_parse_driver validate_driver entry s = (s', Ok tt)
    /\ same_setting s s'
    /\ all_events (St.self s') = all_events (St.self s)
    /\ modules (St.self s') = modules (St.self s).
Proof.
  destruct entry as [path [manifest|]].
  2:{ eexists. split; [reflexivity|]. conjs; try reflexivity.
      unfold same_setting. cbn. auto 10. }
  unfold try_parse_driver, try_except, parse_driver_manifest.
  rewrite bind_logger. cbn [load]. unfold check_schema.
  set (s1 := logged "INFO" ("Parsing driver manifest: " ++ path) s).
  unfold bind, ret, get_self, raise, same_setting.
  change (driver_schema (St.self s1)) with (driver_schema (St.self s)).
  destruct (driver_schema (St.self s)) as [|e schema] eqn:Hs;
    [|destruct (validate_driver manifest (e :: schema))];
    (eexists; split; [reflexivity|]); cbn; rewrite ?Hs; auto 10.
Qed.

Lemma driver_loop_run files : forall s,
  exists s',
    for_each files (try_parse_driver validate_driver) s = (s', Ok tt)
    /\ same_setting s s'
    /\ all_events (St.self s') = all_events (St.self s)
    /\ modules (St.self s') = modules (St.self s).
Proof.
  induction files as [|entry files IH]; intros s.
  - exists s. cbn. conjs; try reflexivity. apply same_setting_refl.
  - destruct (try_parse_driver_run entry s) as (s1 & Heq & H1 & H2 & H3).
    destruct (IH s1) as (s2 & Heq' & H1' & H2' & H3').
    exists s2. cbn [for_each].
    rewrite (bind_run_ok _ _ _ _ _ Heq), Heq'.
    conjs; try reflexivity; try congruence.
    eapply same_setting_trans; eassumption.
Qed.

(** [parse_manifests] never raises; it appends one module per parsed
    module manifest and fills [all_events] with their events. *)
Lemma parse_manifests_run s :
  exists s',
    parse_manifests validate_module validate_driver s = (s', Ok tt)
    /\ same_setting s s'
    /\ all_events (St.self s')
       = fill (all_events (St.self s))
              (flat_map
                 (file_events validate_module (module_schema (St.self s)))
                 (Tree.module_manifests (manifest_files (St.self s))))
    /\ List.length (modules (St.self s'))
       = (List.length (modules (St.self s))
          + List.length
              (filter (is_parsed validate_module
                         (module_schema (St.self s)))
                      (Tree.module_manifests (manifest_files (St.self s)))))%nat.
Proof.
  unfold parse_manifests. rewrite bind_get_self.
  destruct (module_loop_run
              (Tree.module_manifests (manifest_files (St.self s))) s)
    as (s1 & Heq & H0 & _ & H1 & Hn).
  destruct (driver_loop_run
              (Tree.driver_manifests (manifest_files (St.self s))) s1)
    as (s2 & Heq' & H0' & H2 & H3).
  exists s2. rewrite (bind_run_ok _ _ _ _ _ Heq), Heq'.
  conjs; try reflexivity.
  - eapply same_setting_trans; eassumption.
  - congruence.
  - congruence.
Qed.
End ProcessorFacts.

Section PipelineFacts.
Import ManifestProcessor Notions.
Variable validate_module : ModuleManifest.t -> dict json -> validation_outcome.
Variable validate_driver : DriverManifest.t -> dict json -> validation_outcome.

(** The attribute read of the consistency step fails on the first
    module, right after the step has logged its start. *)
Lemma validate_manifest_consistency_raises s :
  modules (St.self s) <> [] ->
  validate_manifest_consistency s
  = (logged "INFO" "Validating manifest consistency..." s,
     Raise (AttributeError
              "'ModuleInfo' object has no attribute 'shared_state'")).
Proof.
  intros Hne. unfold validate_manifest_consistency.
  rewrite bind_logger, bind_get_self.
  change (modules (St.self (logged "INFO"
            "Validating manifest consistency..." s)))
    with (modules (St.self s)).
  destruct (modules (St.self s)) as [|m ms]; [contradiction|].
  reflexivity.
Qed.

(** The first two steps of [process_all] end without raising. *)
Lemma parsing_ends tree s :
  (logger "INFO" "Starting manifest processing..." ;;
   discover_manifests tree ;;
   parse_manifests validate_module validate_driver)%py s
  = (after_parsing validate_module validate_driver tree s, Ok tt).
Proof.
  unfold after_parsing.
  destruct (parse_manifests_run validate_module validate_driver
              (fst ((logger "INFO" "Starting manifest processing..." ;;
                     discover_manifests tree)%py s)))
    as (s1 & Heq & _).
  change ((logger "INFO" "Starting manifest processing..." ;;
           discover_manifests tree ;;
           parse_manifests validate_module validate_driver)%py s)
    with (parse_manifests validate_module validate_driver
            (fst ((logger "INFO" "Starting manifest processing..." ;;
                   discover_manifests tree)%py s))).
  now rewrite Heq.
Qed.

(** Parsing leaves the files of the world alone and appends one module
    per module manifest of the tree that parses. *)
Lemma after_parsing_run tree s :
  same_setting s (after_parsing validate_module validate_driver tree s)
  /\ List.length
       (modules (St.self
                   (after_parsing validate_module validate_driver tree s)))
     = (List.length (modules (St.self s))
        + List.length
            (filter (is_parsed validate_module (module_schema (St.self s)))
                    (Tree.module_manifests tree)))%nat.
Proof.
  unfold after_parsing.
  destruct (parse_manifests_run validate_module validate_driver
              (fst ((logger "INFO" "Starting manifest processing..." ;;
                     discover_manifests tree)%py s)))
    as (s1 & Heq & Hset & _ & Hn).
  change ((logger "INFO" "Starting manifest processing..." ;;
           discover_manifests tree ;;
           parse_manifests validate_module validate_driver)%py s)
    with (parse_manifests validate_module validate_driver
            (fst ((logger "INFO" "Starting manifest processing..." ;;
                   discover_manifests tree)%py s))).
  rewrite Heq. cbn [fst]. split.
  - eapply same_setting_trans; [|exact Hset].
    unfold same_setting. cbv zeta. conjs; reflexivity.
  - exact Hn.
Qed.

Lemma process_all_after_parsing tree s :
  process_all validate_module validate_driver tree s
  = (valid <- validate_manifest_consistency ;;
     (if negb valid
      then logger "ERROR"
             "Manifest validation failed! Fix errors before proceeding." ;;
           raise (SystemExit 1)
      else ret tt) ;;
     resolve_dependencies ;;
     generate_code ;;
     logger "INFO" "Manifest processing complete!")%py
      (after_parsing validate_module validate_driver tree s).
Proof.
  pose proof (parsing_ends tree s) as H.
  change ((logger "INFO" "Starting manifest processing..." ;;
           discover_manifests tree ;;
           parse_manifests validate_module validate_driver)%py s)
    with (parse_manifests validate_module validate_driver
            (fst ((logger "INFO" "Starting manifest processing..." ;;
                   discover_manifests tree)%py s))) in H.
  change (process_all validate_module validate_driver tree s)
    with ((parse_manifests validate_module validate_driver ;;
           valid <- validate_manifest_consistency ;;
           (if negb valid
            then logger "ERROR"
                   "Manifest validation failed! Fix errors before proceeding." ;;
                 raise (SystemExit 1)
            else ret tt) ;;
           resolve_dependencies ;;
           generate_code ;;
           logger "INFO" "Manifest processing complete!")%py
            (fst ((logger "INFO" "Starting manifest processing..." ;;
                   discover_manifests tree)%py s))).
  now rewrite (bind_run_ok _ _ _ _ _ H).
Qed.
End PipelineFacts.

(** C1. When at least one module manifest of the tree is parsed, that
    is loads, passes the schema check and is extracted without error,
    [self.modules] is not empty after parsing and the consistency step
    raises AttributeError on
    [module.shared_state], an attribute [ModuleInfo] does not have.
    Nothing catches it, so [process_all] ends there: in the state reached
    after parsing plus the one log line that announces the step, with no
    file written, no dependency resolved and no code generated. *)
Theorem consistency_step_aborts
    (validate_module : ModuleManifest.t -> dict json -> validation_outcome)
    (validate_driver : DriverManifest.t -> dict json -> validation_outcome)
    (tree : Tree.t) (s : ManifestProcessor.St.t) :
  (exists entry,
     In entry (Tree.module_manifests tree)
     /\ Notions.is_parsed validate_module
          (ManifestProcessor.module_schema (ManifestProcessor.St.self s))
          entry = true) ->
  let s1 := Notions.after_parsing validate_module validate_driver tree s in
  let run :=
    ManifestProcessor.process_all validate_module validate_driver tree s in
  ManifestProcessor.modules (ManifestProcessor.St.self s1) <> []
  /\ (forall module, PyDict.get "shared_state" (ModuleInfo.attributes module)
                     = None)
  /\ run
     = (Notions.logged "INFO" "Validating manifest consistency..." s1,
        Raise (AttributeError
                 "'ModuleInfo' object has no attribute 'shared_state'"))
  /\ World.files (ManifestProcessor.St.world (fst run))
     = World.files (ManifestProcessor.St.world s)
  /\ ManifestProcessor.exit_status (snd run) = 1%Z.
Proof.
  intros (entry & Hin & Hacc) s1 run.
  destruct (after_parsing_run validate_module validate_driver tree s)
    as [Hset Hlen].
  assert (Hne : ManifestProcessor.modules (ManifestProcessor.St.self s1) <> []).
  { intros Hnil. fold s1 in Hlen. rewrite Hnil in Hlen.
    assert (Hf : In entry
                   (filter (Notions.is_parsed validate_module
                              (ManifestProcessor.module_schema
                                 (ManifestProcessor.St.self s)))
                           (Tree.module_manifests tree)))
      by (apply filter_In; split; assumption).
    destruct (filter _ (Tree.module_manifests tree)); [contradiction|].
    cbn [List.length] in Hlen. lia. }
  assert (Hrun :
    run = (Notions.logged "INFO" "Validating manifest consistency..." s1,
           Raise (AttributeError
                    "'ModuleInfo' object has no attribute 'shared_state'"))).
  { unfold run. rewrite process_all_after_parsing. fold s1.
    now rewrite (bind_run_raise _ _ _ _ _
                   (validate_manifest_consistency_raises s1 Hne)). }
  conjs.
  - exact Hne.
  - reflexivity.
  - exact Hrun.
  - rewrite Hrun. destruct Hset as (_ & _ & _ & _ & Hfiles & _). exact Hfiles.
  - now rewrite Hrun.
Qed.

(** C10. A module manifest that fails the schema check, a schema being
    loaded, makes [parse_module_manifest] return None with the processor
    as it was: [modules], [all_apis], [all_ui_schemas] and [all_events]
    are unchanged, and so is the whole object; the loop of
    [parse_manifests] then appends nothing either. Only the log grows. *)
Theorem schema_failure_leaves_processor
    (validate_module : ModuleManifest.t -> dict json -> validation_outcome)
    (path : string) (manifest : ModuleManifest.t)
    (s : ManifestProcessor.St.t) (msg : string) :
  ManifestProcessor.module_schema (ManifestProcessor.St.self s) <> [] ->
  validate_module manifest
    (ManifestProcessor.module_schema (ManifestProcessor.St.self s))
  = RaisesValidationError msg ->
  let after :=
    ManifestProcessor.parse_module_manifest
      validate_module path (Some manifest) s in
  let turn :=
    ManifestProcessor.try_parse_module validate_module
      (path, Some manifest) s in
  snd after = Ok None
  /\ ManifestProcessor.St.self (fst after) = ManifestProcessor.St.self s
  /\ World.files (ManifestProcessor.St.world (fst after))
     = World.files (ManifestProcessor.St.world s)
  /\ snd turn = Ok tt
  /\ ManifestProcessor.St.self (fst turn) = ManifestProcessor.St.self s.
Proof.
  intros Hschema Hfail after turn.
  pose proof (parse_module_manifest_rejected validate_module path manifest
                s msg Hschema Hfail) as Hrun.
  assert (Hrun' :
    ManifestProcessor.parse_module_manifest validate_module path
      (Some manifest)
      (Notions.logged "INFO" ("Parsing module manifest: " ++ path) s)
    = (Notions.logged "ERROR"
         ("Schema validation failed for " ++ path ++ ": " ++ msg)
         (Notions.logged "INFO" ("Parsing module manifest: " ++ path) s),
       Ok None)).
  { apply parse_module_manifest_rejected; assumption. }
  unfold after, turn, ManifestProcessor.try_parse_module,
    ManifestProcessor.try_except.
  rewrite bind_logger, (bind_run_ok _ _ _ _ _ Hrun'), Hrun.
  conjs; reflexivity.
Qed.

Section RegistryFacts.
Import ManifestProcessor Notions.
Variable validate_module : ModuleManifest.t -> dict json -> validation_outcome.
Variable validate_driver : DriverManifest.t -> dict json -> validation_outcome.

(** The registry lists the sorted event keys; the states block is
    empty. *)
Lemma event_registry_code_eq timestamp all_events modules :
  event_registry_code timestamp all_events modules
  = provenance timestamp
    ++ ["// For detailed documentation see: components/system_contract/";
        "";
        "#pragma once";
        "";
        "namespace ModESP {";
        "";
        "namespace Events {";
        "    // Event name constants for compile-time checking"]
    ++ map constant_line (PyStr.sorted (PyDict.keys all_events))
    ++ ["} // namespace Events";
        "";
        "namespace States {";
        "    // SharedState key constants";
        "} // namespace States";
        "";
        "} // namespace ModESP"].
Proof.
  unfold event_registry_code. now rewrite collect_all_states_nil.
Qed.

End RegistryFacts.


(** ** The verdict and the gate *)

(** The verdict of [validate_all] is true exactly when the list it
    returns holds no ERROR. *)
Lemma validate_all_verdict (modules : list Manifest.t)
    (v : ManifestValidator.t) :
  fst (snd (ManifestValidator.validate_all modules v)) = true
  <-> forall i, In i (snd (snd (ManifestValidator.validate_all modules v))) ->
                ValidationIssue.severity i <> "ERROR".
Proof.
  rewrite validate_all_eq. cbv zeta. cbn [fst snd].
  set (out := sort_by_key _ _). rewrite negb_true_iff. split.
  - intros Hnone i Hi Herr.
    assert (Hex : existsb (fun issue =>
                    ValidationIssue.severity issue =? "ERROR") out = true).
    { apply existsb_exists. exists i. split; [exact Hi|].
      now apply String.eqb_eq. }
    congruence.
  - intros Hall.
    destruct (existsb _ out) eqn:Hex; [|reflexivity].
    apply existsb_exists in Hex. destruct Hex as (i & Hi & Herr).
    apply String.eqb_eq in Herr. exfalso. exact (Hall i Hi Herr).
Qed.

(** When the consistency step returns, [process_all] goes on to emission
    exactly on a true verdict. *)
Lemma gate_follows_verdict
    (validate_module : ModuleManifest.t -> dict json -> validation_outcome)
    (validate_driver : DriverManifest.t -> dict json -> validation_outcome)
    (tree : Tree.t) (s s' : ManifestProcessor.St.t) :
  ManifestProcessor.validate_manifest_consistency
    (Notions.after_parsing validate_module validate_driver tree s)
  = (s', Ok false) ->
  ManifestProcessor.process_all validate_module validate_driver tree s
  = (Notions.logged "ERROR"
       "Manifest validation failed! Fix errors before proceeding." s',
     Raise (SystemExit 1)).
Proof.
  intros Hv. rewrite process_all_after_parsing.
  now rewrite (bind_run_ok _ _ _ _ _ Hv).
Qed.

(** C3, at a failing input. One module manifest without events or
    dependencies is parsed; the validator would find no issue in it, yet
    the run ends with an AttributeError and exit status 1 before the
    validator is called, and writes no file. *)
Theorem clean_module_blocks_emission :
  let run :=
    ManifestProcessor.process_all Samples.conforms Samples.conforms
      (Tree.mk [("components/sensors/module_manifest.json",
                 Some (Samples.module_file "Sensors" []))] [])
      (Samples.fresh Samples.clock_a []) in
  let parsed :=
    ManifestProcessor.modules (ManifestProcessor.St.self (fst run)) in
  List.length parsed = 1
  /\ snd (ManifestValidator.validate_all
            (map ManifestProcessor._module_to_dict parsed)
            ManifestValidator.init) = (true, [])
  /\ snd run
     = Raise (AttributeError
                "'ModuleInfo' object has no attribute 'shared_state'")
  /\ ManifestProcessor.exit_status (snd run) = 1%Z
  /\ World.files (ManifestProcessor.St.world (fst run)) = [].
Proof. vm_compute. conjs; reflexivity. Qed.

(** ** Concrete instances *)

Lemma consistency_step_aborts_witness :
  (exists entry,
     In entry (Tree.module_manifests Samples.one_module_tree)
     /\ Notions.is_parsed Samples.conforms
          (ManifestProcessor.module_schema
             (ManifestProcessor.St.self (Samples.fresh Samples.clock_a [])))
          entry = true)
  /\ ManifestProcessor.exit_status
       (snd (ManifestProcessor.process_all
               Samples.conforms Samples.conforms
               Samples.one_module_tree (Samples.fresh Samples.clock_a [])))
     = 1%Z.
Proof.
  assert (H : exists entry,
     In entry (Tree.module_manifests Samples.one_module_tree)
     /\ Notions.is_parsed Samples.conforms
          (ManifestProcessor.module_schema
             (ManifestProcessor.St.self (Samples.fresh Samples.clock_a [])))
          entry = true).
  { exists Samples.sensors_file. split; [left|]; reflexivity. }
  split; [exact H|].
  exact (proj2 (proj2 (proj2 (proj2
    (consistency_step_aborts Samples.conforms Samples.conforms
       Samples.one_module_tree (Samples.fresh Samples.clock_a []) H))))).
Defined.



Lemma orphan_event_one_issue_witness :
  Notions.is_orphan Notions.Unheard "x.y" [Samples.sensors]
  /\ Notions.is_orphan Notions.Unannounced "z.w" [Samples.sensors]
  /\ filter (fun i => (ValidationIssue.severity i =? "WARNING")
                      && (ValidationIssue.target i =? "x.y"))
            (ManifestValidator.event_issues
               (ManifestValidator.collect_all [Samples.sensors]
                  ManifestValidator.init))
     = [Notions.orphan_issue Notions.Unheard "x.y" [Samples.sensors]]
  /\ filter (fun i => (ValidationIssue.severity i =? "ERROR")
                      && (ValidationIssue.target i =? "z.w"))
            (ManifestValidator.event_issues
               (ManifestValidator.collect_all [Samples.sensors]
                  ManifestValidator.init))
     = [Notions.orphan_issue Notions.Unannounced "z.w" [Samples.sensors]].
Proof.
  assert (H1 : Notions.is_orphan Notions.Unheard "x.y" [Samples.sensors]).
  { split.
    - exists Samples.sensors. split; left; reflexivity.
    - intros m [<-|[]] [H|[]]. discriminate H. }
  assert (H2 : Notions.is_orphan Notions.Unannounced "z.w" [Samples.sensors]).
  { split.
    - exists Samples.sensors. split; left; reflexivity.
    - intros m [<-|[]] [H|[]]. discriminate H. }
  split; [exact H1|]. split; [exact H2|]. split.
  - exact (proj1 (orphan_event_one_issue Notions.Unheard "x.y"
                    [Samples.sensors] H1)).
  - exact (proj1 (orphan_event_one_issue Notions.Unannounced "z.w"
                    [Samples.sensors] H2)).
Defined.

Lemma dependency_issue_iff_witness :
  In Samples.compressor [Samples.compressor]
  /\ In "Ghost" (ManifestValidator.declared_dependencies Samples.compressor)
  /\ In (ValidationIssue.mk "ERROR" "DEPENDENCY"
           "Module depends on non-existent module 'Ghost'" "Compressor" "Ghost")
        (snd (snd (ManifestValidator.validate_all [Samples.compressor]
                     ManifestValidator.init))).
Proof.
  assert (H1 : In Samples.compressor [Samples.compressor])
    by (left; reflexivity).
  assert (H2 : In "Ghost"
                 (ManifestValidator.declared_dependencies Samples.compressor))
    by (right; left; reflexivity).
  split; [exact H1|]. split; [exact H2|].
  apply (proj2 (dependency_issue_iff [Samples.compressor]
                  ManifestValidator.init Samples.compressor "Ghost" H1 H2)).
  intros [[H|[]]|[H|[H|[H|[H|[]]]]]]; discriminate H.
Defined.

(** With the allow-list as documented, a dependency on HAL would pass;
    the validator files a DEPENDENCY ERROR for it. *)
Lemma documented_allow_list_refuted :
  ~ (forall modules m dep,
       In m modules ->
       In dep (ManifestValidator.declared_dependencies m) ->
       ((forall i,
           In i (snd (snd (ManifestValidator.validate_all modules
                             ManifestValidator.init))) ->
           ValidationIssue.category i = "DEPENDENCY" ->
           ValidationIssue.target i <> dep)
        <-> (In dep (map Notions.module_name modules)
             \/ In dep Notions.documented_allow_list))).
Proof.
  intros H.
  destruct (H [Samples.display] Samples.display "HAL"
              (or_introl eq_refl) (or_introl eq_refl)) as [_ Hnone].
  apply (Hnone (or_intror (or_introl eq_refl))
               (ValidationIssue.mk "ERROR" "DEPENDENCY"
                  "Module depends on non-existent module 'HAL'"
                  "Display" "HAL")).
  - left. reflexivity.
  - reflexivity.
  - reflexivity.
Qed.

Lemma colliding_keys_both_emitted_witness :
  In "a.b" (PyDict.keys Samples.colliding_events)
  /\ In "a_b" (PyDict.keys Samples.colliding_events)
  /\ "a.b" <> "a_b"
  /\ ManifestProcessor.const_name "a.b" = ManifestProcessor.const_name "a_b"
  /\ In (ManifestProcessor.constant_line "a_b")
        (ManifestProcessor.event_registry_code "2025-01-01 00:00:00"
           Samples.colliding_events []).
Proof.
  assert (H1 : In "a.b" (PyDict.keys Samples.colliding_events))
    by (left; reflexivity).
  assert (H2 : In "a_b" (PyDict.keys Samples.colliding_events))
    by (right; left; reflexivity).
  assert (H3 : "a.b" <> "a_b") by discriminate.
  assert (H4 : ManifestProcessor.const_name "a.b"
               = ManifestProcessor.const_name "a_b") by reflexivity.
  conjs; try assumption.
  exact (proj1 (proj2 (colliding_keys_both_emitted "2025-01-01 00:00:00"
                         Samples.colliding_events [] "a.b" "a_b"
                         H1 H2 H3 H4))).
Defined.

(** The keys [a.b] and [a_b] both become [A_B]; the validator finds
    nothing to report, and the registry declares [A_B] twice. *)
Lemma colliding_keys_not_flagged :
  "a.b" <> "a_b"
  /\ ManifestProcessor.const_name "a.b" = "A_B"
  /\ ManifestProcessor.const_name "a_b" = "A_B"
  /\ snd (ManifestValidator.validate_all [Samples.naming; Samples.listener]
            ManifestValidator.init) = (true, [])
  /\ filter (String.prefix "    constexpr const char* A_B = ")
            (ManifestProcessor.event_registry_code "2025-01-01 00:00:00"
               Samples.colliding_events [])
     = [ManifestProcessor.constant_line "a.b";
        ManifestProcessor.constant_line "a_b"].
Proof. conjs; try discriminate; vm_compute; reflexivity. Qed.

Lemma duplicate_api_last_writer_witness :
  In "get_status"
     (ManifestValidator.api_methods (Manifest.apis Samples.heater))
  /\ PyDict.get "get_status"
       (ManifestValidator.api_providers
          (ManifestValidator.collect_all [Samples.thermostat; Samples.heater]
             ManifestValidator.init))
     = Some "Heater".
Proof.
  assert (H : In "get_status"
                (ManifestValidator.api_methods (Manifest.apis Samples.heater)))
    by (left; reflexivity).
  split; [exact H|].
  exact (proj1 (duplicate_api_last_writer [Samples.thermostat] []
                  Samples.heater "get_status" ManifestValidator.init H
                  (fun m' (Hin : In m' []) => match Hin with end))).
Defined.

(** Thermostat and Heater both register [get_status]: the validator
    passes without an issue, and the owner is whichever came last. *)
Lemma duplicate_api_not_reported :
  snd (ManifestValidator.validate_all [Samples.thermostat; Samples.heater]
         ManifestValidator.init) = (true, [])
  /\ PyDict.get "get_status"
       (ManifestValidator.api_providers
          (ManifestValidator.collect_all [Samples.thermostat; Samples.heater]
             ManifestValidator.init)) = Some "Heater"
  /\ PyDict.get "get_status"
       (ManifestValidator.api_providers
          (ManifestValidator.collect_all [Samples.heater; Samples.thermostat]
             ManifestValidator.init)) = Some "Thermostat".
Proof. conjs; vm_compute; reflexivity. Qed.

Lemma index_up_to_order_witness :
  Permutation [Samples.alarm; Samples.door] [Samples.door; Samples.alarm]
  /\ Notions.same_up_to_order
       (ManifestValidator.event_publishers
          (ManifestValidator.collect_all [Samples.alarm; Samples.door]
             ManifestValidator.init))
       (ManifestValidator.event_publishers
          (ManifestValidator.collect_all [Samples.door; Samples.alarm]
             ManifestValidator.init)).
Proof.
  assert (Hp : Permutation [Samples.alarm; Samples.door]
                           [Samples.door; Samples.alarm]) by apply perm_swap.
  split; [exact Hp|].
  exact (proj1 (index_up_to_order _ _ Hp)).
Defined.

(** Alarm and Door both publish [door.open]: visiting them in the other
    order lists the publishers in the other order. *)
Lemma index_depends_on_order :
  ~ (forall ms1 ms2,
       Permutation ms1 ms2 ->
       Notions.tables (ManifestValidator.collect_all ms1 ManifestValidator.init)
       = Notions.tables (ManifestValidator.collect_all ms2 ManifestValidator.init)).
Proof.
  intros H.
  specialize (H [Samples.alarm; Samples.door] [Samples.door; Samples.alarm]
                (perm_swap _ _ _)).
  vm_compute in H. discriminate H.
Qed.

(** The same manifest, when it conforms, does change the collections. *)
Example accepted_manifest_is_extracted :
  ManifestProcessor.all_events
    (ManifestProcessor.St.self
       (fst (ManifestProcessor.parse_module_manifest Samples.conforms
               "components/sensors/module_manifest.json"
               (Some (Samples.module_file "Sensors" ["sensor.updated"]))
               (Samples.fresh Samples.clock_a Samples.some_schema))))
  = [("sensor.updated", ["Sensors"])].
Proof. reflexivity. Qed.

Lemma schema_failure_leaves_processor_witness :
  ManifestProcessor.module_schema
    (ManifestProcessor.St.self
       (Samples.fresh Samples.clock_a Samples.some_schema)) <> []
  /\ ManifestProcessor.St.self
       (fst (ManifestProcessor.parse_module_manifest Samples.rejects
               "components/sensors/module_manifest.json"
               (Some (Samples.module_file "Sensors" ["sensor.updated"]))
               (Samples.fresh Samples.clock_a Samples.some_schema)))
     = ManifestProcessor.St.self
         (Samples.fresh Samples.clock_a Samples.some_schema).
Proof.
  assert (H : ManifestProcessor.module_schema
                (ManifestProcessor.St.self
                   (Samples.fresh Samples.clock_a Samples.some_schema)) <> [])
    by discriminate.
  split; [exact H|].
  exact (proj1 (proj2 (schema_failure_leaves_processor Samples.rejects
                         "components/sensors/module_manifest.json"
                         (Samples.module_file "Sensors" ["sensor.updated"])
                         (Samples.fresh Samples.clock_a Samples.some_schema)
                         "'module' is a required property" H eq_refl))).
Defined.

(** * Further properties *)

(** ** The issues about one key *)

Section KeyFacts.
Import Notions Behaviour ValidationIssue.

Lemma multiple_cons sev cat msg k l table :
  ManifestValidator.multiple sev cat msg ((k, l) :: table)
  = (if (1 <? List.length l)%nat
     then [ValidationIssue.mk sev cat (msg k) (PyStr.join ", " l) k]
     else [])
    ++ ManifestValidator.multiple sev cat msg table.
Proof. reflexivity. Qed.

Lemma multiple_keys sev cat msg table i :
  In i (ManifestValidator.multiple sev cat msg table) ->
  In (target i) (PyDict.keys table).
Proof.
  unfold ManifestValidator.multiple, PyDict.items, PyDict.keys.
  rewrite in_flat_map. intros [[k l] [Hin Hi]].
  destruct (1 <? List.length l)%nat; [|contradiction].
  destruct Hi as [<-|[]]. cbn [target]. now apply (in_map fst) in Hin.
Qed.

(** Of the issues the third loop files, those about [key]: one, when the
    list under [key] has more than one module. *)
Lemma filter_multiple sev cat msg key : forall table,
  NoDup (PyDict.keys table) ->
  filter (fun i => target i =? key)
         (ManifestValidator.multiple sev cat msg table)
  = match PyDict.get key table with
    | Some l =>
        if (1 <? List.length l)%nat
        then [ValidationIssue.mk sev cat (msg key) (PyStr.join ", " l) key]
        else []
    | None => []
    end.
Proof.
  induction table as [|[k l] table IH]; intros Hnd; [reflexivity|].
  rewrite multiple_cons, filter_app.
  inversion Hnd as [|? ? Hnotin Hnd']; subst.
  cbn [PyDict.get]. destruct (String.eqb_spec k key) as [->|Hne].
  - rewrite (filter_none _ (ManifestValidator.multiple _ _ _ table)).
    + destruct (1 <? List.length l)%nat; cbn [filter target];
        [|reflexivity].
      now rewrite String.eqb_refl.
    + intros i Hi. apply multiple_keys in Hi. apply String.eqb_neq.
      intros Heq. apply Hnotin. now rewrite <- Heq.
  - rewrite (IH Hnd').
    destruct (1 <? List.length l)%nat; [|reflexivity].
    cbn [filter target app]. apply String.eqb_neq in Hne. now rewrite Hne.
Qed.

(** The three loops over two tables filled from scratch, read at one
    key. *)
Lemma filter_three_loops cat sev3 wmsg emsg mmsg es1 es2 key :
  filter (fun i => target i =? key)
    (three_loops cat sev3 wmsg emsg mmsg (fill [] es1) (fill [] es2))
  = key_issues
      (fun l => ValidationIssue.mk "WARNING" cat (wmsg key)
                  (PyStr.join ", " l) key)
      (fun l => ValidationIssue.mk "ERROR" cat (emsg key)
                  (PyStr.join ", " l) key)
      (fun l => ValidationIssue.mk sev3 cat (mmsg key)
                  (PyStr.join ", " l) key)
      (names_for key es1) (names_for key es2).
Proof.
  unfold three_loops. rewrite !filter_app.
  rewrite !filter_unmatched, filter_multiple
    by (apply NoDup_keys_fill; constructor).
  rewrite !get_fill_init, !no_entry_fill_init. unfold key_issues.
  destruct (names_for key es1) as [|p ps], (names_for key es2) as [|c cs];
    reflexivity.
Qed.

Lemma key_issues_nil u m s (p c : list string) :
  key_issues u m s p c = []
  <-> ((p = [] <-> c = []) /\ (List.length p <= 1)%nat).
Proof.
  unfold key_issues.
  destruct p as [|p1 [|p2 ps]], c as [|c1 cs]; cbn; split.
  all: try (intros H; discriminate H).
  all: try (intros _; split;
            [split; intros E; (discriminate E || reflexivity)|lia]).
  all: intros [[H1 H2] H3]; try reflexivity; exfalso; try lia.
  all: try (discriminate (H1 eq_refl)); try (discriminate (H2 eq_refl)).
Qed.

Lemma names_for_nil_iff key es1 es2 :
  (names_for key es1 = [] <-> names_for key es2 = [])
  <-> (In key (map fst es1) <-> In key (map fst es2)).
Proof.
  rewrite !names_for_nil.
  destruct (in_dec string_dec key (map fst es1)),
           (in_dec string_dec key (map fst es2)); tauto.
Qed.

(** The loops file nothing exactly when both sides list the same keys and
    no key is produced twice. *)
Lemma three_loops_nil cat sev3 wmsg emsg mmsg es1 es2 :
  three_loops cat sev3 wmsg emsg mmsg (fill [] es1) (fill [] es2) = []
  <-> forall key,
        (In key (map fst es1) <-> In key (map fst es2))
        /\ (List.length (names_for key es1) <= 1)%nat.
Proof.
  split.
  - intros Hnil key.
    pose proof (filter_three_loops cat sev3 wmsg emsg mmsg es1 es2 key) as H.
    rewrite Hnil in H. symmetry in H. apply key_issues_nil in H.
    destruct H as [H1 H2]. split; [now apply names_for_nil_iff|exact H2].
  - intros Hall.
    destruct (three_loops cat sev3 wmsg emsg mmsg (fill [] es1) (fill [] es2))
      as [|i l] eqn:Hl; [reflexivity|exfalso].
    pose proof (filter_three_loops cat sev3 wmsg emsg mmsg es1 es2 (target i))
      as H.
    rewrite Hl in H. cbn [filter] in H. rewrite String.eqb_refl in H.
    destruct (Hall (target i)) as [H1 H2].
    apply names_for_nil_iff in H1.
    assert (Hk : key_issues
      (fun l => ValidationIssue.mk "WARNING" cat (wmsg (target i))
                  (PyStr.join ", " l) (target i))
      (fun l => ValidationIssue.mk "ERROR" cat (emsg (target i))
                  (PyStr.join ", " l) (target i))
      (fun l => ValidationIssue.mk sev3 cat (mmsg (target i))
                  (PyStr.join ", " l) (target i))
      (names_for (target i) es1) (names_for (target i) es2) = [])
      by (apply key_issues_nil; split; assumption).
    rewrite Hk in H. discriminate H.
Qed.

(** The loops file an ERROR exactly when some key is consumed and not
    produced. *)
Lemma three_loops_error cat sev3 wmsg emsg mmsg es1 es2 :
  sev3 <> "ERROR" ->
  (exists i,
     In i (three_loops cat sev3 wmsg emsg mmsg (fill [] es1) (fill [] es2))
     /\ severity i = "ERROR")
  <-> exists key, In key (map fst es2) /\ ~ In key (map fst es1).
Proof.
  intros Hsev. split.
  - intros (i & Hi & Herr).
    assert (Hf : In i (filter (fun j => target j =? target i)
                  (three_loops cat sev3 wmsg emsg mmsg
                     (fill [] es1) (fill [] es2)))).
    { apply filter_In. split; [exact Hi|apply String.eqb_refl]. }
    rewrite filter_three_loops in Hf. unfold key_issues in Hf.
    exists (target i).
    destruct (names_for (target i) es1) as [|p ps] eqn:H1,
             (names_for (target i) es2) as [|c cs] eqn:H2;
      cbn in Hf.
    + contradiction.
    + split; [|now apply names_for_nil].
      destruct (in_dec string_dec (target i) (map fst es2)) as [H|H];
        [exact H|].
      apply names_for_nil in H. congruence.
    + exfalso. destruct Hf as [Hf|Hf].
      * rewrite <- Hf in Herr. discriminate Herr.
      * destruct ps; cbn in Hf; [contradiction|].
        destruct Hf as [Hf|[]]. rewrite <- Hf in Herr. cbn in Herr.
        contradiction.
    + exfalso. destruct ps; cbn in Hf; [contradiction|].
      destruct Hf as [Hf|[]]. rewrite <- Hf in Herr. cbn in Herr.
      contradiction.
  - intros (key & Hin & Hnot).
    apply names_for_nil in Hnot.
    assert (Hne : names_for key es2 <> [])
      by (intros H; apply names_for_nil in H; contradiction).
    exists (ValidationIssue.mk "ERROR" cat (emsg key)
              (PyStr.join ", " (names_for key es2)) key).
    split; [|reflexivity].
    apply (proj1 (filter_In (fun j => target j =? key) _ _)).
    rewrite filter_three_loops, Hnot. unfold key_issues.
    destruct (names_for key es2); [contradiction|]. cbn. now left.
Qed.
End KeyFacts.

(** X1. Per event, [validate_events] on a fresh validator files exactly:
    a WARNING when the event is published and nobody subscribes, an ERROR
    when it is subscribed and nobody publishes, an INFO when it is
    published more than once; each names the modules of the side that is
    present. *)
Theorem event_issues_by_key (modules : list Manifest.t) (event : string) :
  filter (fun i => ValidationIssue.target i =? event)
    (ManifestValidator.event_issues
       (ManifestValidator.collect_all modules ManifestValidator.init))
  = Behaviour.key_issues
      (Behaviour.event_issue "WARNING"
         "' is published but has no subscribers" event)
      (Behaviour.event_issue "ERROR"
         "' has subscribers but no publisher" event)
      (Behaviour.event_issue "INFO"
         "' is published by multiple modules" event)
      (Notions.holders Notions.published_events event modules)
      (Notions.holders Notions.subscribed_events event modules).
Proof.
  unfold ManifestValidator.event_issues.
  pose proof (init_tables modules) as Ht. unfold Notions.tables in Ht.
  injection Ht as -> -> _ _ _.
  apply filter_three_loops.
Qed.

(** X2. Per state key, [validate_shared_state] on a fresh validator files
    exactly: a WARNING when the state is written and never read, an ERROR
    when it is read and never written, and a second WARNING when it is
    written more than once. *)
Theorem shared_state_issues_by_key
    (modules : list Manifest.t) (state : string) :
  filter (fun i => ValidationIssue.target i =? state)
    (ManifestValidator.shared_state_issues
       (ManifestValidator.collect_all modules ManifestValidator.init))
  = Behaviour.key_issues
      (Behaviour.state_issue "WARNING" "' is written but never read" state)
      (Behaviour.state_issue "ERROR" "' is read but never written" state)
      (Behaviour.state_issue "WARNING"
         "' is written by multiple modules - potential conflict" state)
      (Notions.holders Notions.written_states state modules)
      (Notions.holders Notions.read_states state modules).
Proof.
  unfold ManifestValidator.shared_state_issues.
  pose proof (init_tables modules) as Ht. unfold Notions.tables in Ht.
  injection Ht as _ _ -> -> _.
  apply filter_three_loops.
Qed.

(** ** When the validator is silent, and when it fails the build *)

Section VerdictFacts.
Import Notions Behaviour ValidationIssue.

Lemma sort_by_key_nil {A} (key : A -> Z) l : sort_by_key key l = [] <-> l = [].
Proof.
  split; intros H.
  - pose proof (sort_by_key_perm key l) as Hp. rewrite H in Hp.
    now apply Permutation_sym, Permutation_nil in Hp.
  - now subst.
Qed.

Lemma event_issues_loops modules :
  ManifestValidator.event_issues
    (ManifestValidator.collect_all modules ManifestValidator.init)
  = three_loops "EVENT" "INFO"
      (fun event =>
         ("Event '" ++ event ++ "' is published but has no subscribers")%string)
      (fun event =>
         ("Event '" ++ event ++ "' has subscribers but no publisher")%string)
      (fun event =>
         ("Event '" ++ event ++ "' is published by multiple modules")%string)
      (fill [] (entries published_events modules))
      (fill [] (entries subscribed_events modules)).
Proof.
  unfold ManifestValidator.event_issues, three_loops.
  pose proof (init_tables modules) as Ht. unfold tables in Ht.
  now injection Ht as -> -> _ _ _.
Qed.

Lemma shared_state_issues_loops modules :
  ManifestValidator.shared_state_issues
    (ManifestValidator.collect_all modules ManifestValidator.init)
  = three_loops "STATE" "WARNING"
      (fun state =>
         ("State '" ++ state ++ "' is written but never read")%string)
      (fun state =>
         ("State '" ++ state ++ "' is read but never written")%string)
      (fun state =>
         ("State '" ++ state
          ++ "' is written by multiple modules - potential conflict")%string)
      (fill [] (entries written_states modules))
      (fill [] (entries read_states modules)).
Proof.
  unfold ManifestValidator.shared_state_issues, three_loops.
  pose proof (init_tables modules) as Ht. unfold tables in Ht.
  now injection Ht as _ _ -> -> _.
Qed.

Lemma dependency_issues_nil modules :
  ManifestValidator.dependency_issues modules = []
  <-> dependencies_known modules.
Proof.
  split.
  - intros Hnil m dep Hm Hdep.
    destruct (in_dec string_dec dep (map module_name modules)) as [H|H1];
      [now left|].
    destruct (in_dec string_dec dep ManifestValidator.system_dependencies)
      as [H|H2]; [now right|].
    exfalso.
    assert (Hi : In (ValidationIssue.mk "ERROR" "DEPENDENCY"
                       ("Module depends on non-existent module '" ++ dep ++ "'")
                       (module_name m) dep)
                    (ManifestValidator.dependency_issues modules)).
    { apply in_dependency_issues. exists m, dep.
      conjs; try assumption; try reflexivity; now apply mem_false. }
    now rewrite Hnil in Hi.
  - intros Hknown.
    destruct (ManifestValidator.dependency_issues modules) as [|i l] eqn:Hl;
      [reflexivity|exfalso].
    assert (Hi : In i (ManifestValidator.dependency_issues modules))
      by (rewrite Hl; now left).
    apply in_dependency_issues in Hi.
    destruct Hi as (m & dep & Hm & Hdep & Hsys & Hnames & _).
    apply mem_false in Hsys, Hnames.
    destruct (Hknown m dep Hm Hdep); contradiction.
Qed.

Lemma dependency_issues_error modules :
  (exists i, In i (ManifestValidator.dependency_issues modules)
             /\ severity i = "ERROR")
  <-> unknown_dependency modules.
Proof.
  split.
  - intros (i & Hi & _). apply in_dependency_issues in Hi.
    destruct Hi as (m & dep & Hm & Hdep & Hsys & Hnames & _).
    apply mem_false in Hsys, Hnames. exists m, dep. auto.
  - intros (m & dep & Hm & Hdep & Hnames & Hsys).
    exists (ValidationIssue.mk "ERROR" "DEPENDENCY"
              ("Module depends on non-existent module '" ++ dep ++ "'")
              (module_name m) dep).
    split; [|reflexivity].
    apply in_dependency_issues. exists m, dep.
    conjs; try assumption; try reflexivity; now apply mem_false.
Qed.
End VerdictFacts.

(** X3. On a fresh validator, [validate_all] returns a true verdict and an
    empty list exactly when every published event is subscribed and
    conversely, no event is published twice, the same holds of the state
    keys written and read, and every declared dependency is a module
    handed in or one of the system dependencies. *)
Theorem no_issue_iff (modules : list Manifest.t) :
  snd (ManifestValidator.validate_all modules ManifestValidator.init)
  = (true, [])
  <-> Behaviour.balanced Notions.published_events Notions.subscribed_events
        modules
      /\ Behaviour.balanced Notions.written_states Notions.read_states modules
      /\ Behaviour.dependencies_known modules.
Proof.
  rewrite validate_all_eq. cbv zeta.
  assert (Hpair : forall l : list ValidationIssue.t,
    (negb (existsb (fun issue => ValidationIssue.severity issue =? "ERROR") l),
     l) = (true, []) <-> l = []).
  { intros l. split; [now intros [= _ ->]|now intros ->]. }
  rewrite Hpair, sort_by_key_nil, discovered_eq. cbv zeta.
  change (ManifestValidator.with_issues [] ManifestValidator.init)
    with ManifestValidator.init.
  rewrite event_issues_loops, shared_state_issues_loops.
  unfold Behaviour.balanced, Behaviour.keys_in, Notions.holders.
  rewrite <- !three_loops_nil, <- dependency_issues_nil.
  split.
  - intros H. apply app_eq_nil in H. destruct H as [H1 H].
    apply app_eq_nil in H. destruct H as [H2 H3].
    rewrite H1, H2, H3. auto.
  - intros (H1 & H2 & H3). rewrite H1, H2, H3. reflexivity.
Qed.

(** X4. On a fresh validator, the verdict of [validate_all] is false
    exactly when some event is subscribed and not published, or some state
    key is read and not written, or some declared dependency is unknown;
    no warning or info makes it false. *)
Theorem verdict_false_iff (modules : list Manifest.t) :
  fst (snd (ManifestValidator.validate_all modules ManifestValidator.init))
  = false
  <-> Behaviour.unproduced Notions.published_events Notions.subscribed_events
        modules
      \/ Behaviour.unproduced Notions.written_states Notions.read_states
           modules
      \/ Behaviour.unknown_dependency modules.
Proof.
  rewrite validate_all_eq. cbv zeta. cbn [fst].
  rewrite negb_false_iff, existsb_exists.
  assert (Hsort : forall l,
    (exists i, In i (sort_by_key ManifestValidator.severity_rank l)
               /\ (ValidationIssue.severity i =? "ERROR") = true)
    <-> exists i, In i l /\ ValidationIssue.severity i = "ERROR").
  { intros l. split; intros (i & Hi & He); exists i;
      (split; [|now apply String.eqb_eq]).
    - eapply Permutation_in; [apply Permutation_sym, sort_by_key_perm|exact Hi].
    - eapply Permutation_in; [apply sort_by_key_perm|exact Hi]. }
  rewrite Hsort, discovered_eq. cbv zeta.
  change (ManifestValidator.with_issues [] ManifestValidator.init)
    with ManifestValidator.init.
  rewrite event_issues_loops, shared_state_issues_loops.
  unfold Behaviour.unproduced, Behaviour.keys_in.
  rewrite <- (three_loops_error "EVENT" "INFO") by discriminate.
  rewrite <- (three_loops_error "STATE" "WARNING") by discriminate.
  rewrite <- dependency_issues_error.
  split.
  - intros (i & Hi & He). rewrite !in_app_iff in Hi.
    destruct Hi as [Hi|[Hi|Hi]]; [left|right; left|right; right]; eauto.
  - intros [(i & Hi & He)|[(i & Hi & He)|(i & Hi & He)]];
      exists i; rewrite !in_app_iff; auto.
Qed.

(** ** A validator used twice *)

Section ReuseFacts.
Import Notions Behaviour ValidationIssue.

Lemma get_In {V} k (v : V) : forall d, PyDict.get k d = Some v -> In (k, v) d.
Proof.
  induction d as [|[k' v'] d IH]; cbn; [discriminate|].
  destruct (String.eqb_spec k' k) as [->|Hne].
  - intros [= ->]. now left.
  - intros H. right. now apply IH.
Qed.

Lemma in_multiple sev cat msg table k l :
  In (k, l) table -> (1 <? List.length l)%nat = true ->
  In (ValidationIssue.mk sev cat (msg k) (PyStr.join ", " l) k)
     (ManifestValidator.multiple sev cat msg table).
Proof.
  intros Hin Hlen. unfold ManifestValidator.multiple, PyDict.items.
  apply in_flat_map. exists (k, l). split; [exact Hin|].
  rewrite Hlen. now left.
Qed.

(** [validate_all] replaces the issues and extends the tables: the tables
    it leaves in the validator are those [collect_manifest_data] built. *)
Lemma validate_all_tables modules v :
  tables (fst (ManifestValidator.validate_all modules v))
  = tables (ManifestValidator.collect_all modules v).
Proof.
  change (tables (fst (ManifestValidator.validate_all modules v)))
    with (tables (ManifestValidator.collect_all modules
                    (ManifestValidator.with_issues [] v))).
  now rewrite !collect_all_tables.
Qed.
End ReuseFacts.

(** X5. [validate_all] clears the issues of the validator but not its
    tables: after a call they hold the pairs of the modules on top of what
    they held before. A second call on the same validator with the same
    modules therefore lists every publisher twice and reports every
    published event as published by multiple modules. *)
Theorem second_call_doubles_publishers
    (modules : list Manifest.t) (event : string) :
  In event (Behaviour.keys_in Notions.published_events modules) ->
  let first := ManifestValidator.validate_all modules ManifestValidator.init in
  let second := ManifestValidator.validate_all modules (fst first) in
  let publishers := Notions.holders Notions.published_events event modules in
  PyDict.get event (ManifestValidator.event_publishers (fst first))
  = Some publishers
  /\ PyDict.get event (ManifestValidator.event_publishers (fst second))
     = Some (publishers ++ publishers)
  /\ In (Behaviour.event_issue "INFO" "' is published by multiple modules"
           event (publishers ++ publishers))
        (snd (snd second)).
Proof.
  intros Hin first second publishers.
  assert (Hne : publishers <> []).
  { intros H. apply names_for_nil in H. contradiction. }
  assert (Htab : forall v,
    ManifestValidator.event_publishers
      (fst (ManifestValidator.validate_all modules v))
    = Notions.fill (ManifestValidator.event_publishers v)
        (Notions.entries Notions.published_events modules)).
  { intros v. pose proof (validate_all_tables modules v) as H.
    rewrite collect_all_tables in H.
    apply (f_equal (fun t => fst (fst (fst (fst t))))) in H. exact H. }
  assert (Hget1 : PyDict.get event
                    (ManifestValidator.event_publishers (fst first))
                  = Some publishers).
  { unfold first. rewrite Htab. cbn [ManifestValidator.event_publishers
      ManifestValidator.init]. rewrite get_fill_init.
    fold (Notions.holders Notions.published_events event modules).
    fold publishers. destruct publishers; [contradiction|reflexivity]. }
  assert (Hget2 : PyDict.get event
                    (ManifestValidator.event_publishers (fst second))
                  = Some (publishers ++ publishers)).
  { unfold second, first. rewrite !Htab.
    cbn [ManifestValidator.event_publishers ManifestValidator.init].
    rewrite <- fill_app, get_fill_init, names_for_app.
    fold (Notions.holders Notions.published_events event modules).
    fold publishers. destruct publishers; [contradiction|reflexivity]. }
  split; [exact Hget1|]. split; [exact Hget2|].
  apply in_validate_all. rewrite discovered_eq. cbv zeta.
  rewrite in_app_iff. left.
  unfold ManifestValidator.event_issues. rewrite !in_app_iff.
  right. right.
  apply (in_multiple "INFO" "EVENT"
           (fun event =>
              ("Event '" ++ event ++ "' is published by multiple modules")%string)).
  - apply get_In. exact Hget2.
  - destruct publishers as [|p ps]; [contradiction|].
    rewrite length_app. cbn [List.length].
    apply Nat.ltb_lt. lia.
Qed.

(** ** What parsing appends *)

Section ParsedFacts.
Import ManifestProcessor Notions Behaviour.
Variable validate_module : ModuleManifest.t -> dict json -> validation_outcome.
Variable validate_driver : DriverManifest.t -> dict json -> validation_outcome.

(** Extraction appends the static APIs of the manifest to [all_apis], each
    tagged with the module, before it reads the ['ui'] section. With a
    sound section it returns a module of the manifest's name that holds
    the same entries; with a faulty one it raises and leaves the entries
    in [all_apis]. *)
Lemma extract_module_info path manifest s :
  exists s' r,
    extract_module path manifest s = (s', r)
    /\ module_schema (St.self s') = module_schema (St.self s)
    /\ modules (St.self s') = modules (St.self s)
    /\ drivers (St.self s') = drivers (St.self s)
    /\ all_apis (St.self s') = all_apis (St.self s) ++ tagged_apis manifest
    /\ match r with
       | Ok info =>
           ui_sound manifest = true
           /\ ModuleInfo.name info = manifest_name manifest
           /\ ModuleInfo.manifest_path info = path
           /\ ModuleInfo.apis info = tagged_apis manifest
       | Raise e => ui_sound manifest = false /\ is_Exception e = true
       end.
Proof.
  unfold extract_module, ui_sound.
  destruct (ModuleManifest.ui manifest) as [ui_data|];
    [destruct (static_pages ui_data) as [[pages|]|e] eqn:Hsp|];
    unfold bind, modify_self, ret, lift;
    cbn [St.self St.world];
    (eexists; eexists; split; [reflexivity|]);
    cbn; conjs; try reflexivity.
  eapply static_pages_exception. exact Hsp.
Qed.

Lemma tagged_apis_tagged manifest api :
  In api (tagged_apis manifest) ->
  PyDict.get "module" api = Some (manifest_name manifest).
Proof.
  unfold tagged_apis. intros H. apply in_map_iff in H.
  destruct H as (a & <- & _). apply get_set_same.
Qed.

Lemma accepted_some file manifest schema :
  accepted validate_module schema file = Some manifest ->
  file = Some manifest.
Proof.
  unfold accepted. destruct file as [m|]; [|discriminate].
  destruct schema; [congruence|].
  destruct (validate_module m _); congruence.
Qed.

(** What [parse_module_manifest] does with a file that loads and passes
    the schema check. *)
Lemma parse_module_manifest_accepted path manifest s :
  accepted validate_module (module_schema (St.self s)) (Some manifest)
  = Some manifest ->
  exists s' r,
    parse_module_manifest validate_module path (Some manifest) s = (s', r)
    /\ module_schema (St.self s') = module_schema (St.self s)
    /\ modules (St.self s') = modules (St.self s)
    /\ drivers (St.self s') = drivers (St.self s)
    /\ all_apis (St.self s') = all_apis (St.self s) ++ tagged_apis manifest
    /\ match r with
       | Ok (Some info) =>
           ui_sound manifest = true
           /\ ModuleInfo.name info = manifest_name manifest
           /\ ModuleInfo.manifest_path info = path
           /\ ModuleInfo.apis info = tagged_apis manifest
       | Ok None => False
       | Raise e => ui_sound manifest = false /\ is_Exception e = true
       end.
Proof.
  unfold accepted. intros Hacc.
  unfold parse_module_manifest. cbn [load].
  rewrite bind_ret, bind_get_self. unfold check_schema.
  destruct (extract_module_info path manifest s)
    as (s' & r & Heq & H).
  assert (Hpass :
    exists r',
      (module <- extract_module path manifest ;; ret (Some module))%py s
      = (s', r')
      /\ match r' with
         | Ok (Some info) =>
             ui_sound manifest = true
             /\ ModuleInfo.name info = manifest_name manifest
             /\ ModuleInfo.manifest_path info = path
             /\ ModuleInfo.apis info = tagged_apis manifest
         | Ok None => False
         | Raise e => ui_sound manifest = false /\ is_Exception e = true
         end).
  { destruct H as (_ & _ & _ & _ & Hr). destruct r as [info|e].
    - rewrite (bind_run_ok _ _ _ _ _ Heq). eexists. split; [reflexivity|].
      exact Hr.
    - rewrite (bind_run_raise _ _ _ _ _ Heq). eexists.
      split; [reflexivity|]. exact Hr. }
  destruct Hpass as (r' & Hrun & Hr').
  destruct H as (H1 & H2 & H3 & H4 & _).
  destruct (module_schema (St.self s)) as [|e0 schema] eqn:Hs;
    [|destruct (validate_module manifest (e0 :: schema));
      try discriminate Hacc].
  - rewrite bind_ret. cbn [negb]. rewrite Hrun.
    exists s', r'. split; [reflexivity|]. conjs; assumption.
  - rewrite bind_ret. cbn [negb]. rewrite Hrun.
    exists s', r'. split; [reflexivity|]. conjs; assumption.
Qed.

(** A file that is not accepted leaves the processor as it was. *)
Lemma parse_module_manifest_refused path file s :
  is_accepted validate_module (module_schema (St.self s)) (path, file)
  = false ->
  exists w r,
    parse_module_manifest validate_module path file s
    = (St.mk (St.self s) w, r)
    /\ match r with
       | Ok (Some _) => False
       | Ok None => True
       | Raise e => is_Exception e = true
       end.
Proof.
  unfold is_accepted, accepted. cbn [snd]. intros Hacc.
  destruct file as [manifest|].
  2:{ unfold parse_module_manifest. cbn [load]. rewrite bind_raise.
      exists (St.world s). eexists.
      split; [destruct s; reflexivity|]. reflexivity. }
  unfold parse_module_manifest. cbn [load].
  rewrite bind_ret, bind_get_self. unfold check_schema.
  destruct (module_schema (St.self s)) as [|e0 schema] eqn:Hs;
    [discriminate Hacc|].
  destruct (validate_module manifest (e0 :: schema)); try discriminate Hacc.
  - eexists. eexists. split; [reflexivity|]. exact I.
  - rewrite bind_raise. exists (St.world s). eexists.
    split; [destruct s; reflexivity|]. reflexivity.
Qed.

(** One turn of the module loop appends the module of a file that
    parses and nothing for any other file; [all_apis] grows by the
    entries of every accepted file. *)
Lemma try_parse_module_news entry s :
  exists s' news,
    try_parse_module validate_module entry s = (s', Ok tt)
    /\ module_schema (St.self s') = module_schema (St.self s)
    /\ drivers (St.self s') = drivers (St.self s)
    /\ modules (St.self s') = modules (St.self s) ++ news
    /\ all_apis (St.self s')
       = all_apis (St.self s)
         ++ file_apis validate_module (module_schema (St.self s)) entry
    /\ map ModuleInfo.name news
       = parsed_names validate_module (module_schema (St.self s)) [entry]
    /\ map ModuleInfo.manifest_path news
       = map fst (filter (is_parsed validate_module
                            (module_schema (St.self s))) [entry])
    /\ flat_map ModuleInfo.apis news
       = module_apis validate_module (module_schema (St.self s)) entry
    /\ Forall apis_tagged news.
Proof.
  destruct entry as [path file].
  unfold try_parse_module, try_except. rewrite bind_logger.
  set (s1 := logged "INFO" ("Parsing module manifest: " ++ path) s).
  unfold parsed_names, file_apis, module_apis, is_parsed, parsed.
  cbn [flat_map filter snd].
  assert (Hacc : is_accepted validate_module (module_schema (St.self s1))
                   (path, file)
                 = match accepted validate_module
                           (module_schema (St.self s)) file with
                   | Some _ => true
                   | None => false
                   end) by reflexivity.
  destruct (accepted validate_module (module_schema (St.self s)) file)
    as [manifest|] eqn:Hm.
  - assert (file = Some manifest) as -> by (eapply accepted_some; exact Hm).
    destruct (parse_module_manifest_accepted path manifest s1 Hm)
      as (s2 & r & Heq & H1 & H2 & H3 & H4 & Hr).
    destruct r as [[info|]|e]; [| contradiction |].
    + destruct Hr as (Hsound & Hn & Hp & Ha).
      rewrite (bind_run_ok _ _ _ _ _ Heq).
      exists (fst (modify_self
                     (fun p => with_modules (modules p ++ [info]) p) s2)),
             [info].
      split; [reflexivity|]. rewrite Hsound. cbn. rewrite !app_nil_r.
      rewrite H2, H3, H4, Hn, Hp, Ha. conjs; try reflexivity.
      * exact H1.
      * constructor; [|constructor]. unfold apis_tagged.
        apply Forall_forall. intros api Hapi. rewrite Ha in Hapi.
        rewrite Hn. now apply tagged_apis_tagged.
    + destruct Hr as [Hsound Hexc].
      rewrite (bind_run_raise _ _ _ _ _ Heq), Hexc.
      eexists. exists []. split; [reflexivity|]. rewrite Hsound. cbn.
      rewrite !app_nil_r. conjs; try assumption; try reflexivity.
      constructor.
  - destruct (parse_module_manifest_refused path file s1 Hacc)
      as (w & r & Heq & Hr).
    destruct r as [[info|]|e]; [contradiction| |].
    + rewrite (bind_run_ok _ _ _ _ _ Heq).
      eexists. exists []. split; [reflexivity|]. cbn.
      rewrite !app_nil_r. conjs; try reflexivity. constructor.
    + rewrite (bind_run_raise _ _ _ _ _ Heq), Hr.
      eexists. exists []. split; [reflexivity|]. cbn.
      rewrite !app_nil_r. conjs; try reflexivity. constructor.
Qed.

Lemma module_loop_news files : forall s,
  exists s' news,
    for_each files (try_parse_module validate_module) s = (s', Ok tt)
    /\ module_schema (St.self s') = module_schema (St.self s)
    /\ drivers (St.self s') = drivers (St.self s)
    /\ modules (St.self s') = modules (St.self s) ++ news
    /\ all_apis (St.self s')
       = all_apis (St.self s)
         ++ flat_map (file_apis validate_module (module_schema (St.self s)))
                     files
    /\ map ModuleInfo.name news
       = parsed_names validate_module (module_schema (St.self s)) files
    /\ map ModuleInfo.manifest_path news
       = map fst (filter (is_parsed validate_module
                            (module_schema (St.self s))) files)
    /\ flat_map ModuleInfo.apis news
       = flat_map (module_apis validate_module (module_schema (St.self s)))
                  files
    /\ Forall apis_tagged news.
Proof.
  induction files as [|entry files IH]; intros s.
  - exists s, []. cbn. rewrite !app_nil_r. conjs; try reflexivity.
    constructor.
  - destruct (try_parse_module_news entry s)
      as (s1 & n1 & Heq & H1 & H2 & H3 & H4 & H5 & H6 & H7 & H8).
    destruct (IH s1) as (s2 & n2 & Heq' & H1' & H2' & H3' & H4' & H5' & H6'
                         & H7' & H8').
    exists s2, (n1 ++ n2). cbn [for_each].
    rewrite (bind_run_ok _ _ _ _ _ Heq), Heq'.
    rewrite H1 in H4', H5', H6', H7'.
    conjs; try reflexivity.
    + congruence.
    + congruence.
    + rewrite H3', H3. now rewrite app_assoc.
    + rewrite H4', H4. cbn [flat_map]. now rewrite app_assoc.
    + rewrite map_app, H5, H5'. unfold parsed_names. cbn [flat_map].
      now rewrite app_nil_r.
    + rewrite map_app, H6, H6'. cbn [filter].
      destruct (is_parsed validate_module (module_schema (St.self s)) entry);
        reflexivity.
    + rewrite flat_map_app, H7, H7'. reflexivity.
    + apply Forall_app. split; assumption.
Qed.

(** One turn of the driver loop changes nothing of the processor but
    [drivers], to which it appends at most one driver. *)
Lemma try_parse_driver_self entry s :
  exists s' ds,
    try_parse_driver validate_driver entry s = (s', Ok tt)
    /\ St.self s' = with_drivers (drivers (St.self s) ++ ds) (St.self s)
    /\ (List.length ds <= 1)%nat.
Proof.
  assert (Hid : forall p, p = with_drivers (drivers p ++ []) p).
  { intros p. rewrite app_nil_r. now destruct p. }
  destruct entry as [path [manifest|]].
  2:{ eexists. exists []. split; [reflexivity|]. cbn. split; [apply Hid|lia]. }
  unfold try_parse_driver, try_except, parse_driver_manifest.
  rewrite bind_logger. cbn [load]. unfold check_schema.
  set (s1 := logged "INFO" ("Parsing driver manifest: " ++ path) s).
  unfold bind, ret, get_self, raise.
  change (driver_schema (St.self s1)) with (driver_schema (St.self s)).
  destruct (driver_schema (St.self s)) as [|e schema] eqn:Hs;
    [|destruct (validate_driver manifest (e :: schema))].
  - eexists. eexists [_]. split; [reflexivity|]. cbn. split; [reflexivity|lia].
  - eexists. eexists [_]. split; [reflexivity|]. cbn. split; [reflexivity|lia].
  - eexists. exists []. split; [reflexivity|]. cbn. split; [apply Hid|lia].
  - eexists. exists []. split; [reflexivity|]. cbn. split; [apply Hid|lia].
Qed.

Lemma driver_loop_self files : forall s,
  exists s' ds,
    for_each files (try_parse_driver validate_driver) s = (s', Ok tt)
    /\ St.self s' = with_drivers (drivers (St.self s) ++ ds) (St.self s)
    /\ (List.length ds <= List.length files)%nat.
Proof.
  induction files as [|entry files IH]; intros s.
  - exists s, []. cbn. split; [reflexivity|]. split; [|lia].
    rewrite app_nil_r. now destruct (St.self s).
  - destruct (try_parse_driver_self entry s) as (s1 & d1 & Heq & H1 & Hl1).
    destruct (IH s1) as (s2 & d2 & Heq' & H2 & Hl2).
    exists s2, (d1 ++ d2). cbn [for_each].
    rewrite (bind_run_ok _ _ _ _ _ Heq), Heq'.
    split; [reflexivity|]. split.
    + rewrite H2, H1. cbn. now rewrite app_assoc.
    + rewrite length_app. cbn [List.length]. lia.
Qed.
End ParsedFacts.


Lemma second_call_doubles_publishers_witness :
  In "x.y" (Behaviour.keys_in Notions.published_events [Samples.sensors])
  /\ In (Behaviour.event_issue "INFO" "' is published by multiple modules"
           "x.y" ["Sensors"; "Sensors"])
        (snd (snd (ManifestValidator.validate_all [Samples.sensors]
                     (fst (ManifestValidator.validate_all [Samples.sensors]
                             ManifestValidator.init))))).
Proof.
  assert (H : In "x.y" (Behaviour.keys_in Notions.published_events
                          [Samples.sensors])) by (left; reflexivity).
  split; [exact H|].
  exact (proj2 (proj2 (second_call_doubles_publishers
                         [Samples.sensors] "x.y" H))).
Defined.

(** X6. [parse_manifests] never raises: a module manifest that cannot be
    loaded, that the schema refuses or whose ['ui'] section makes the
    extraction raise is skipped. It appends to [modules] one module per
    manifest that parses, in the order of discovery, each with the name
    and the path of its manifest, and to [drivers] at most one entry per
    driver manifest. *)
Theorem parse_manifests_appends
    (validate_module : ModuleManifest.t -> dict json -> validation_outcome)
    (validate_driver : DriverManifest.t -> dict json -> validation_outcome)
    (s : ManifestProcessor.St.t) :
  let p := ManifestProcessor.St.self s in
  let files := Tree.module_manifests (ManifestProcessor.manifest_files p) in
  let schema := ManifestProcessor.module_schema p in
  exists s' news ds,
    ManifestProcessor.parse_manifests validate_module validate_driver s
    = (s', Ok tt)
    /\ ManifestProcessor.modules (ManifestProcessor.St.self s')
       = ManifestProcessor.modules p ++ news
    /\ map ModuleInfo.name news
       = Behaviour.parsed_names validate_module schema files
    /\ map ModuleInfo.manifest_path news
       = map fst (filter (Notions.is_parsed validate_module schema) files)
    /\ ManifestProcessor.drivers (ManifestProcessor.St.self s')
       = ManifestProcessor.drivers p ++ ds
    /\ (List.length ds
        <= List.length (Tree.driver_manifests
                          (ManifestProcessor.manifest_files p)))%nat.
Proof.
  intros p files schema. unfold ManifestProcessor.parse_manifests.
  rewrite bind_get_self.
  destruct (module_loop_news validate_module files s)
    as (s1 & news & Heq & H1 & H2 & H3 & H4 & H5 & H6 & H7 & H8).
  destruct (driver_loop_self validate_driver
              (Tree.driver_manifests (ManifestProcessor.manifest_files p)) s1)
    as (s2 & ds & Heq' & Hself & Hlen).
  exists s2, news, ds.
  fold p. fold files.
  rewrite (bind_run_ok _ _ _ _ _ Heq), Heq'.
  rewrite Hself. cbn. rewrite H2.
  conjs; try reflexivity; assumption.
Qed.

(** X7. After [parse_manifests], [all_apis] is what it was followed by the
    static API entries, each tagged with the name of its module, of every
    module manifest that loads and passes the schema check, in the order
    of discovery. A manifest whose extraction raises afterwards has left
    its entries there, so [all_apis] can hold entries of modules that are
    not in [modules]. The entries of each module appended hold the name
    of that module under ['module'] and are among [all_apis]. *)
Theorem parse_manifests_tags_apis
    (validate_module : ModuleManifest.t -> dict json -> validation_outcome)
    (validate_driver : DriverManifest.t -> dict json -> validation_outcome)
    (s : ManifestProcessor.St.t) :
  let p := ManifestProcessor.St.self s in
  let files := Tree.module_manifests (ManifestProcessor.manifest_files p) in
  let schema := ManifestProcessor.module_schema p in
  exists s' news,
    ManifestProcessor.parse_manifests validate_module validate_driver s
    = (s', Ok tt)
    /\ ManifestProcessor.modules (ManifestProcessor.St.self s')
       = ManifestProcessor.modules p ++ news
    /\ ManifestProcessor.all_apis (ManifestProcessor.St.self s')
       = ManifestProcessor.all_apis p
         ++ flat_map (Behaviour.file_apis validate_module schema) files
    /\ flat_map ModuleInfo.apis news
       = flat_map (Behaviour.module_apis validate_module schema) files
    /\ forall module api,
         In module news -> In api (ModuleInfo.apis module) ->
         PyDict.get "module" api = Some (ModuleInfo.name module)
         /\ In api (ManifestProcessor.all_apis
                      (ManifestProcessor.St.self s')).
Proof.
  intros p files schema.
  unfold ManifestProcessor.parse_manifests. rewrite bind_get_self.
  destruct (module_loop_news validate_module files s)
    as (s1 & news & Heq & H1 & H2 & H3 & H4 & H5 & H6 & H7 & H8).
  destruct (driver_loop_self validate_driver
              (Tree.driver_manifests (ManifestProcessor.manifest_files p)) s1)
    as (s2 & ds & Heq' & Hself & Hlen).
  exists s2, news. fold p. fold files.
  rewrite (bind_run_ok _ _ _ _ _ Heq), Heq'.
  rewrite Hself. cbn.
  conjs; try reflexivity; try assumption.
  intros module api Hm Ha. split.
  - rewrite Forall_forall in H8. specialize (H8 module Hm).
    unfold Behaviour.apis_tagged in H8. rewrite Forall_forall in H8.
    now apply H8.
  - rewrite H4. apply in_or_app. right.
    assert (Hin : In api (flat_map ModuleInfo.apis news))
      by (apply in_flat_map; eauto).
    rewrite H7 in Hin. apply in_flat_map in Hin.
    destruct Hin as (entry & He & Hapi). apply in_flat_map.
    exists entry. split; [exact He|].
    unfold Behaviour.module_apis, Notions.parsed in Hapi.
    unfold Behaviour.file_apis.
    destruct (Notions.accepted validate_module _ (snd entry)) as [m|];
      [|contradiction].
    destruct (Notions.ui_sound m); [exact Hapi|contradiction].
Qed.

(** ** Parsing without schemas *)

Section SchemaFacts.
Import ManifestProcessor Notions Behaviour.
Variables validate_module validate_module'
  : ModuleManifest.t -> dict json -> validation_outcome.
Variables validate_driver validate_driver'
  : DriverManifest.t -> dict json -> validation_outcome.

Lemma bind_run_eq {A B} (c c' : M A) (k : A -> M B) s :
  c s = c' s -> bind c k s = bind c' k s.
Proof. unfold bind. now intros ->. Qed.

Lemma parse_module_manifest_no_schema path file s :
  module_schema (St.self s) = [] ->
  parse_module_manifest validate_module path file s
  = parse_module_manifest validate_module' path file s.
Proof.
  intros Hs. destruct file as [manifest|]; [|reflexivity].
  unfold parse_module_manifest. cbn [load].
  rewrite !bind_ret, !bind_get_self. unfold check_schema.
  rewrite Hs. reflexivity.
Qed.

Lemma try_parse_module_no_schema entry s :
  module_schema (St.self s) = [] ->
  try_parse_module validate_module entry s
  = try_parse_module validate_module' entry s.
Proof.
  intros Hs. destruct entry as [path file].
  unfold try_parse_module, try_except. rewrite !bind_logger.
  now rewrite (bind_run_eq _ _ _ _
                 (parse_module_manifest_no_schema path file
                    (logged "INFO" ("Parsing module manifest: " ++ path) s)
                    Hs)).
Qed.

Lemma module_loop_no_schema files : forall s,
  module_schema (St.self s) = [] ->
  for_each files (try_parse_module validate_module) s
  = for_each files (try_parse_module validate_module') s.
Proof.
  induction files as [|entry files IH]; intros s Hs; [reflexivity|].
  cbn [for_each].
  destruct (try_parse_module_news validate_module' entry s)
    as (s1 & news & Heq & H1 & _).
  pose proof Heq as Heq0.
  rewrite <- (try_parse_module_no_schema entry s Hs) in Heq0.
  rewrite (bind_run_ok _ _ _ _ _ Heq), (bind_run_ok _ _ _ _ _ Heq0).
  apply IH. congruence.
Qed.

Lemma parse_driver_manifest_no_schema path file s :
  driver_schema (St.self s) = [] ->
  parse_driver_manifest validate_driver path file s
  = parse_driver_manifest validate_driver' path file s.
Proof.
  intros Hs. destruct file as [manifest|]; [|reflexivity].
  unfold parse_driver_manifest. cbn [load].
  rewrite !bind_ret, !bind_get_self. unfold check_schema.
  rewrite Hs. reflexivity.
Qed.

Lemma try_parse_driver_no_schema entry s :
  driver_schema (St.self s) = [] ->
  try_parse_driver validate_driver entry s
  = try_parse_driver validate_driver' entry s.
Proof.
  intros Hs. destruct entry as [path file].
  unfold try_parse_driver, try_except. rewrite !bind_logger.
  now rewrite (bind_run_eq _ _ _ _
                 (parse_driver_manifest_no_schema path file
                    (logged "INFO" ("Parsing driver manifest: " ++ path) s)
                    Hs)).
Qed.

Lemma driver_loop_no_schema files : forall s,
  driver_schema (St.self s) = [] ->
  for_each files (try_parse_driver validate_driver) s
  = for_each files (try_parse_driver validate_driver') s.
Proof.
  induction files as [|entry files IH]; intros s Hs; [reflexivity|].
  cbn [for_each].
  destruct (try_parse_driver_self validate_driver' entry s)
    as (s1 & ds & Heq & H1 & _).
  pose proof Heq as Heq0.
  rewrite <- (try_parse_driver_no_schema entry s Hs) in Heq0.
  rewrite (bind_run_ok _ _ _ _ _ Heq), (bind_run_ok _ _ _ _ _ Heq0).
  apply IH. rewrite H1. exact Hs.
Qed.

Lemma parse_driver_manifest_passed path manifest s :
  driver_schema (St.self s) = []
  \/ validate_driver manifest (driver_schema (St.self s)) = Conforms ->
  parse_driver_manifest validate_driver path (Some manifest) s
  = (s, Ok (Some
             (PyDict.set "apis"
                (match DriverManifest.apis manifest with
                 | Some a => PyDict.get_default "specific" (JArr []) a
                 | None => JArr []
                 end)
                (PyDict.set "manifest_path" (JStr path)
                   (or_default [] (DriverManifest.driver manifest)))))).
Proof.
  intros Hpass. unfold parse_driver_manifest. cbn [load].
  rewrite bind_ret, bind_get_self. unfold check_schema.
  destruct (driver_schema (St.self s)) as [|e schema] eqn:Hs.
  - reflexivity.
  - destruct Hpass as [Hpass|Hpass]; [discriminate|].
    rewrite Hpass. reflexivity.
Qed.
End SchemaFacts.

(** X8. When both schemas are empty, as [_load_schema] leaves them when the
    schema files are missing, [parse_manifests] never consults the schema
    validator: it behaves the same whatever the validator would answer. *)
Theorem parse_manifests_without_schemas
    (validate_module validate_module'
       : ModuleManifest.t -> dict json -> validation_outcome)
    (validate_driver validate_driver'
       : DriverManifest.t -> dict json -> validation_outcome)
    (s : ManifestProcessor.St.t) :
  ManifestProcessor.module_schema (ManifestProcessor.St.self s) = [] ->
  ManifestProcessor.driver_schema (ManifestProcessor.St.self s) = [] ->
  ManifestProcessor.parse_manifests validate_module validate_driver s
  = ManifestProcessor.parse_manifests validate_module' validate_driver' s.
Proof.
  intros Hm Hd. unfold ManifestProcessor.parse_manifests.
  rewrite !bind_get_self.
  destruct (module_loop_run validate_module'
              (Tree.module_manifests
                 (ManifestProcessor.manifest_files
                    (ManifestProcessor.St.self s))) s)
    as (s1 & Heq & Hsame & _).
  pose proof Heq as Heq0.
  rewrite <- (module_loop_no_schema validate_module validate_module'
                _ s Hm) in Heq0.
  rewrite (bind_run_ok _ _ _ _ _ Heq), (bind_run_ok _ _ _ _ _ Heq0).
  apply driver_loop_no_schema.
  destruct Hsame as (_ & _ & _ & Hds & _). congruence.
Qed.

Lemma parse_manifests_without_schemas_witness :
  let s := fst (ManifestProcessor.discover_manifests Samples.two_modules_tree
                  (Samples.fresh Samples.clock_a [])) in
  ManifestProcessor.module_schema (ManifestProcessor.St.self s) = []
  /\ ManifestProcessor.driver_schema (ManifestProcessor.St.self s) = []
  /\ ManifestProcessor.parse_manifests Samples.conforms Samples.conforms s
     = ManifestProcessor.parse_manifests Samples.rejects Samples.rejects s.
Proof.
  intros s.
  split; [reflexivity|]. split; [reflexivity|].
  apply (parse_manifests_without_schemas
           Samples.conforms Samples.rejects Samples.conforms Samples.rejects s);
    reflexivity.
Defined.

(** X9. For a driver manifest that loads and passes the schema check,
    [parse_driver_manifest] returns the manifest's ['driver'] object with
    ['manifest_path'] set to the path and ['apis'] set to the specific
    APIs of the manifest (an empty list when there are none): values the
    object held under these two keys are overwritten, every other key is
    kept, and the processor is left as it was. *)
Theorem parse_driver_manifest_overrides
    (validate_driver : DriverManifest.t -> dict json -> validation_outcome)
    (path : string) (manifest : DriverManifest.t)
    (s : ManifestProcessor.St.t) :
  ManifestProcessor.driver_schema (ManifestProcessor.St.self s) = []
  \/ validate_driver manifest
       (ManifestProcessor.driver_schema (ManifestProcessor.St.self s))
     = Conforms ->
  exists driver,
    ManifestProcessor.parse_driver_manifest validate_driver path
      (Some manifest) s
    = (s, Ok (Some driver))
    /\ PyDict.get "manifest_path" driver = Some (JStr path)
    /\ PyDict.get "apis" driver
       = Some (match DriverManifest.apis manifest with
               | Some a => PyDict.get_default "specific" (JArr []) a
               | None => JArr []
               end)
    /\ forall key,
         key <> "manifest_path" -> key <> "apis" ->
         PyDict.get key driver
         = match DriverManifest.driver manifest with
           | Some data => PyDict.get key data
           | None => None
           end.
Proof.
  intros Hpass. eexists. split.
  - apply parse_driver_manifest_passed. exact Hpass.
  - conjs.
    + rewrite get_set_other by discriminate. apply get_set_same.
    + apply get_set_same.
    + intros key H1 H2.
      rewrite !get_set_other by congruence.
      now destruct (DriverManifest.driver manifest).
Qed.


(** ** The dependency resolver *)

Section ResolverFacts.
Import ManifestProcessor Notions Behaviour.

Lemma with_log_nil s : with_log [] s = s.
Proof.
  unfold with_log. rewrite app_nil_r.
  destruct s as [p [l f c t]]. reflexivity.
Qed.

Lemma with_log_app l1 l2 s : with_log l2 (with_log l1 s) = with_log (l1 ++ l2) s.
Proof. unfold with_log. cbn. now rewrite app_assoc. Qed.

Lemma logged_with_log level msg s :
  logged level msg s = with_log [(level, msg)] s.
Proof. reflexivity. Qed.

(** The inner loop of [resolve_dependencies] over the dependencies of one
    module. *)
Lemma dependency_loop_run module_names module deps : forall s,
  for_each deps (fun dep =>
    if andb (negb (PyStr.mem dep module_names))
            (negb (PyStr.mem dep resolver_system_dependencies))
    then logger "WARNING"
           ("Module " ++ ModuleInfo.name module
            ++ " depends on unknown module: " ++ dep)%string
    else ret tt) s
  = (with_log
       (map (resolver_warning (ModuleInfo.name module))
          (filter
             (fun dep =>
                negb (PyStr.mem dep module_names)
                && negb (PyStr.mem dep resolver_system_dependencies))
             deps)) s,
     Ok tt).
Proof.
  induction deps as [|dep deps IH]; intros s.
  - cbn. now rewrite with_log_nil.
  - cbn [for_each filter].
    destruct (negb (PyStr.mem dep module_names)
              && negb (PyStr.mem dep resolver_system_dependencies)).
    + rewrite bind_logger, IH, logged_with_log, with_log_app. reflexivity.
    + rewrite bind_ret, IH. reflexivity.
Qed.

Lemma module_dependency_loop_run module_names modules : forall s,
  for_each modules (fun module =>
    for_each (ModuleInfo.dependencies module) (fun dep =>
      if andb (negb (PyStr.mem dep module_names))
              (negb (PyStr.mem dep resolver_system_dependencies))
      then logger "WARNING"
             ("Module " ++ ModuleInfo.name module
              ++ " depends on unknown module: " ++ dep)%string
      else ret tt)) s
  = (with_log
       (flat_map
          (fun module =>
             map (resolver_warning (ModuleInfo.name module))
                 (unresolved module_names module))
          modules) s,
     Ok tt).
Proof.
  induction modules as [|module modules IH]; intros s.
  - cbn. now rewrite with_log_nil.
  - cbn [for_each flat_map].
    rewrite (bind_run_ok _ _ _ _ _
               (dependency_loop_run module_names module _ s)).
    rewrite IH, with_log_app. reflexivity.
Qed.

Lemma resolve_dependencies_run s :
  resolve_dependencies s
  = (with_log
       (("INFO", "Resolving dependencies...")
        :: flat_map
             (fun module =>
                map (resolver_warning (ModuleInfo.name module))
                    (unresolved (map ModuleInfo.name (modules (St.self s)))
                                module))
             (modules (St.self s))) s,
     Ok tt).
Proof.
  unfold resolve_dependencies. rewrite bind_logger, bind_get_self.
  change (modules (St.self (logged "INFO" "Resolving dependencies..." s)))
    with (modules (St.self s)).
  rewrite module_dependency_loop_run, logged_with_log, with_log_app.
  reflexivity.
Qed.

Lemma in_unresolved module_names module dep :
  In dep (unresolved module_names module) <->
  In dep (ModuleInfo.dependencies module)
  /\ ~ In dep module_names
  /\ ~ In dep resolver_system_dependencies.
Proof.
  unfold unresolved. rewrite filter_In, andb_true_iff, !negb_true_iff,
    !mem_false. tauto.
Qed.
End ResolverFacts.

(** X10. [resolve_dependencies] never raises and changes nothing but the
    log, to which it appends exactly these lines: its start, and then,
    module by module in the order of [modules] and dependency by
    dependency in the order listed, one warning for each listed
    dependency that is neither the name of a parsed module nor one of
    ESPhal, SharedState and EventBus. A dependency listed twice is warned
    about twice. *)
Theorem resolve_dependencies_warns (s : ManifestProcessor.St.t) :
  let modules := ManifestProcessor.modules (ManifestProcessor.St.self s) in
  let names := map ModuleInfo.name modules in
  ManifestProcessor.resolve_dependencies s
  = (Behaviour.with_log
       (("INFO", "Resolving dependencies...")
        :: flat_map
             (fun module =>
                map (Behaviour.resolver_warning (ModuleInfo.name module))
                    (filter
                       (fun dep =>
                          negb (PyStr.mem dep names)
                          && negb (PyStr.mem dep
                                     ["ESPhal"; "SharedState"; "EventBus"]))
                       (ModuleInfo.dependencies module)))
             modules) s,
     Ok tt)
  /\ forall module dep,
       In dep
          (filter
             (fun dep =>
                negb (PyStr.mem dep names)
                && negb (PyStr.mem dep
                           ["ESPhal"; "SharedState"; "EventBus"]))
             (ModuleInfo.dependencies module))
       <-> In dep (ModuleInfo.dependencies module)
           /\ ~ In dep names
           /\ ~ In dep ["ESPhal"; "SharedState"; "EventBus"].
Proof.
  intros modules names. split.
  - apply resolve_dependencies_run.
  - intros module dep. apply (in_unresolved names module dep).
Qed.

(** X11. The two lists of system dependencies disagree on ConfigManager:
    the validator never files an issue for a dependency on it, while
    [resolve_dependencies] warns about it as an unknown module unless a
    parsed module has that name. *)
Theorem config_manager_known_to_validator_only
    (s : ManifestProcessor.St.t) (module : ModuleInfo.t) :
  let modules := ManifestProcessor.modules (ManifestProcessor.St.self s) in
  In module modules ->
  In "ConfigManager" (ModuleInfo.dependencies module) ->
  ~ In "ConfigManager" (map ModuleInfo.name modules) ->
  In (Behaviour.resolver_warning (ModuleInfo.name module) "ConfigManager")
     (World.log
        (ManifestProcessor.St.world
           (fst (ManifestProcessor.resolve_dependencies s))))
  /\ forall manifests issue,
       In issue (ManifestValidator.dependency_issues manifests) ->
       ValidationIssue.target issue <> "ConfigManager".
Proof.
  intros modules Hm Hd Hn. split.
  - rewrite resolve_dependencies_run. cbn [fst Behaviour.with_log
      ManifestProcessor.St.world World.log].
    apply in_or_app. right. right. apply in_flat_map.
    exists module. split; [exact Hm|]. apply in_map.
    apply in_unresolved. fold modules. split; [exact Hd|].
    split; [exact Hn|].
    intros [H|[H|[H|[]]]]; discriminate.
  - intros manifests issue Hi. apply in_dependency_issues in Hi.
    destruct Hi as (m & dep & _ & _ & Hsys & _ & ->).
    cbn [ValidationIssue.target]. intros ->. discriminate Hsys.
Qed.

Lemma config_manager_known_to_validator_only_witness :
  let module :=
    ModuleInfo.mk "Logger" "STANDARD" "1.0.0" "" "NORMAL" ["ConfigManager"]
      [] (JArr []) [] [] None "components/logger/module_manifest.json" []
      None in
  let s :=
    ManifestProcessor.St.mk
      (ManifestProcessor.with_modules [module]
         (ManifestProcessor.init "." "main/generated" [] []))
      (World.init Samples.clock_a) in
  In module (ManifestProcessor.modules (ManifestProcessor.St.self s))
  /\ In "ConfigManager" (ModuleInfo.dependencies module)
  /\ ~ In "ConfigManager"
       (map ModuleInfo.name
          (ManifestProcessor.modules (ManifestProcessor.St.self s)))
  /\ In ("WARNING", "Module Logger depends on unknown module: ConfigManager")
        (World.log
           (ManifestProcessor.St.world
              (fst (ManifestProcessor.resolve_dependencies s)))).
Proof.
  intros module s.
  assert (H1 : In module
                 (ManifestProcessor.modules (ManifestProcessor.St.self s)))
    by (left; reflexivity).
  assert (H2 : In "ConfigManager" (ModuleInfo.dependencies module))
    by (left; reflexivity).
  assert (H3 : ~ In "ConfigManager"
                 (map ModuleInfo.name
                    (ManifestProcessor.modules (ManifestProcessor.St.self s)))).
  { intros [H|[]]. discriminate H. }
  split; [exact H1|]. split; [exact H2|]. split; [exact H3|].
  exact (proj1 (config_manager_known_to_validator_only s module H1 H2 H3)).
Defined.

Lemma parse_driver_manifest_overrides_witness :
  let manifest :=
    DriverManifest.mk
      (Some [("name", JStr "ds18b20"); ("manifest_path", JStr "elsewhere")])
      None in
  let path := "components/sensor_drivers/ds18b20_driver_manifest.json" in
  let s := Samples.fresh Samples.clock_a [] in
  (ManifestProcessor.driver_schema (ManifestProcessor.St.self s) = []
   \/ Samples.rejects manifest
        (ManifestProcessor.driver_schema (ManifestProcessor.St.self s))
      = Conforms)
  /\ exists driver,
       ManifestProcessor.parse_driver_manifest Samples.rejects path
         (Some manifest) s
       = (s, Ok (Some driver))
       /\ PyDict.get "manifest_path" driver = Some (JStr path)
       /\ PyDict.get "apis" driver = Some (JArr [])
       /\ PyDict.get "name" driver = Some (JStr "ds18b20").
Proof.
  intros manifest path s.
  assert (H : ManifestProcessor.driver_schema (ManifestProcessor.St.self s)
              = []
              \/ Samples.rejects manifest
                   (ManifestProcessor.driver_schema
                      (ManifestProcessor.St.self s))
                 = Conforms) by (left; reflexivity).
  split; [exact H|].
  destruct (parse_driver_manifest_overrides Samples.rejects path manifest s H)
    as (driver & Heq & Hp & Ha & Hk).
  exists driver. split; [exact Heq|]. split; [exact Hp|].
  split; [exact Ha|]. apply (Hk "name"); discriminate.
Defined.


(** ** The validation report *)

Section ReportFacts.
Import ValidationReport.

Lemma get_group c l : forall t,
  PyDict.get c (fold_left group l t)
  = match filter (fun i => ValidationIssue.category i =? c) l with
    | [] => PyDict.get c t
    | found => Some (PyDict.get_default c [] t ++ found)
    end.
Proof.
  unfold group.
  induction l as [|i l IH]; intros t; [reflexivity|].
  cbn [fold_left filter]. rewrite IH.
  destruct (String.eqb_spec (ValidationIssue.category i) c) as [->|Hne].
  - unfold PyDict.get_default. rewrite get_append_to_same.
    destruct (filter _ l); [reflexivity|].
    now rewrite <- app_assoc.
  - unfold PyDict.get_default. rewrite !get_append_to_other by exact Hne.
    reflexivity.
Qed.

Lemma in_keys_group c l : forall t,
  In c (PyDict.keys (fold_left group l t))
  <-> In c (PyDict.keys t) \/ In c (map ValidationIssue.category l).
Proof.
  unfold group. induction l as [|i l IH]; intros t; simpl.
  - tauto.
  - rewrite IH, in_keys_append_to. intuition congruence.
Qed.

Lemma NoDup_keys_group l : forall t,
  NoDup (PyDict.keys t) -> NoDup (PyDict.keys (fold_left group l t)).
Proof.
  unfold group. induction l as [|i l IH]; intros t Hnd; simpl.
  - exact Hnd.
  - apply IH. now apply NoDup_keys_append_to.
Qed.

Lemma count_severity_none sev l :
  count_severity sev l = 0%nat
  <-> existsb (fun i => ValidationIssue.severity i =? sev) l = false.
Proof.
  unfold count_severity. induction l as [|i l IH]; simpl; [tauto|].
  destruct (ValidationIssue.severity i =? sev); simpl.
  - split; discriminate.
  - exact IH.
Qed.

Lemma count_severity_total l :
  (forall i, In i l ->
     In (ValidationIssue.severity i) ["ERROR"; "WARNING"; "INFO"]) ->
  (count_severity "ERROR" l + count_severity "WARNING" l
   + count_severity "INFO" l = List.length l)%nat.
Proof.
  unfold count_severity. induction l as [|i l IH]; intros Hall; [reflexivity|].
  assert (Hi := Hall i (or_introl eq_refl)).
  assert (Hl := IH (fun j Hj => Hall j (or_intror Hj))).
  cbn [filter List.length].
  destruct Hi as [<-|[<-|[<-|[]]]]; cbn [String.eqb Ascii.eqb Bool.eqb];
    cbn [List.length]; lia.
Qed.
End ReportFacts.

(** X12. The summary of the report accounts for every issue that
    [validate_all] returns: each has one of the severities ERROR, WARNING
    and INFO, so the three counts add up to the number of issues, and the
    count of errors is zero exactly when the verdict is true. *)
Theorem report_summary_accounts_for_issues
    (modules : list Manifest.t) (v : ManifestValidator.t) :
  let verdict := fst (snd (ManifestValidator.validate_all modules v)) in
  let issues := snd (snd (ManifestValidator.validate_all modules v)) in
  (ValidationReport.count_severity "ERROR" issues
   + ValidationReport.count_severity "WARNING" issues
   + ValidationReport.count_severity "INFO" issues
   = List.length issues)%nat
  /\ (ValidationReport.count_severity "ERROR" issues = 0%nat
      <-> verdict = true).
Proof.
  intros verdict issues. split.
  - apply count_severity_total. intros i Hi.
    apply in_validate_all, discovered_follow in Hi. destruct Hi as [_ Hi].
    apply rule_rank in Hi.
    destruct Hi as [H|[H|[H|[]]]]; injection H as <- _; pick.
  - rewrite count_severity_none. subst verdict issues.
    rewrite validate_all_eq. cbv zeta. cbn [fst snd].
    now rewrite negb_true_iff.
Qed.

(** X13. The report groups the issues by category: the table it builds
    has each category of the issues once as a key, and holds under a
    category exactly the issues of that category, in the order of the
    issue list. *)
Theorem report_groups_by_category (issues : list ValidationIssue.t) :
  let categories := fold_left ValidationReport.group issues [] in
  NoDup (PyDict.keys categories)
  /\ (forall category,
        In category (PyDict.keys categories)
        <-> In category (map ValidationIssue.category issues))
  /\ forall category,
       PyDict.get category categories
       = match filter (fun i => ValidationIssue.category i =? category)
                      issues with
         | [] => None
         | found => Some found
         end.
Proof.
  intros categories. conjs.
  - apply NoDup_keys_group. constructor.
  - intros category. subst categories. rewrite in_keys_group. simpl. tauto.
  - intros category. subst categories. rewrite get_group. reflexivity.
Qed.


(** ** The gate of the pipeline *)

Section GateFacts.
Import ManifestProcessor Notions Behaviour.
Variable validate_module : ModuleManifest.t -> dict json -> validation_outcome.
Variable validate_driver : DriverManifest.t -> dict json -> validation_outcome.

(** Without parsed modules the consistency step finds nothing: it writes
    the report of a passed validation and returns [True]. *)
Lemma validate_manifest_consistency_passes s :
  modules (St.self s) = [] ->
  exists s',
    validate_manifest_consistency s = (s', Ok true)
    /\ St.self s' = St.self s
    /\ World.files (St.world s')
       = PyDict.set
           (path_join (path_join (project_root (St.self s)) "build")
                      "manifest_validation_report.md")
           (ValidationReport.generate_validation_report [])
           (World.files (St.world s)).
Proof.
  intros Hnil. unfold validate_manifest_consistency.
  rewrite bind_logger, bind_get_self.
  change (modules (St.self (logged "INFO"
            "Validating manifest consistency..." s)))
    with (modules (St.self s)).
  rewrite Hnil. cbn [map_M]. rewrite bind_ret.
  eexists. split; [reflexivity|]. split; reflexivity.
Qed.

Lemma bind_ok {A B} (c : M A) (k : A -> M B) :
  (forall s, exists s' a, c s = (s', Ok a)) ->
  (forall a s, exists s' b, k a s = (s', Ok b)) ->
  forall s, exists s' b, bind c k s = (s', Ok b).
Proof.
  intros Hc Hk s. destruct (Hc s) as (s1 & a & Heq).
  rewrite (bind_run_ok _ _ _ _ _ Heq). apply Hk.
Qed.

Lemma logger_ok level msg s : exists s' a, logger level msg s = (s', Ok a).
Proof. eexists. eexists. reflexivity. Qed.

Lemma now_ok s : exists s' a, now s = (s', Ok a).
Proof. eexists. eexists. reflexivity. Qed.

Lemma write_file_ok path content s :
  exists s' a, write_file path content s = (s', Ok a).
Proof. eexists. eexists. reflexivity. Qed.

Lemma get_self_ok s : exists s' a, get_self s = (s', Ok a).
Proof. eexists. eexists. reflexivity. Qed.

Lemma generate_code_ok s : exists s', generate_code s = (s', Ok tt).
Proof.
  assert (H : exists s' a, generate_code s = (s', Ok a)).
  { unfold generate_code, generate_api_registry, generate_module_info,
      generate_event_registry.
    repeat match goal with
           | |- exists _ _, bind _ _ _ = _ => apply bind_ok; intros
           | |- exists _ _, logger _ _ _ = _ => apply logger_ok
           | |- exists _ _, now _ = _ => apply now_ok
           | |- exists _ _, write_file _ _ _ = _ => apply write_file_ok
           | |- exists _ _, get_self _ = _ => apply get_self_ok
           end. }
  destruct H as (s' & [] & H). now exists s'.
Qed.

Lemma consistency_outcome s :
  (exists s', validate_manifest_consistency s = (s', Ok true))
  \/ (exists s' msg,
        validate_manifest_consistency s = (s', Raise (AttributeError msg))).
Proof.
  destruct (modules (St.self s)) as [|m ms] eqn:Hm.
  - left. destruct (validate_manifest_consistency_passes s Hm) as (s' & H & _).
    eauto.
  - right. eexists. eexists.
    apply validate_manifest_consistency_raises. rewrite Hm. discriminate.
Qed.
End GateFacts.

(** X14. The gate of [process_all] never closes: the consistency step
    either raises AttributeError or returns [True], never [False], so the
    [sys.exit(1)] that follows a failed validation is never reached,
    whatever the manifests hold. *)
Theorem validation_gate_never_closes
    (validate_module : ModuleManifest.t -> dict json -> validation_outcome)
    (validate_driver : DriverManifest.t -> dict json -> validation_outcome)
    (tree : Tree.t) (s : ManifestProcessor.St.t) :
  snd (ManifestProcessor.validate_manifest_consistency s) <> Ok false
  /\ (forall code,
        snd (ManifestProcessor.process_all validate_module validate_driver
               tree s)
        <> Raise (SystemExit code)).
Proof.
  assert (Hrun :
    snd (ManifestProcessor.process_all validate_module validate_driver tree s)
    = Ok tt
    \/ exists msg,
         snd (ManifestProcessor.process_all validate_module validate_driver
                tree s) = Raise (AttributeError msg)).
  { rewrite process_all_after_parsing.
    set (s1 := Notions.after_parsing validate_module validate_driver tree s).
    destruct (consistency_outcome s1) as [(s2 & Heq)|(s2 & msg & Heq)].
    - left. rewrite (bind_run_ok _ _ _ _ _ Heq). cbn [negb].
      rewrite bind_ret.
      rewrite (bind_run_ok _ _ _ _ _ (resolve_dependencies_run s2)).
      match goal with
      | |- snd (ManifestProcessor.bind _ _ ?s3) = _ =>
          destruct (generate_code_ok s3) as (s4 & Hg);
          rewrite (bind_run_ok _ _ _ _ _ Hg)
      end.
      reflexivity.
    - right. exists msg. now rewrite (bind_run_raise _ _ _ _ _ Heq). }
  split.
  - destruct (consistency_outcome s) as [(s2 & Heq)|(s2 & msg & Heq)];
      rewrite Heq; discriminate.
  - intros code. destruct Hrun as [H|(msg & H)]; rewrite H; discriminate.
Qed.


(** X15. The event registry holds one constant per key of [all_events],
    in ascending order of the keys, and never a state constant: the
    dicts [_module_to_dict] returns have no ['shared_state'] entry, so the
    States namespace is empty whatever the parsed modules publish. *)
Theorem event_registry_constants
    (timestamp : string) (all_events : dict (list string))
    (modules : list ModuleInfo.t) :
  exists keys,
    ManifestProcessor.event_registry_code timestamp all_events modules
    = ManifestProcessor.provenance timestamp
      ++ ["// For detailed documentation see: components/system_contract/";
          "";
          "#pragma once";
          "";
          "namespace ModESP {";
          "";
          "namespace Events {";
          "    // Event name constants for compile-time checking"]
      ++ map ManifestProcessor.constant_line keys
      ++ ["} // namespace Events";
          "";
          "namespace States {";
          "    // SharedState key constants";
          "} // namespace States";
          "";
          "} // namespace ModESP"]
    /\ Permutation (PyDict.keys all_events) keys
    /\ StronglySorted (fun a b => String.leb a b = true) keys.
Proof.
  exists (PyStr.sorted (PyDict.keys all_events)). conjs.
  - apply event_registry_code_eq.
  - apply sorted_perm.
  - apply (stable_sort_sorted String.leb string_leb_total string_leb_trans).
Qed.





(** ** The components of the adaptive UI *)

Section CollectFacts.
Import AdaptiveUIGenerator.

Lemma collect_from_returns source components : forall all_components r,
  collect_from source components all_components = Returns r ->
  exists news,
    r = all_components ++ news
    /\ List.length news = List.length components
    /\ forall comp, In comp news ->
         exists name fields,
           source = Returns name
           /\ comp = JObj (PyDict.set "source" name fields).
Proof.
  induction components as [|comp components IH]; intros acc r H.
  - injection H as <-. exists []. rewrite app_nil_r.
    split; [reflexivity|]. split; [reflexivity|]. intros c [].
  - cbn [collect_from] in H. unfold bind in H.
    destruct source as [name|e] eqn:Hs; [|discriminate].
    destruct comp as [| | | | |fields]; try discriminate. cbn in H.
    apply IH in H. destruct H as (news & -> & Hlen & Hall).
    exists (JObj (PyDict.set "source" name fields) :: news).
    rewrite <- app_assoc. split; [reflexivity|].
    split; [cbn; now rewrite Hlen|].
    intros c [<-|Hc]; [exists name, fields; split; reflexivity|].
    now apply Hall.
Qed.

Lemma collect_module_returns all_components module r :
  collect_module all_components module = Returns r ->
  exists news,
    r = all_components ++ news
    /\ forall comp, In comp news ->
         ModuleSection.type (Manifest.module module) = "MANAGER"
         /\ exists fields,
              comp = JObj (PyDict.set "source"
                             (JStr (ModuleSection.name
                                      (Manifest.module module)))
                             fields).
Proof.
  unfold collect_module.
  destruct (String.eqb_spec (ModuleSection.type (Manifest.module module))
              "MANAGER") as [Ht|Ht].
  - unfold bind.
    destruct (get "adaptive" _ _) as [ui_adaptive|]; [|discriminate].
    destruct (get "components" _ ui_adaptive) as [components|];
      [|discriminate].
    destruct (iter components) as [l|]; [|discriminate].
    intros H. apply collect_from_returns in H.
    destruct H as (news & -> & _ & Hall). exists news.
    split; [reflexivity|]. intros comp Hc. split; [exact Ht|].
    destruct (Hall comp Hc) as (name & fields & [= <-] & ->).
    now exists fields.
  - intros [= <-]. exists []. rewrite app_nil_r.
    split; [reflexivity|]. intros c [].
Qed.

Lemma collect_driver_returns all_components driver r :
  collect_driver all_components driver = Returns r ->
  exists news,
    r = all_components ++ news
    /\ forall comp, In comp news ->
         exists section name fields,
           PyDict.get "driver" driver = Some section
           /\ item "name" section = Returns name
           /\ comp = JObj (PyDict.set "source" name fields).
Proof.
  unfold collect_driver. cbv zeta. unfold bind at 1 2.
  destruct (get "components" _ _) as [components|]; [|discriminate].
  destruct (iter components) as [l|]; [|discriminate].
  intros H. apply collect_from_returns in H.
  destruct H as (news & -> & _ & Hall). exists news.
  split; [reflexivity|]. intros comp Hc.
  destruct (Hall comp Hc) as (name & fields & Hs & ->).
  cbn [bind item] in Hs.
  destruct (PyDict.get "driver" driver) as [section|]; [|discriminate].
  exists section, name, fields. conjs; try reflexivity. exact Hs.
Qed.

Lemma for_each_returns {X} (body : list json -> X -> outcome (list json))
    (P : X -> json -> Prop) :
  (forall acc x r, body acc x = Returns r ->
     exists news, r = acc ++ news /\ forall c, In c news -> P x c) ->
  forall l acc r,
    for_each body l acc = Returns r ->
    exists news,
      r = acc ++ news
      /\ forall c, In c news -> exists x, In x l /\ P x c.
Proof.
  intros Hbody. induction l as [|x l IH]; intros acc r H.
  - injection H as <-. exists []. rewrite app_nil_r.
    split; [reflexivity|]. intros c [].
  - cbn [for_each] in H. unfold bind in H.
    destruct (body acc x) as [acc'|] eqn:Hx; [|discriminate].
    apply Hbody in Hx. destruct Hx as (n1 & -> & H1).
    apply IH in H. destruct H as (n2 & -> & H2).
    exists (n1 ++ n2). rewrite app_assoc. split; [reflexivity|].
    intros c Hc. apply in_app_or in Hc. destruct Hc as [Hc|Hc].
    + exists x. split; [now left|now apply H1].
    + destruct (H2 c Hc) as (y & Hy & Hp). exists y. split; [now right|exact Hp].
Qed.

(** A driver without a ['driver'] entry adds no component. *)
Lemma collect_driver_nothing all_components driver r :
  PyDict.get "driver" driver = None ->
  collect_driver all_components driver = Returns r -> r = all_components.
Proof.
  intros Hnone H. apply collect_driver_returns in H.
  destruct H as ([|c news] & -> & Hall); [apply app_nil_r|].
  destruct (Hall c (or_introl eq_refl)) as (section & _ & _ & Hsome & _).
  congruence.
Qed.

Lemma collect_driver_raises all_components driver ext comp components :
  PyDict.get "driver" driver = None ->
  PyDict.get "ui_extensions" driver = Some (JObj ext) ->
  PyDict.get "components" ext = Some (JArr (comp :: components)) ->
  collect_driver all_components driver = Raises (KeyError "driver").
Proof.
  intros Hnone Hext Hcomps. unfold collect_driver, PyDict.get_default.
  rewrite Hext. cbn [get]. unfold PyDict.get_default. rewrite Hcomps.
  cbn [bind iter collect_from item]. now rewrite Hnone.
Qed.

Lemma driver_loop_nothing drivers : forall all_components r,
  (forall driver, In driver drivers -> PyDict.get "driver" driver = None) ->
  for_each collect_driver drivers all_components = Returns r ->
  r = all_components.
Proof.
  induction drivers as [|d drivers IH]; intros acc r Hall H.
  - now injection H as <-.
  - cbn [for_each] in H. unfold bind in H.
    destruct (collect_driver acc d) as [acc'|] eqn:Hd; [|discriminate].
    apply collect_driver_nothing in Hd; [|apply Hall; now left]. subst acc'.
    apply IH in H; [exact H|]. intros d' Hd'. apply Hall. now right.
Qed.
End CollectFacts.

(** X17. When [_collect_components] returns, every component it has
    collected is an object whose ['source'] has been set, over whatever
    the manifest gave, to the name of a module of type MANAGER that was
    handed in, or to the ['name'] found under the ['driver'] entry of a
    driver that was handed in. Modules of other types contribute
    nothing. *)
Theorem collected_components_have_source
    (modules : list Manifest.t) (drivers : list (dict json))
    (components : list json) :
  AdaptiveUIGenerator._collect_components modules drivers
  = AdaptiveUIGenerator.Returns components ->
  forall comp, In comp components ->
    exists source fields,
      comp = JObj (PyDict.set "source" source fields)
      /\ ((exists module,
             In module modules
             /\ ModuleSection.type (Manifest.module module) = "MANAGER"
             /\ source = JStr (ModuleSection.name (Manifest.module module)))
          \/ (exists driver section,
                In driver drivers
                /\ PyDict.get "driver" driver = Some section
                /\ AdaptiveUIGenerator.item "name" section
                   = AdaptiveUIGenerator.Returns source)).
Proof.
  unfold AdaptiveUIGenerator._collect_components, AdaptiveUIGenerator.bind.
  destruct (AdaptiveUIGenerator.for_each AdaptiveUIGenerator.collect_module
              modules []) as [from_modules|] eqn:Hm; [|discriminate].
  intros Hd comp Hin.
  apply (for_each_returns _ _ collect_module_returns) in Hm.
  apply (for_each_returns _ _ collect_driver_returns) in Hd.
  destruct Hm as (n1 & -> & H1). destruct Hd as (n2 & -> & H2).
  cbn [app] in Hin. apply in_app_or in Hin. destruct Hin as [Hin|Hin].
  - destruct (H1 comp Hin) as (module & Hmod & Ht & fields & ->).
    eexists. exists fields. split; [reflexivity|].
    left. exists module. auto.
  - destruct (H2 comp Hin)
      as (driver & Hdr & section & name & fields & Hs & Hn & ->).
    exists name, fields. split; [reflexivity|].
    right. exists driver, section. auto.
Qed.

Lemma collected_components_have_source_witness :
  let module :=
    Manifest.mk
      (ModuleSection.mk "SensorManager" "MANAGER" "1.0.0" "" "NORMAL" None
         None)
      (Some (JObj
               [("adaptive",
                 JObj [("components",
                        JArr [JObj [("id", JStr "interval");
                                    ("source", JStr "manifest")]])])]))
      None None None in
  AdaptiveUIGenerator._collect_components [module; Samples.sensors] []
  = AdaptiveUIGenerator.Returns
      [JObj [("id", JStr "interval"); ("source", JStr "SensorManager")]]
  /\ exists source fields,
       JObj [("id", JStr "interval"); ("source", JStr "SensorManager")]
       = JObj (PyDict.set "source" source fields)
       /\ source = JStr "SensorManager".
Proof.
  intros module.
  assert (H : AdaptiveUIGenerator._collect_components
                [module; Samples.sensors] []
              = AdaptiveUIGenerator.Returns
                  [JObj [("id", JStr "interval");
                         ("source", JStr "SensorManager")]])
    by reflexivity.
  split; [exact H|].
  destruct (collected_components_have_source _ _ _ H _ (or_introl eq_refl))
    as (source & fields & Heq & [(m & Hm & Ht & Hs)|(d & _ & [] & _)]).
  exists source, fields. split; [exact Heq|].
  destruct Hm as [<-|[<-|[]]]; [exact Hs|discriminate Ht].
Defined.

(** X18. A driver without a ['driver'] entry of its own never adds a
    component: when [_collect_components] returns, it returns what the
    modules alone give; and when such a driver lists at least one
    component under ['ui_extensions'], [_collect_components] does not
    return, provided the modules alone would. *)
Theorem drivers_without_driver_entry
    (modules : list Manifest.t) (drivers : list (dict json)) :
  (forall driver, In driver drivers -> PyDict.get "driver" driver = None) ->
  (forall components,
     AdaptiveUIGenerator._collect_components modules drivers
     = AdaptiveUIGenerator.Returns components ->
     AdaptiveUIGenerator._collect_components modules []
     = AdaptiveUIGenerator.Returns components)
  /\ (forall driver ext comp components,
        In driver drivers ->
        PyDict.get "ui_extensions" driver = Some (JObj ext) ->
        PyDict.get "components" ext = Some (JArr (comp :: components)) ->
        (exists from_modules,
           AdaptiveUIGenerator._collect_components modules []
           = AdaptiveUIGenerator.Returns from_modules) ->
        exists e,
          AdaptiveUIGenerator._collect_components modules drivers
          = AdaptiveUIGenerator.Raises e).
Proof.
  intros Hnone.
  assert (Hret : forall components,
    AdaptiveUIGenerator._collect_components modules drivers
    = AdaptiveUIGenerator.Returns components ->
    AdaptiveUIGenerator._collect_components modules []
    = AdaptiveUIGenerator.Returns components).
  { unfold AdaptiveUIGenerator._collect_components, AdaptiveUIGenerator.bind.
    destruct (AdaptiveUIGenerator.for_each
                AdaptiveUIGenerator.collect_module modules [])
      as [from_modules|]; [|discriminate].
    intros components H. apply driver_loop_nothing in H; [|exact Hnone].
    now subst. }
  split; [exact Hret|].
  intros driver ext comp components Hin Hext Hcomps (from_modules & Hm).
  destruct (AdaptiveUIGenerator._collect_components modules drivers)
    as [r|e] eqn:Hrun; [|now exists e].
  exfalso. clear Hret.
  unfold AdaptiveUIGenerator._collect_components, AdaptiveUIGenerator.bind
    in Hrun.
  destruct (AdaptiveUIGenerator.for_each
              AdaptiveUIGenerator.collect_module modules [])
    as [acc|]; [|discriminate].
  clear Hm. revert acc Hrun.
  induction drivers as [|d drivers IH]; intros acc Hrun; [contradiction|].
  cbn [AdaptiveUIGenerator.for_each] in Hrun.
  unfold AdaptiveUIGenerator.bind in Hrun.
  destruct (AdaptiveUIGenerator.collect_driver acc d) as [acc'|] eqn:Hd;
    [|discriminate].
  destruct Hin as [->|Hin].
  - rewrite (collect_driver_raises acc driver ext comp components) in Hd;
      [discriminate| |exact Hext|exact Hcomps].
    apply Hnone. now left.
  - apply (IH (fun d' Hd' => Hnone d' (or_intror Hd')) Hin acc' Hrun).
Qed.

Lemma drivers_without_driver_entry_witness :
  let driver :=
    [("name", JStr "ds18b20");
     ("ui_extensions",
      JObj [("components", JArr [JObj [("id", JStr "resolution")]])]);
     ("manifest_path", JStr "components/ds18b20_driver_manifest.json");
     ("apis", JArr [])] in
  (forall d, In d [driver] -> PyDict.get "driver" d = None)
  /\ exists e,
       AdaptiveUIGenerator._collect_components [] [driver]
       = AdaptiveUIGenerator.Raises e.
Proof.
  intros driver.
  assert (H : forall d, In d [driver] -> PyDict.get "driver" d = None).
  { intros d [<-|[]]. reflexivity. }
  split; [exact H|].
  apply (proj2 (drivers_without_driver_entry [] [driver] H)
           driver
           [("components", JArr [JObj [("id", JStr "resolution")]])]
           (JObj [("id", JStr "resolution")]) []).
  - left. reflexivity.
  - reflexivity.
  - reflexivity.
  - exists []. reflexivity.
Defined.


(** ** A manifest whose extraction raises *)

(** A manifest that passes the schema check and holds a number under
    ['ui']['static'] makes [parse_module_manifest] raise TypeError after
    its APIs have reached [all_apis] and before its events reach
    [all_events]. The loop logs the error and goes on: no module is
    appended, and the consistency step, which has no module to stumble
    on, returns [True]. *)
Example faulty_ui_is_skipped :
  let s :=
    Notions.after_parsing Samples.conforms Samples.conforms
      (Tree.mk [Samples.faulty_ui_file] [])
      (Samples.fresh Samples.clock_a []) in
  Notions.is_accepted Samples.conforms [] Samples.faulty_ui_file = true
  /\ Notions.is_parsed Samples.conforms [] Samples.faulty_ui_file = false
  /\ ManifestProcessor.modules (ManifestProcessor.St.self s) = []
  /\ ManifestProcessor.all_apis (ManifestProcessor.St.self s)
     = [[("method", "panel.get"); ("module", "Panel")]]
  /\ ManifestProcessor.all_events (ManifestProcessor.St.self s) = []
  /\ In ("ERROR",
         "Error parsing components/panel/module_manifest.json: argument of type 'int' is not iterable")
        (World.log (ManifestProcessor.St.world s))
  /\ snd (ManifestProcessor.validate_manifest_consistency s) = Ok true.
Proof.
  intros s. conjs; try reflexivity.
  vm_compute. do 5 right. left. reflexivity.
Qed.
